(** * start-server.py: a static demo server with fixed response headers

    The script subclasses [http.server.SimpleHTTPRequestHandler], overrides
    [end_headers] and runs a [socketserver.TCPServer] from [main].  The
    development below embeds both the script and the methods of the Python
    3.11 standard library that the script inherits or calls
    ([Lib/http/server.py], [Lib/socketserver.py], [Lib/posixpath.py]), so
    that statements about whole responses and about the whole process can
    be made.

    Python [bytes] values are byte strings.  A [str] of the protocol side
    (the request line, header names and values, status messages) is decoded
    from or encoded to iso-8859-1 and holds characters below 256 only; it
    is modelled by the string of these characters, one byte each, so that
    the decoding and the encoding are the identity.  A [str] of the
    filesystem side (the paths given to the operating system, the names
    [os.listdir] returns) may hold any character; it is modelled by its
    bytes in UTF-8, in which the separator and the dots of a path are the
    same bytes and the order of the characters is the order of the
    bytes. *)

From Stdlib Require Import ZArith Ascii String List Lia Sorted.
From Stdlib Require Import Numbers.DecimalString.
From stdpp Require Import base option list strings.

Local Open Scope string_scope.
Local Open Scope Z_scope.

(** ** Python string operations used by the code *)

Module Str.

Definition CR : ascii := "013"%char.
Definition LF : ascii := "010"%char.
Definition CRLF : string := String CR (String LF EmptyString).
Definition NL : string := String LF EmptyString.

  (** [b"".join(parts)] *)
Definition join (parts : list string) : string :=
    foldr String.append EmptyString parts.

  (** [sep.join(parts)] *)
Fixpoint join_with (sep : string) (parts : list string) : string :=
    match parts with
    | [] => ""
    | [x] => x
    | x :: parts' => x ++ sep ++ join_with sep parts'
    end.

  (** [str.lower] on a character below 256: the letters A to Z, and the
      letters from 192 to 222 but for the multiplication sign 215. *)
Definition lower_char (c : ascii) : ascii :=
    let n := nat_of_ascii c in
    if ((Nat.leb 65 n && Nat.leb n 90)
        || (Nat.leb 192 n && Nat.leb n 222 && negb (Nat.eqb n 215)))%bool
    then ascii_of_nat (n + 32) else c.

  (** [str.lower] on a str of the protocol side. *)
Fixpoint lower (s : string) : string :=
    match s with
    | EmptyString => EmptyString
    | String c s' => String (lower_char c) (lower s')
    end.

  (** [s.startswith(p)] *)
Definition startswith (p s : string) : bool := String.prefix p s.

  (** [c in s] for a single character. *)
Fixpoint mem (c : ascii) (s : string) : bool :=
    match s with
    | EmptyString => false
    | String d s' => if Ascii.eqb c d then true else mem c s'
    end.

  (** [s.endswith(c)] for a single character. *)
Fixpoint endswith (c : ascii) (s : string) : bool :=
    match s with
    | EmptyString => false
    | String d EmptyString => Ascii.eqb c d
    | String _ s' => endswith c s'
    end.

  (** [s.split(c, 1)[0]]: the part before the first [c]. *)
Fixpoint before (c : ascii) (s : string) : string :=
    match s with
    | EmptyString => EmptyString
    | String d s' => if Ascii.eqb c d then EmptyString else String d (before c s')
    end.

  (** [s.split(c, 1)[1]], for a string that holds [c]: the part after the
      first [c]. *)
Fixpoint after (c : ascii) (s : string) : string :=
    match s with
    | EmptyString => EmptyString
    | String d s' => if Ascii.eqb c d then s' else after c s'
    end.

  (** [s.split(c)]: all the fields separated by [c]; never empty. *)
Fixpoint split (c : ascii) (s : string) : list string :=
    match s with
    | EmptyString => [EmptyString]
    | String d s' =>
        if Ascii.eqb c d then EmptyString :: split c s'
        else match split c s' with
             | w :: ws => String d w :: ws
             | [] => [String d EmptyString]
             end
    end.

  (** [str.isspace] on a character below 256: tab, LF, VT, FF, CR, the
      four separators FS to US, space, NEL (133) and the no-break space
      (160). *)
Definition isspace (c : ascii) : bool :=
    let n := nat_of_ascii c in
    ((Nat.leb 9 n && Nat.leb n 13) || (Nat.leb 28 n && Nat.leb n 32)
     || Nat.eqb n 133 || Nat.eqb n 160)%bool.

  (** [s.split()] on a str of the protocol side: the words between runs
      of white space; [word] is the word being read. *)
Fixpoint words_from (word s : string) : list string :=
    match s with
    | EmptyString => if String.eqb word "" then [] else [word]
    | String c s' =>
        if isspace c then
          if String.eqb word "" then words_from "" s'
          else word :: words_from "" s'
        else words_from (word ++ String c "") s'
    end.

Definition words (s : string) : list string := words_from "" s.

  (** [s.rstrip()] *)
Fixpoint rstrip (s : string) : string :=
    match s with
    | EmptyString => EmptyString
    | String c s' =>
        match rstrip s' with
        | EmptyString => if isspace c then EmptyString else String c EmptyString
        | r => String c r
        end
    end.

  (** [s.rstrip(chars)] *)
Fixpoint rstrip_chars (chars s : string) : string :=
    match s with
    | EmptyString => EmptyString
    | String d s' =>
        match rstrip_chars chars s' with
        | EmptyString => if mem d chars then EmptyString else String d EmptyString
        | r => String d r
        end
    end.

  (** [s.rstrip(c)] for a single character. *)
Fixpoint rstrip_char (c : ascii) (s : string) : string :=
    match s with
    | EmptyString => EmptyString
    | String d s' =>
        match rstrip_char c s' with
        | EmptyString => if Ascii.eqb c d then EmptyString else String d EmptyString
        | r => String d r
        end
    end.

  (** [s.lstrip(c)] for a single character. *)
Fixpoint lstrip_char (c : ascii) (s : string) : string :=
    match s with
    | EmptyString => EmptyString
    | String d s' => if Ascii.eqb c d then lstrip_char c s' else s
    end.

  (** [s == c * len(s)]: every character of [s] is [c]. *)
Fixpoint all_char (c : ascii) (s : string) : bool :=
    match s with
    | EmptyString => true
    | String d s' => (Ascii.eqb c d && all_char c s')%bool
    end.

  (** [s[:s.rfind(c) + 1]]: everything up to and including the last [c]. *)
Fixpoint upto_last (c : ascii) (s : string) : string :=
    match s with
    | EmptyString => EmptyString
    | String d s' =>
        if mem c s' then String d (upto_last c s')
        else if Ascii.eqb c d then String d EmptyString
        else EmptyString
    end.

  (** [s * n] *)
Fixpoint times (s : string) (n : nat) : string :=
    match n with
    | O => EmptyString
    | S n' => s ++ times s n'
    end.

  (** [l.sort(key=key)]: a stable sort; keys compare as Python compares
      strings, character by character. *)
Fixpoint insert_by (key : string -> string) (x : string) (l : list string)
      : list string :=
    match l with
    | [] => [x]
    | y :: l' =>
        if String.leb (key x) (key y) then x :: y :: l'
        else y :: insert_by key x l'
    end.

Definition sort_by (key : string -> string) (l : list string) : list string :=
    foldr (insert_by key) [] l.

  (** [needle in hay], decided from left to right. *)
Fixpoint contains (needle hay : string) : bool :=
    if String.prefix needle hay then true
    else match hay with
         | EmptyString => false
         | String _ hay' => contains needle hay'
         end.

  (** [str(n)] for an integer. *)
Definition of_Z (n : Z) : string := NilEmpty.string_of_int (Z.to_int n).

  (** The value of a decimal digit. *)
Definition digit (c : ascii) : option Z :=
    let n := nat_of_ascii c in
    if (Nat.leb 48 n && Nat.leb n 57)%bool then Some (Z.of_nat n - 48) else None.

  (** The digits of an integer literal: one digit or more, with single
      underscores between digits.  The result is the value and the number
      of digits. *)
Fixpoint digits (value : Z) (count : nat) (after_digit : bool) (s : string)
      : option (Z * nat) :=
    match s with
    | EmptyString => if after_digit then Some (value, count) else None
    | String c s' =>
        match digit c with
        | Some d => digits (10 * value + d) (S count) true s'
        | None =>
            if (Ascii.eqb c "_" && after_digit)%bool
            then digits value count false s'
            else None
        end
    end.

  (** [sys.int_info.default_max_str_digits] *)
Definition int_max_str_digits : nat := 4300.

  (** [int(s)] for a str of the protocol side without white space: an
      optional sign and the digits; [None] is [ValueError], which is also
      what a literal of more than [int_max_str_digits] digits gives. *)
Definition int (s : string) : option Z :=
    let '(sign, body) :=
      match s with
      | String c s' =>
          if Ascii.eqb c "+" then (1, s')
          else if Ascii.eqb c "-" then (-1, s')
          else (1, s)
      | EmptyString => (1, s)
      end in
    '(value, count) ← digits 0 0 false body;
    if Nat.leb count int_max_str_digits then Some (sign * value) else None.

  (** The bytes in UTF-8 of a str of the protocol side: what such a str
      is on the filesystem side. *)
Fixpoint utf8 (s : string) : string :=
    match s with
    | EmptyString => EmptyString
    | String c s' =>
        let n := nat_of_ascii c in
        if Nat.ltb n 128 then String c (utf8 s')
        else String (ascii_of_nat (192 + n / 64))
               (String (ascii_of_nat (128 + n mod 64)) (utf8 s'))
    end.

  (** [s.isascii()] *)
Fixpoint isascii (s : string) : bool :=
    match s with
    | EmptyString => true
    | String c s' => (Nat.ltb (nat_of_ascii c) 128 && isascii s')%bool
    end.

  (** [needle in hay] as a proposition. *)
Definition occurs_in (needle hay : string) : Prop :=
    exists pre post, hay = pre ++ needle ++ post.

End Str.

(** ** The environment of a request handler *)

(** What [os.fstat] and [read] give for an open file.  [st_mtime] is the
    modification time in whole seconds, which is what [send_head] compares
    after dropping the microseconds. *)
Record file := File {
  content : string;
  st_size : Z;
  st_mtime : Z
}.

(** What [open(path, 'rb')] does: it gives a file object, or raises
    [OSError], which [send_head] catches, or raises [ValueError], which
    nothing catches: the path holds a NUL byte, or a character that the
    encoding of the filesystem rejects ([UnicodeEncodeError] is a
    [ValueError]). *)
Inductive opened :=
| Opened (f : file)
| OpenOSError
| OpenValueError.

(** The operating-system calls the handler makes, as functions of the
    path string they are given.  [os.path.isdir], [isfile] and [islink]
    answer [False] where [os.stat] raises; [listdir] answers [None] where
    [os.listdir] raises [OSError], the only failure on a path that
    [isdir] accepted. *)
Record filesystem := Filesystem {
  isdir : string -> bool;
  isfile : string -> bool;
  islink : string -> bool;
  open_rb : string -> opened;
  listdir : string -> option (list string)
}.

(** [tzinfo] of the value [email.utils.parsedate_to_datetime] returns:
    absent, the singleton [timezone.utc], or another offset. *)
Inductive tzinfo := TzNone | TzUTC | TzOther.

(** The pure library functions and class attributes that the handler
    uses and that are taken as given: percent-decoding, URL splitting,
    MIME types, date formatting, the status table, the HTML pages and the
    case mapping of Unicode.

    - [unquote_escapes s] is what the pair of calls
      [urllib.parse.unquote(s, errors='surrogatepass')] and, on
      [UnicodeDecodeError], [urllib.parse.unquote(s)] gives for a string
      with a percent sign;
    - [urlsplit_path s] is [urllib.parse.urlsplit(s).path], [None] where
      [urlsplit] raises [ValueError];
    - [formatdate t] is [email.utils.formatdate(t, usegmt=True)] for a
      time that [datetime] can represent;
    - [error_page] is [error_message_format] filled in and encoded;
    - [parsedate_to_datetime] answers [None] for the exceptions that
      [send_head] catches;
    - [repr] is the conversion [%r];
    - [lower] is [str.lower] on a str of the filesystem side;
    - [listing_page path entries] is the page of [list_directory] for
      [self.path] and the pairs of link name and display name, encoded;
      [None] is the [UnicodeEncodeError] of the encoding. *)
Class Runtime := {
  unquote_escapes : string -> string;
  urlsplit_path : string -> option string;
  redirect_url : string -> string;
  guess_type : string -> string;
  version_string : string;
  formatdate : Z -> string;
  responses : Z -> option (string * string);
  error_page : Z -> string -> string -> string;
  parsedate_to_datetime : string -> option (tzinfo * Z);
  repr : string -> string;
  lower : string -> string;
  listing_page : string -> list (string * string) -> option string;
  filesystem_encoding : string
}.

(** ** datetime *)

Module datetime.

  (** The timestamps of 0001-01-01 00:00:00 and 9999-12-31 23:59:59
      UTC. *)
Definition min_timestamp : Z := -62135596800.
Definition max_timestamp : Z := 253402300799.

  (** [datetime.datetime.fromtimestamp(t, datetime.timezone.utc)] with
      the microseconds dropped: [None] where it raises, the year being
      out of range. *)
Definition fromtimestamp (t : Z) : option Z :=
    if (Z.leb min_timestamp t && Z.leb t max_timestamp)%bool then Some t else None.

End datetime.

(** ** urllib.parse *)

Module urllib.

  (** [unquote] as [translate_path] calls it: a string without percent
      sign is returned as it is. *)
Definition unquote `{Runtime} (s : string) : string :=
    if Str.mem "%" s then unquote_escapes s else Str.utf8 s.

End urllib.

(** ** posixpath *)

Module posixpath.

Definition sep : ascii := "/"%char.

  (** [posixpath.join(a, b)] *)
Definition join (a b : string) : string :=
    if Str.startswith "/" b then b
    else if (String.eqb a "" || Str.endswith sep a)%bool then a ++ b
    else a ++ "/" ++ b.

  (** [posixpath.dirname(p)] *)
Definition dirname (p : string) : string :=
    let head := Str.upto_last sep p in
    if (negb (String.eqb head "") && negb (Str.all_char sep head))%bool
    then Str.rstrip_char sep head
    else head.

  (** [posixpath.isabs(s)] *)
Definition isabs (s : string) : bool := Str.startswith "/" s.

  (** The loop of [posixpath.normpath] over the components. *)
Fixpoint normpath_comps (initial_slashes : nat) (comps new_comps : list string)
      : list string :=
    match comps with
    | [] => new_comps
    | comp :: comps' =>
        if (String.eqb comp "" || String.eqb comp ".")%bool
        then normpath_comps initial_slashes comps' new_comps
        else if (negb (String.eqb comp "..")
                 || (Nat.eqb initial_slashes 0 && Nat.eqb (List.length new_comps) 0)
                 || match last new_comps with
                    | Some c => String.eqb c ".."
                    | None => false
                    end)%bool
        then normpath_comps initial_slashes comps' (new_comps ++ [comp])%list
        else normpath_comps initial_slashes comps' (removelast new_comps)
    end.

  (** [posixpath.normpath(path)], as [posixpath.py] defines it in
      Python. *)
Definition normpath (path : string) : string :=
    if String.eqb path "" then "."
    else
      let initial_slashes :=
        if Str.startswith "/" path then
          if (Str.startswith "//" path && negb (Str.startswith "///" path))%bool
          then 2%nat else 1%nat
        else 0%nat in
      let comps := normpath_comps initial_slashes (Str.split "/" path) [] in
      let path := Str.times "/" initial_slashes ++ Str.join_with "/" comps in
      if String.eqb path "" then "." else path.

  (** [posixpath.abspath(path)], with the working directory explicit. *)
Definition abspath (getcwd path : string) : string :=
    normpath (if isabs path then path else join getcwd path).

End posixpath.

(** ** http.server.BaseHTTPRequestHandler *)

(** The attributes of a handler object that the code reads or writes.
    [headers_buffer = None] stands for the attribute [_headers_buffer] not
    being set; [command = ""] stands for [None] as well, which no test of
    the code tells from the empty string; [wfile] holds the bytes written
    to the connection so far; [clock] is what [time.time()] returns while
    the request is handled, a time that [datetime] can represent. *)
Record handler := Handler {
  directory : string;
  command : string;
  path : string;
  request_version : string;
  headers : list (string * string);
  headers_buffer : option (list string);
  wfile : string;
  close_connection : bool;
  clock : Z
}.

Definition set_command (c : string) (h : handler) : handler :=
  Handler (directory h) c (path h) (request_version h) (headers h)
          (headers_buffer h) (wfile h) (close_connection h) (clock h).

Definition set_path (p : string) (h : handler) : handler :=
  Handler (directory h) (command h) p (request_version h) (headers h)
          (headers_buffer h) (wfile h) (close_connection h) (clock h).

Definition set_request_version (v : string) (h : handler) : handler :=
  Handler (directory h) (command h) (path h) v (headers h)
          (headers_buffer h) (wfile h) (close_connection h) (clock h).

Definition set_headers (hs : list (string * string)) (h : handler) : handler :=
  Handler (directory h) (command h) (path h) (request_version h) hs
          (headers_buffer h) (wfile h) (close_connection h) (clock h).

Definition set_headers_buffer (b : option (list string)) (h : handler) : handler :=
  Handler (directory h) (command h) (path h) (request_version h) (headers h)
          b (wfile h) (close_connection h) (clock h).

Definition set_wfile (w : string) (h : handler) : handler :=
  Handler (directory h) (command h) (path h) (request_version h) (headers h)
          (headers_buffer h) w (close_connection h) (clock h).

Definition set_close_connection (c : bool) (h : handler) : handler :=
  Handler (directory h) (command h) (path h) (request_version h) (headers h)
          (headers_buffer h) (wfile h) c (clock h).

(** [name in self.headers] and [self.headers[name]]: header names compare
    without regard to case, the first match wins. *)
Fixpoint headers_get (name : string) (hs : list (string * string)) : option string :=
  match hs with
  | [] => None
  | (k, v) :: hs' =>
      if String.eqb (Str.lower k) (Str.lower name) then Some v
      else headers_get name hs'
  end.

Definition headers_contains (name : string) (hs : list (string * string)) : bool :=
  match headers_get name hs with Some _ => true | None => false end.

(** What [http.client.parse_headers] makes of the lines that follow the
    request line: the header fields, or one of the two exceptions that
    [parse_request] catches, with its text. *)
Inductive parsed_headers :=
| Headers (fields : list (string * string))
| LineTooLong (err : string)
| HTTPException (err : string).

(** A request as it arrives on a connection: the bytes that
    [self.rfile.readline(65537)] returns for the request line (none at the
    end of the stream), the lines after it, and the time at which the
    request is handled. *)
Record request := Request {
  req_line : string;
  req_headers : parsed_headers;
  req_time : Z
}.

Module BaseHTTPRequestHandler.

Definition protocol_version : string := "HTTP/1.0".

Definition default_request_version : string := "HTTP/0.9".

Definition is_http09 (self : handler) : bool :=
    String.eqb (request_version self) "HTTP/0.9".

  (** [self.path], for the methods that have a local variable [path]. *)
Definition self_path (self : handler) : string := path self.

  (** [self._headers_buffer.append(line)], creating the list when the
      attribute is missing. *)
Definition buffer_append (line : string) (self : handler) : handler :=
    set_headers_buffer
      (Some (default [] (headers_buffer self) ++ [line])%list) self.

Definition send_response_only `{Runtime}
      (self : handler) (code : Z) (message : option string) : handler :=
    if negb (is_http09 self) then
      let message :=
        match message with
        | Some m => m
        | None => match responses code with
                  | Some (phrase, _) => phrase
                  | None => ""
                  end
        end in
      buffer_append
        (protocol_version ++ " " ++ Str.of_Z code ++ " " ++ message ++ Str.CRLF)
        self
    else self.

Definition send_header (self : handler) (keyword value : string) : handler :=
    let self :=
      if negb (is_http09 self)
      then buffer_append (keyword ++ ": " ++ value ++ Str.CRLF) self
      else self in
    if String.eqb (Str.lower keyword) "connection" then
      if String.eqb (Str.lower value) "close" then set_close_connection true self
      else if String.eqb (Str.lower value) "keep-alive" then set_close_connection false self
      else self
    else self.

Definition flush_headers (self : handler) : handler :=
    match headers_buffer self with
    | Some buf =>
        set_headers_buffer (Some [])
          (set_wfile (wfile self ++ Str.join buf) self)
    | None => self
    end.

  (** [None] is the [AttributeError] of appending to a buffer that was
      never created. *)
Definition end_headers (self : handler) : option handler :=
    if negb (is_http09 self) then
      match headers_buffer self with
      | Some _ => Some (flush_headers (buffer_append Str.CRLF self))
      | None => None
      end
    else Some self.

  (** [date_time_string(timestamp)]: [email.utils.formatdate] raises
      where [datetime.fromtimestamp] does. *)
Definition date_time_string `{Runtime} (timestamp : Z) : option string :=
    _ ← datetime.fromtimestamp timestamp; Some (formatdate timestamp).

  (** [log_request] writes to standard error only and is left out.
      [date_time_string()] is the date of the clock. *)
Definition send_response `{Runtime}
      (self : handler) (code : Z) (message : option string) : handler :=
    let self := send_response_only self code message in
    let self := send_header self "Server" version_string in
    send_header self "Date" (formatdate (clock self)).

  (** The [try] block of [parse_request] on the last word of the request
      line: the text after the slash and the two numbers; [None] is the
      [ValueError]. *)
Definition version_number (version : string) : option (string * (Z * Z)) :=
    if negb (Str.startswith "HTTP/" version) then None
    else
      let base_version_number := Str.after "/" version in
      match Str.split "." base_version_number with
      | [major; minor] =>
          major ← Str.int major; minor ← Str.int minor;
          Some (base_version_number, (major, minor))
      | _ => None
      end.

  (** [a >= b] on pairs of integers. *)
Definition pair_ge (a b : Z * Z) : bool :=
    (Z.ltb (fst b) (fst a) || (Z.eqb (fst a) (fst b) && Z.leb (snd b) (snd a)))%bool.

  Section Dispatch.
Context `{Runtime}.
    (** [self.end_headers], resolved in the class of the object. *)
Variable self_end_headers : handler -> option handler.

Definition send_error
        (self : handler) (code : Z) (message explain : option string)
        : option handler :=
      let '(shortmsg, longmsg) := default ("???", "???") (responses code) in
      let message := default shortmsg message in
      let explain := default longmsg explain in
      let self := send_response self code (Some message) in
      let self := send_header self "Connection" "close" in
      let has_body :=
        (Z.leb 200 code
         && negb (Z.eqb code 204 || Z.eqb code 205 || Z.eqb code 304))%bool in
      let body := if has_body then error_page code message explain else "" in
      let self :=
        if has_body then
          let self := send_header self "Content-Type" "text/html;charset=utf-8" in
          send_header self "Content-Length" (Str.of_Z (Z.of_nat (String.length body)))
        else self in
      self ← self_end_headers self;
      Some (if (negb (String.eqb (command self) "HEAD")
                && negb (String.eqb body ""))%bool
            then set_wfile (wfile self ++ body) self
            else self).

Definition handle_expect_100 (self : handler) : option handler :=
      self_end_headers (send_response_only self 100 None).

    (** The result of [parse_request]: the handler, and [True] or
        [False]; [None] where an exception leaves the method. *)
Definition parsed : Type := option (handler * bool).

    (** An error reply followed by [return False]. *)
Definition reject (self : handler) (code : Z) (message explain : option string)
        : parsed :=
      self ← send_error self code message explain; Some (self, false).

    (** The part of [parse_request] under [if len(words) >= 3]. *)
Definition parse_version (words : list string) (self : handler) : parsed :=
      if Nat.leb 3 (length words) then
        let version := default "" (last words) in
        match version_number version with
        | None =>
            reject self 400 (Some ("Bad request version (" ++ repr version ++ ")"))
              None
        | Some (base_version_number, number) =>
            let self :=
              if (pair_ge number (1, 1) && String.leb "HTTP/1.1" protocol_version)%bool
              then set_close_connection false self else self in
            if pair_ge number (2, 0) then
              reject self 505
                (Some ("Invalid HTTP version (" ++ base_version_number ++ ")")) None
            else Some (set_request_version version self, true)
        end
      else Some (self, true).

    (** The part of [parse_request] after the request line. *)
Definition parse_headers (r : request) (self : handler) : parsed :=
      match req_headers r with
      | LineTooLong err => reject self 431 (Some "Line too long") (Some err)
      | HTTPException err => reject self 431 (Some "Too many headers") (Some err)
      | Headers fields =>
          let self := set_headers fields self in
          let conntype := default "" (headers_get "Connection" (headers self)) in
          let self :=
            if String.eqb (Str.lower conntype) "close"
            then set_close_connection true self
            else if (String.eqb (Str.lower conntype) "keep-alive"
                     && String.leb "HTTP/1.1" protocol_version)%bool
            then set_close_connection false self
            else self in
          let expect := default "" (headers_get "Expect" (headers self)) in
          if (String.eqb (Str.lower expect) "100-continue"
              && String.leb "HTTP/1.1" protocol_version
              && String.leb "HTTP/1.1" (request_version self))%bool
          then self ← handle_expect_100 self; Some (self, true)
          else Some (self, true)
      end.

    (** The part of [parse_request] from [if not 2 <= len(words) <= 3]
        on. *)
Definition parse_words (requestline : string) (words : list string)
        (r : request) (self : handler) : parsed :=
      if negb (Nat.leb 2 (length words) && Nat.leb (length words) 3)%bool
      then
        reject self 400
          (Some ("Bad request syntax (" ++ repr requestline ++ ")")) None
      else
        match words with
        | command :: path :: _ =>
            '(self, ok) ←
              (if Nat.eqb (length words) 2 then
                 let self := set_close_connection true self in
                 if negb (String.eqb command "GET") then
                   reject self 400
                     (Some ("Bad HTTP/0.9 request type (" ++ repr command ++ ")"))
                     None
                 else Some (self, true)
               else Some (self, true));
            if negb ok then Some (self, false)
            else
              let self := set_path path (set_command command self) in
              let self :=
                if Str.startswith "//" (self_path self)
                then set_path ("/" ++ Str.lstrip_char "/" (self_path self)) self
                else self in
              parse_headers r self
        | _ => Some (self, false)
        end.

Definition parse_request (r : request) (self : handler) : parsed :=
      let self := set_command "" self in
      let self := set_request_version default_request_version self in
      let self := set_close_connection true self in
      let requestline := Str.rstrip_chars Str.CRLF (req_line r) in
      let words := Str.words requestline in
      if Nat.eqb (length words) 0 then Some (self, false)
      else
        '(self, ok) ← parse_version words self;
        if negb ok then Some (self, false)
        else parse_words requestline words r self.

  End Dispatch.

End BaseHTTPRequestHandler.

(** ** http.server.SimpleHTTPRequestHandler *)

Module SimpleHTTPRequestHandler.
  Import BaseHTTPRequestHandler.

  (** The test of the loop in [translate_path]: components that are not a
      simple file or directory name are ignored. *)
Definition ignored_word (word : string) : bool :=
    (negb (String.eqb (posixpath.dirname word) "")
     || String.eqb word "." || String.eqb word "..")%bool.

  (** The loop of [translate_path] over the words of the request path. *)
Definition translate_words (directory : string) (words : list string) : string :=
    fold_left
      (fun path word =>
         if ignored_word word then path else posixpath.join path word)
      words directory.

  (** [urllib.unquote] stands for the [try]/[except UnicodeDecodeError]
      pair of calls to [urllib.parse.unquote]. *)
Definition translate_path `{Runtime} (self : handler) (path : string) : string :=
    let path := Str.before "?" path in
    let path := Str.before "#" path in
    let trailing_slash := Str.endswith "/" (Str.rstrip path) in
    let path := urllib.unquote path in
    let path := posixpath.normpath path in
    let words := Str.split "/" path in
    let words := List.filter (fun w => negb (String.eqb w "")) words in
    let path := translate_words (directory self) words in
    if trailing_slash then path ++ "/" else path.

  (** The test that sends 304: an [If-Modified-Since] header without
      [If-None-Match], well formed, in UTC (or without zone), and not
      earlier than the modification time of the file.  [None] is the
      exception of [fromtimestamp], which is called for a date in UTC
      only. *)
Definition not_modified `{Runtime} (self : handler) (f : file) : option bool :=
    if (headers_contains "If-Modified-Since" (headers self)
        && negb (headers_contains "If-None-Match" (headers self)))%bool
    then
      match headers_get "If-Modified-Since" (headers self) ≫= parsedate_to_datetime with
      | None => Some false
      | Some (tz, ims) =>
          let tz := match tz with TzNone => TzUTC | _ => tz end in
          match tz with
          | TzUTC =>
              last_modif ← datetime.fromtimestamp (st_mtime f);
              Some (Z.leb last_modif ims)
          | _ => Some false
          end
      end
    else Some false.

  (** The entry of a directory listing: link name and display name. *)
Definition listing_entry (fs : filesystem) (path name : string) : string * string :=
    let fullname := posixpath.join path name in
    let '(displayname, linkname) :=
      if isdir fs fullname then (name ++ "/", name ++ "/") else (name, name) in
    let displayname := if islink fs fullname then name ++ "@" else displayname in
    (linkname, displayname).

  Section Dispatch.
Context `{Runtime}.
Variable self_end_headers : handler -> option handler.

    (** The result of [send_head] and [list_directory]: the handler after
        the headers were sent, and the bytes of the file object returned
        ([None] when the method returns [None]).  The whole is [None]
        where an exception leaves the method; nothing was written to the
        connection then, since the headers are flushed last. *)
Definition head_result : Type := option (handler * option string).

Definition list_directory (fs : filesystem) (self : handler) (path : string)
        : head_result :=
      match listdir fs path with
      | None =>
          self ← send_error self_end_headers self 404
                   (Some "No permission to list directory") None;
          Some (self, None)
      | Some names =>
          let names := Str.sort_by lower names in
          encoded ← listing_page (self_path self)
                      (map (listing_entry fs path) names);
          let self := send_response self 200 None in
          let self := send_header self "Content-type"
                        ("text/html; charset=" ++ filesystem_encoding) in
          let self := send_header self "Content-Length"
                        (Str.of_Z (Z.of_nat (String.length encoded))) in
          self ← self_end_headers self;
          Some (self, Some encoded)
      end.

    (** The part of [send_head] after the directory case. *)
Definition send_file (fs : filesystem) (self : handler) (path : string)
        : head_result :=
      let ctype := guess_type path in
      if Str.endswith "/" path then
        self ← send_error self_end_headers self 404 (Some "File not found") None;
        Some (self, None)
      else
        match open_rb fs path with
        | OpenValueError => None
        | OpenOSError =>
            self ← send_error self_end_headers self 404 (Some "File not found") None;
            Some (self, None)
        | Opened f =>
            unchanged ← not_modified self f;
            if (unchanged : bool) then
              let self := send_response self 304 None in
              self ← self_end_headers self;
              Some (self, None)
            else
              let self := send_response self 200 None in
              let self := send_header self "Content-type" ctype in
              let self := send_header self "Content-Length" (Str.of_Z (st_size f)) in
              last_modified ← date_time_string (st_mtime f);
              let self := send_header self "Last-Modified" last_modified in
              self ← self_end_headers self;
              Some (self, Some (content f))
        end.

Definition send_head (fs : filesystem) (self : handler) : head_result :=
      let path := translate_path self (self_path self) in
      if isdir fs path then
        parts_path ← urlsplit_path (self_path self);
        if negb (Str.endswith "/" parts_path) then
          let self := send_response self 301 None in
          let self := send_header self "Location"
                        (redirect_url (self_path self)) in
          let self := send_header self "Content-Length" "0" in
          self ← self_end_headers self;
          Some (self, None)
        else if isfile fs (posixpath.join path "index.html") then
          send_file fs self (posixpath.join path "index.html")
        else if isfile fs (posixpath.join path "index.htm") then
          send_file fs self (posixpath.join path "index.htm")
        else list_directory fs self path
      else send_file fs self path.

    (** [copyfile(f, self.wfile)] appends the bytes of the file. *)
Definition do_GET (fs : filesystem) (self : handler) : option handler :=
      '(self, f) ← send_head fs self;
      Some match f with
           | Some bytes => set_wfile (wfile self ++ bytes) self
           | None => self
           end.

Definition do_HEAD (fs : filesystem) (self : handler) : option handler :=
      '(self, _) ← send_head fs self;
      Some self.

    (** The end of [handle_one_request], once [parse_request] has
        returned [True]: the method [do_<command>] is called when the
        class has it. *)
Definition dispatch (fs : filesystem) (self : handler) : option handler :=
      if String.eqb (command self) "GET" then do_GET fs self
      else if String.eqb (command self) "HEAD" then do_HEAD fs self
      else send_error self_end_headers self 501
             (Some ("Unsupported method (" ++ repr (command self) ++ ")")) None.

    (** [handle_one_request]; no read or write times out. *)
Definition handle_one_request (fs : filesystem) (r : request) (self : handler)
        : option handler :=
      if Z.ltb 65536 (Z.of_nat (String.length (req_line r))) then
        let self := set_request_version "" self in
        let self := set_command "" self in
        send_error self_end_headers self 414 None None
      else if String.eqb (req_line r) "" then
        Some (set_close_connection true self)
      else
        '(self, ok) ← parse_request self_end_headers r self;
        if (ok : bool) then dispatch fs self else Some self.

    (** What [readline] returns when the client has sent nothing more. *)
Definition end_of_stream (r : request) : request :=
      Request "" (Headers []) (req_time r).

    (** [handle], on a connection on which one request arrives: were the
        loop [while not self.close_connection] to go on, the next request
        line would be the end of the stream. *)
Definition handle (fs : filesystem) (r : request) (self : handler)
        : option handler :=
      let self := set_close_connection true self in
      self ← handle_one_request fs r self;
      if negb (close_connection self)
      then handle_one_request fs (end_of_stream r) self
      else Some self.

  End Dispatch.

End SimpleHTTPRequestHandler.

(** ** start-server.py: the request handler *)

Definition PORT : Z := 8000.

Module MyHTTPRequestHandler.

  (** [super().end_headers()] is [BaseHTTPRequestHandler.end_headers]:
      [SimpleHTTPRequestHandler] does not override it. *)
Definition end_headers (self : handler) : option handler :=
    let self := BaseHTTPRequestHandler.send_header self
                  "Access-Control-Allow-Origin" "*" in
    let self := BaseHTTPRequestHandler.send_header self
                  "Access-Control-Allow-Methods" "GET" in
    let self := BaseHTTPRequestHandler.send_header self
                  "Cache-Control" "no-store, no-cache, must-revalidate" in
    BaseHTTPRequestHandler.end_headers self.

  (** The inherited methods, with [self.end_headers] bound to the
      override. *)
Definition send_error `{Runtime} :=
    BaseHTTPRequestHandler.send_error end_headers.
Definition parse_request `{Runtime} :=
    BaseHTTPRequestHandler.parse_request end_headers.
Definition send_head `{Runtime} :=
    SimpleHTTPRequestHandler.send_head end_headers.
Definition do_GET `{Runtime} :=
    SimpleHTTPRequestHandler.do_GET end_headers.
Definition do_HEAD `{Runtime} :=
    SimpleHTTPRequestHandler.do_HEAD end_headers.
Definition dispatch `{Runtime} :=
    SimpleHTTPRequestHandler.dispatch end_headers.
Definition handle_one_request `{Runtime} :=
    SimpleHTTPRequestHandler.handle_one_request end_headers.
Definition handle `{Runtime} :=
    SimpleHTTPRequestHandler.handle end_headers.

End MyHTTPRequestHandler.

(** ** The process: exceptions, events and the environment *)

(** The exceptions [main] distinguishes.  [errno] is [None] for an
    [OSError] built without an error number. *)
Inductive exception :=
| KeyboardInterrupt
| OSError (errno : option Z)
| OtherException (name : string).

(** What the process does that can be seen from outside. *)
Inductive event :=
| Chdir (dir : string)
| Bind (port : Z) (ok : bool)
| Print (text : string)
| Serve (dir : string) (req : request) (response : string)
| Close.

(** How a run of [main] ends: it returns, [sys.exit(status)] ends the
    process, an exception leaves [main], or [serve_forever] keeps
    running. *)
Inductive result :=
| Returned
| Exited (status : Z)
| Raised (e : exception)
| Serving.

Record process := Process {
  cwd : string;
  trace : list event
}.

Definition emit (e : event) (p : process) : process :=
  Process (cwd p) (trace p ++ [e])%list.

(** [os.chdir(dir)]; [os.getcwd()] then gives [dir]: a directory is
    identified with the path by which it was reached. *)
Definition chdir (dir : string) (p : process) : process :=
  emit (Chdir dir) (Process dir (trace p)).

(** [print(text)] *)
Definition print (text : string) (p : process) : process :=
  emit (Print text) p.

(** The texts printed, in order, and the bytes on standard output. *)
Definition printed (t : list event) : list string :=
  omap (fun e => match e with Print text => Some text | _ => None end) t.

Definition stdout (t : list event) : string :=
  Str.join (map (fun text => text ++ Str.NL) (printed t)).

(** The statements of the [try] block are numbered: 0 is the call
    [socketserver.TCPServer(("", PORT), Handler)], 1 to 13 are the calls
    to [print], 14 is [httpd.serve_forever()].  [fault n] is the
    exception, if any, that statement [n] raises; for the constructor it
    is the one [server_bind] or [server_activate] raises, for
    [serve_forever] one that the serving loop lets through.  Exceptions
    arise at these statements only: [os.chdir], before the [try] block,
    and the statements of the [except] clauses run to their end.
    [requests] are the requests of the connections accepted while
    [serve_forever] runs, one request for each connection. *)
Record environment := Environment {
  script : string;
  start_cwd : string;
  fs : filesystem;
  fault : nat -> option exception;
  requests : list request
}.

(** ** socketserver.TCPServer *)

Module TCPServer.

  (** [SimpleHTTPRequestHandler.__init__] with [directory=None]: the
      handler takes [os.getcwd()] as its directory; the attributes that
      [handle] and [parse_request] set before they are read have no value
      yet. *)
Definition new_handler (getcwd : string) (r : request) : handler :=
    Handler getcwd "" "" "" [] None "" false (req_time r).

  (** [finish_request]: a handler object is made for the connection and
      handles it; the bytes it wrote are the response.  An exception that
      leaves the handler is caught by the server, which closes the
      connection and goes on. *)
Definition finish_request
      (handle : filesystem -> request -> handler -> option handler)
      (fs : filesystem) (r : request) (p : process) : process :=
    let self := new_handler (cwd p) r in
    emit (Serve (directory self) r
            (match handle fs r self with
             | Some self' => wfile self'
             | None => wfile self
             end)) p.

  (** The loop of [serve_forever] over the connections that arrive. *)
Definition serve_forever
      (handle : filesystem -> request -> handler -> option handler)
      (fs : filesystem) (rs : list request) (p : process) : process :=
    fold_left (fun p r => finish_request handle fs r p) rs p.

End TCPServer.

(** ** start-server.py: [main] *)

Inductive stmt :=
| SPrint (text : string)
| SServeForever.

Definition rule : string := Str.times "=" 70.

(** The body of the [with] statement; the f-strings are functions of the
    port. *)
Definition with_body (port : Z) : list stmt :=
  [ SPrint rule;
    SPrint "🚀 Stage 8/9 Demo Server запущен!";
    SPrint rule;
    SPrint "";
    SPrint ("📍 Сервер работает на http://localhost:" ++ Str.of_Z port);
    SPrint "";
    SPrint "Откройте в браузере:";
    SPrint ("  • Stage 8 Demo: http://localhost:" ++ Str.of_Z port
            ++ "/stage8-vfs-demo.html");
    SPrint ("  • Stage 9 Demo: http://localhost:" ++ Str.of_Z port
            ++ "/stage9-ml-demo.html");
    SPrint "";
    SPrint "Нажмите Ctrl+C для остановки сервера";
    SPrint rule;
    SPrint "";
    SServeForever ].

(** The text of the [except KeyboardInterrupt] clause. *)
Definition shutdown_message : string :=
  Str.NL ++ Str.NL ++ "👋 Сервер остановлен".

(** The four texts of the address-in-use branch. *)
Definition port_in_use_messages (port : Z) : list string :=
  [ Str.NL ++ "❌ ОШИБКА: Порт " ++ Str.of_Z port ++ " уже используется!";
    Str.NL ++ "Попробуйте:";
    "  1. Остановить другой процесс на порту " ++ Str.of_Z port;
    "  2. Изменить PORT в скрипте на другой (например, 8080)" ].

(** [e.errno == 98 or e.errno == 48] *)
Definition errno_is_address_in_use (errno : option Z) : bool :=
  match errno with
  | Some n => (Z.eqb n 98 || Z.eqb n 48)%bool
  | None => false
  end.

Section Main.
Context `{Runtime}.

  (** The statements of the [with] body from statement number [n] on. *)
Fixpoint run_body (env : environment) (n : nat) (body : list stmt) (p : process)
      : process * result :=
    match body with
    | [] => (p, Returned)
    | s :: rest =>
        match s, fault env n with
        | SPrint _, Some e => (p, Raised e)
        | SPrint text, None => run_body env (S n) rest (print text p)
        | SServeForever, fault_n =>
            let p := TCPServer.serve_forever
                       MyHTTPRequestHandler.handle
                       (fs env) (requests env) p in
            (p, match fault_n with Some e => Raised e | None => Serving end)
        end
    end.

  (** [with socketserver.TCPServer(("", PORT), Handler) as httpd: ...]:
      a constructor that fails closes its socket and raises; otherwise
      the body runs and [__exit__] closes the server, whatever the body
      did, unless it is still serving. *)
Definition with_TCPServer (env : environment) (port : Z) (p : process)
      : process * result :=
    match fault env 0%nat with
    | Some e => (emit Close (emit (Bind port false) p), Raised e)
    | None =>
        let '(p, r) := run_body env 1%nat (with_body port) (emit (Bind port true) p) in
        match r with
        | Serving => (p, Serving)
        | _ => (emit Close p, r)
        end
    end.

Definition main (env : environment) : process * result :=
    let p := Process (start_cwd env) [] in
    let p := chdir (posixpath.dirname
                      (posixpath.abspath (cwd p) (script env))) p in
    let '(p, r) := with_TCPServer env PORT p in
    match r with
    | Raised KeyboardInterrupt =>
        (print shutdown_message p, Exited 0)
    | Raised (OSError errno) =>
        if errno_is_address_in_use errno then
          (fold_left (fun p text => print text p) (port_in_use_messages PORT) p,
           Exited 1)
        else (p, Raised (OSError errno))
    | _ => (p, r)
    end.

End Main.

(** ** A runtime to run the model on examples

    An instance of [Runtime] that follows CPython 3.11 on the inputs of
    the examples below: percent-decoding of ASCII paths, RFC 7231 dates
    in GMT, the status phrases the handler sends and the pages of
    [http.server].  The theorems do not depend on it: they hold for every
    runtime. *)

Module Reference.

Definition DQ : string := String (ascii_of_nat 34) EmptyString.

Definition hex_digit (c : ascii) : option nat :=
    let n := nat_of_ascii c in
    if (Nat.leb 48 n && Nat.leb n 57)%bool then Some (n - 48)%nat
    else if (Nat.leb 65 n && Nat.leb n 70)%bool then Some (n - 55)%nat
    else if (Nat.leb 97 n && Nat.leb n 102)%bool then Some (n - 87)%nat
    else None.

  (** [urllib.parse.unquote] on bytes: [%XX] becomes the byte [XX]. *)
Fixpoint unquote_escapes (s : string) : string :=
    match s with
    | String "%" (String a (String b rest) as s') =>
        match hex_digit a, hex_digit b with
        | Some x, Some y => String (ascii_of_nat (16 * x + y)) (unquote_escapes rest)
        | _, _ => String "%" (unquote_escapes s')
        end
    | String c s' => String c (unquote_escapes s')
    | EmptyString => EmptyString
    end.

  (** [urlsplit(p).path] and the redirect target for a path without
      scheme and host. *)
Definition urlsplit_path (p : string) : option string :=
    Some (Str.before "?" (Str.before "#" p)).

Fixpoint from (c : ascii) (s : string) : string :=
    match s with
    | EmptyString => EmptyString
    | String d s' => if Ascii.eqb c d then s else from c s'
    end.

Definition redirect_url (p : string) : string :=
    let nofrag := Str.before "#" p in
    Str.before "?" nofrag ++ "/" ++ from "?" nofrag ++ from "#" p.

  (** [str.lower] on names of ASCII characters: the letters A to Z; the
      other bytes are kept. *)
Definition lower_letter (c : ascii) : ascii :=
    let n := nat_of_ascii c in
    if (Nat.leb 65 n && Nat.leb n 90)%bool then ascii_of_nat (n + 32) else c.

Fixpoint lower (s : string) : string :=
    match s with
    | EmptyString => EmptyString
    | String c s' => String (lower_letter c) (lower s')
    end.

(** [mimetypes.guess_type] for the extensions of the demo pages. *)
Definition has_extension (ext path : string) : bool :=
    String.prefix (String.rev ext) (String.rev (lower path)).

Definition guess_type (path : string) : string :=
    if (has_extension ".html" path || has_extension ".htm" path)%bool
    then "text/html"
    else if has_extension ".js" path then "text/javascript"
    else "application/octet-stream".

Definition two_digits (n : Z) : string :=
    (if Z.ltb n 10 then "0" else "") ++ Str.of_Z n.

Definition four_digits (n : Z) : string :=
    (if Z.ltb n 10 then "000" else if Z.ltb n 100 then "00"
     else if Z.ltb n 1000 then "0" else "") ++ Str.of_Z n.

Definition day_names : list string :=
    ["Thu"; "Fri"; "Sat"; "Sun"; "Mon"; "Tue"; "Wed"].
Definition month_names : list string :=
    ["Jan"; "Feb"; "Mar"; "Apr"; "May"; "Jun";
     "Jul"; "Aug"; "Sep"; "Oct"; "Nov"; "Dec"].

  (** Year, month and day of a day number counted from 1970-01-01. *)
Definition civil_from_days (days : Z) : Z * Z * Z :=
    let z := days + 719468 in
    let era := z / 146097 in
    let doe := z - era * 146097 in
    let yoe := (doe - doe / 1460 + doe / 36524 - doe / 146096) / 365 in
    let doy := doe - (365 * yoe + yoe / 4 - yoe / 100) in
    let mp := (5 * doy + 2) / 153 in
    let d := doy - (153 * mp + 2) / 5 + 1 in
    let m := if Z.ltb mp 10 then mp + 3 else mp - 9 in
    let y := yoe + era * 400 + (if Z.leb m 2 then 1 else 0) in
    (y, m, d).

Definition days_from_civil (y m d : Z) : Z :=
    let y := if Z.leb m 2 then y - 1 else y in
    let era := y / 400 in
    let yoe := y - era * 400 in
    let doy := (153 * (if Z.ltb 2 m then m - 3 else m + 9) + 2) / 5 + d - 1 in
    let doe := yoe * 365 + yoe / 4 - yoe / 100 + doy in
    era * 146097 + doe - 719468.

  (** [email.utils.formatdate(t, usegmt=True)] *)
Definition formatdate (t : Z) : string :=
    let days := t / 86400 in
    let secs := t mod 86400 in
    let '(y, m, d) := civil_from_days days in
    nth (Z.to_nat (days mod 7)) day_names "" ++ ", " ++ two_digits d ++ " "
    ++ nth (Z.to_nat (m - 1)) month_names "" ++ " " ++ four_digits y ++ " "
    ++ two_digits (secs / 3600) ++ ":" ++ two_digits (secs mod 3600 / 60) ++ ":"
    ++ two_digits (secs mod 60) ++ " GMT".

Definition digit (c : ascii) : option Z :=
    let n := nat_of_ascii c in
    if (Nat.leb 48 n && Nat.leb n 57)%bool then Some (Z.of_nat n - 48) else None.

Fixpoint number (acc : Z) (s : string) : option Z :=
    match s with
    | EmptyString => Some acc
    | String c s' => d ← digit c; number (10 * acc + d) s'
    end.

Fixpoint index_of (x : string) (l : list string) : option Z :=
    match l with
    | [] => None
    | y :: l' => if String.eqb x y then Some 1 else Z.succ <$> index_of x l'
    end.

  (** [email.utils.parsedate_to_datetime] on the one format [formatdate]
      writes, [Www, DD Mon YYYY HH:MM:SS GMT]; other values are taken as
      ill formed. *)
Definition parsedate_to_datetime (s : string) : option (tzinfo * Z) :=
    match Str.split " " s with
    | [_; dd; mon; yyyy; hms; "GMT"] =>
        match Str.split ":" hms with
        | [hh; mm; ss] =>
            d ← number 0 dd; m ← index_of mon month_names; y ← number 0 yyyy;
            h ← number 0 hh; mi ← number 0 mm; sec ← number 0 ss;
            Some (TzUTC, days_from_civil y m d * 86400 + h * 3600 + mi * 60 + sec)
        | _ => None
        end
    | _ => None
    end.

  (** The entries of [BaseHTTPRequestHandler.responses] for the codes
      the handler sends. *)
Definition responses (code : Z) : option (string * string) :=
    if Z.eqb code 200 then Some ("OK", "Request fulfilled, document follows")
    else if Z.eqb code 301 then
      Some ("Moved Permanently", "Object moved permanently -- see URI list")
    else if Z.eqb code 304 then
      Some ("Not Modified", "Document has not changed since given time")
    else if Z.eqb code 400 then
      Some ("Bad Request", "Bad request syntax or unsupported method")
    else if Z.eqb code 404 then Some ("Not Found", "Nothing matches the given URI")
    else if Z.eqb code 414 then Some ("Request-URI Too Long", "URI is too long")
    else if Z.eqb code 431 then
      Some ("Request Header Fields Too Large",
            "The server is unwilling to process the request because its header fields are too large")
    else if Z.eqb code 501 then
      Some ("Not Implemented", "Server does not support this operation")
    else if Z.eqb code 505 then
      Some ("HTTP Version Not Supported", "Cannot fulfill request")
    else None.

  (** [html.escape(s, quote=False)] *)
Fixpoint escape (s : string) : string :=
    match s with
    | EmptyString => EmptyString
    | String "&" s' => "&amp;" ++ escape s'
    | String "<" s' => "&lt;" ++ escape s'
    | String ">" s' => "&gt;" ++ escape s'
    | String c s' => String c (escape s')
    end.

  (** [DEFAULT_ERROR_MESSAGE] filled in. *)
Definition error_page (code : Z) (message explain : string) : string :=
    Str.join
      [ "<!DOCTYPE HTML>"; Str.NL;
        "<html lang="; DQ; "en"; DQ; ">"; Str.NL;
        "    <head>"; Str.NL;
        "        <meta charset="; DQ; "utf-8"; DQ; ">"; Str.NL;
        "        <title>Error response</title>"; Str.NL;
        "    </head>"; Str.NL;
        "    <body>"; Str.NL;
        "        <h1>Error response</h1>"; Str.NL;
        "        <p>Error code: "; Str.of_Z code; "</p>"; Str.NL;
        "        <p>Message: "; escape message; ".</p>"; Str.NL;
        "        <p>Error code explanation: "; Str.of_Z code; " - ";
        escape explain; ".</p>"; Str.NL;
        "    </body>"; Str.NL;
        "</html>"; Str.NL ].

  (** [repr] of a string of printable characters without quotes. *)
Definition repr (s : string) : string := "'" ++ s ++ "'".

  (** The page of [list_directory]; link names are taken as they are,
      which is what [urllib.parse.quote] does to unreserved characters. *)
Definition listing_page (path : string) (entries : list (string * string))
      : option string :=
    let title := "Directory listing for " ++ escape (unquote_escapes path) in
    let head :=
      [ "<!DOCTYPE HTML>";
        "<html lang=" ++ DQ ++ "en" ++ DQ ++ ">";
        "<head>";
        "<meta charset=" ++ DQ ++ "utf-8" ++ DQ ++ ">";
        "<title>" ++ title ++ "</title>" ++ Str.NL ++ "</head>";
        "<body>" ++ Str.NL ++ "<h1>" ++ title ++ "</h1>";
        "<hr>" ++ Str.NL ++ "<ul>" ] in
    let item (e : string * string) :=
      "<li><a href=" ++ DQ ++ fst e ++ DQ ++ ">" ++ escape (snd e) ++ "</a></li>" in
    let foot :=
      "</ul>" ++ Str.NL ++ "<hr>" ++ Str.NL ++ "</body>" ++ Str.NL
      ++ "</html>" ++ Str.NL in
    Some (Str.join_with Str.NL (app head (app (map item entries) [foot]))).

#[global] Instance runtime : Runtime :=
    Build_Runtime unquote_escapes urlsplit_path redirect_url guess_type
      "SimpleHTTP/0.6 Python/3.11.2" formatdate responses error_page
      parsedate_to_datetime repr lower listing_page "utf-8".

End Reference.

(** ** A disk with symbolic links

    The operating system resolves a path component by component and
    follows the symbolic links it meets.  The model is the part of this
    that the examples need: absolute paths without [.] and [..], links
    with absolute targets, and a bound on the steps of a resolution. *)

Module Disk.

Inductive node :=
| Regular (f : file)
| Directory (names : list string)
| Symlink (target : string).

  (** The nodes of a disk, each at its real path. *)
Definition disk : Type := list (string * node).

Fixpoint node_at (d : disk) (p : string) : option node :=
    match d with
    | [] => None
    | (q, n) :: d' => if String.eqb p q then Some n else node_at d' p
    end.

Definition components (p : string) : list string :=
    List.filter (fun w => negb (String.eqb w "")) (Str.split "/" p).

Definition child (dir name : string) : string :=
    if String.eqb dir "/" then "/" ++ name else dir ++ "/" ++ name.

  (** The real path reached from the directory [cur] by the components
      [comps]; a link restarts the walk at its target. *)
Fixpoint walk (d : disk) (steps : nat) (cur : string) (comps : list string)
      : option string :=
    match steps, comps with
    | _, [] => Some cur
    | O, _ => None
    | S steps', name :: rest =>
        match node_at d (child cur name) with
        | Some (Symlink target) => walk d steps' "/" (components target ++ rest)
        | Some (Directory _) => walk d steps' (child cur name) rest
        | Some (Regular _) =>
            match rest with [] => Some (child cur name) | _ => None end
        | None => None
        end
    end.

Definition realpath (d : disk) (p : string) : option string :=
    walk d 64 "/" (components p).

  (** The node a path leads to; a path with a trailing slash leads to a
      directory only. *)
Definition resolve (d : disk) (p : string) : option node :=
    q ← realpath d p;
    n ← node_at d q;
    match n with
    | Directory _ => Some n
    | _ => if Str.endswith "/" p then None else Some n
    end.

  (** [os.path.islink]: the last component is not followed. *)
Definition is_link (d : disk) (p : string) : bool :=
    match last (components p) with
    | None => false
    | Some name =>
        match walk d 64 "/" (removelast (components p)) with
        | Some dir =>
            match node_at d (child dir name) with
            | Some (Symlink _) => true
            | _ => false
            end
        | None => false
        end
    end.

  (** The calls of the handler on a disk. *)
Definition filesystem_of (d : disk) : filesystem := {|
    isdir p := match resolve d p with Some (Directory _) => true | _ => false end;
    isfile p := match resolve d p with Some (Regular _) => true | _ => false end;
    islink p := is_link d p;
    open_rb p :=
      match resolve d p with Some (Regular f) => Opened f | _ => OpenOSError end;
    listdir p :=
      match resolve d p with Some (Directory names) => Some names | _ => None end
  |}.

End Disk.

(** ** Examples *)

Module Examples.
  Import Reference.

Definition demo_file : file :=
    File "<html>stage 8</html>" 20 1700000000.

Definition NUL : ascii := "000"%char.

  (** A root directory [/srv/demo] that holds [stage8-vfs-demo.html];
      [open] rejects a path with a NUL byte. *)
Definition demo_fs : filesystem := {|
    isdir p := (String.eqb p "/srv/demo" || String.eqb p "/srv/demo/")%bool;
    isfile p := String.eqb p "/srv/demo/stage8-vfs-demo.html";
    islink _ := false;
    open_rb p :=
      if Str.mem NUL p then OpenValueError
      else if String.eqb p "/srv/demo/stage8-vfs-demo.html" then Opened demo_file
      else if String.eqb p "/etc/passwd" then Opened (File "root:x:0:0" 10 0)
      else OpenOSError;
    listdir p :=
      if (String.eqb p "/srv/demo" || String.eqb p "/srv/demo/")%bool
      then Some ["stage8-vfs-demo.html"] else None
  |}.

  (** The same files under the root, another [/etc/passwd] outside. *)
Definition other_fs : filesystem := {|
    isdir := isdir demo_fs;
    isfile := isfile demo_fs;
    islink := islink demo_fs;
    open_rb p :=
      if String.eqb p "/etc/passwd" then Opened (File "daemon:x:1:1" 12 5)
      else open_rb demo_fs p;
    listdir := listdir demo_fs
  |}.

  (** A connection on which the request line [GET path version] and the
      header fields [hs] arrive. *)
Definition get (path version : string) (hs : list (string * string)) : request :=
    Request ("GET " ++ path ++ " " ++ version ++ Str.CRLF) (Headers hs) 1767225600.

Definition demo_env (fault : nat -> option exception) (rs : list request) : environment :=
    Environment "start-server.py" "/srv/demo" demo_fs fault rs.

  (** A disk on which the root [/srv/demo] holds a symbolic link to a
      file outside of it. *)
Definition secret_file : file := File "top secret" 10 1700000000.

Definition linked_disk : Disk.disk :=
    [ ("/", Disk.Directory ["etc"; "srv"]);
      ("/etc", Disk.Directory ["secret.txt"]);
      ("/etc/secret.txt", Disk.Regular secret_file);
      ("/srv", Disk.Directory ["demo"]);
      ("/srv/demo", Disk.Directory ["link.txt"; "stage8-vfs-demo.html"]);
      ("/srv/demo/link.txt", Disk.Symlink "/etc/secret.txt");
      ("/srv/demo/stage8-vfs-demo.html", Disk.Regular demo_file) ].

End Examples.

(** * Specification vocabulary *)

(** The Response Header Set of the specification, as the three lines it
    puts on the wire. *)
Definition fixed_header_lines : list string :=
  [ "Access-Control-Allow-Origin: *" ++ Str.CRLF;
    "Access-Control-Allow-Methods: GET" ++ Str.CRLF;
    "Cache-Control: no-store, no-cache, must-revalidate" ++ Str.CRLF ].

(** A header line that sets the content type, whatever the case of its
    name. *)
Definition is_content_type_line (line : string) : bool :=
  Str.startswith "content-type:" (Str.lower line).

(** The lines the handler has buffered so far. *)
Definition buffered (self : handler) : list string :=
  default [] (headers_buffer self).

(** The status line and a header line as [send_response_only] and
    [send_header] format them. *)
Definition status_line (code : Z) (message : string) : string :=
  BaseHTTPRequestHandler.protocol_version ++ " " ++ Str.of_Z code ++ " "
  ++ message ++ Str.CRLF.

Definition header_line (field : string * string) : string :=
  fst field ++ ": " ++ snd field ++ Str.CRLF.

(** The bytes of a response: status line, header lines, blank line,
    body. *)
Definition response_bytes
    (code : Z) (message : string) (fields : list (string * string))
    (body : string) : string :=
  Str.join (status_line code message :: map header_line fields ++ [Str.CRLF])%list
  ++ body.

(** The fields of the Response Header Set. *)
Definition fixed_headers : list (string * string) :=
  [ ("Access-Control-Allow-Origin", "*");
    ("Access-Control-Allow-Methods", "GET");
    ("Cache-Control", "no-store, no-cache, must-revalidate") ].

(** [self1] is [self] with more lines buffered and possibly another
    [close_connection]: the state between [send_response] and
    [end_headers]. *)
Definition head_built (self self1 : handler)
    (code : Z) (message : string) (fields : list (string * string)) : Prop :=
  directory self1 = directory self /\ command self1 = command self /\
  path self1 = path self /\ request_version self1 = request_version self /\
  headers self1 = headers self /\ clock self1 = clock self /\
  wfile self1 = wfile self /\
  buffered self1 =
    (buffered self ++ status_line code message :: map header_line fields)%list.

(** What a complete response leaves: the bytes of the response added to
    the connection, with the fixed headers after the fields [base] of the
    base behaviour. *)
Definition responded (self self' : handler)
    (code : Z) (message : string) (base : list (string * string))
    (body : string) : Prop :=
  wfile self' =
    wfile self ++ Str.join (buffered self)
    ++ response_bytes code message (base ++ fixed_headers)%list body.

(** What the body of a response is made of: nothing, an error page, the
    bytes of a file that was opened, or the page of a listing. *)
Definition body_of `{Runtime} (fs : filesystem) (body : string) : Prop :=
  body = "" \/
  (exists code message explain, body = error_page code message explain) \/
  (exists p f, open_rb fs p = Opened f /\ body = content f) \/
  (exists target entries, listing_page target entries = Some body).

(** The reasons for which an exception leaves the handler: [open]
    rejects a path, a file has a modification time that [datetime] cannot
    represent, [urlsplit] rejects a request path, or a listing cannot be
    encoded. *)
Definition raises `{Runtime} (fs : filesystem) : Prop :=
  (exists p, open_rb fs p = OpenValueError) \/
  (exists p f, open_rb fs p = Opened f /\
     datetime.fromtimestamp (st_mtime f) = None) \/
  (exists target, urlsplit_path target = None) \/
  (exists target entries, listing_page target entries = None).

(** The outcome of a method that sends one response, and of one that
    sends the head of a response and may return a file object, for a
    request that is not HTTP/0.9. *)
Definition sends `{Runtime} (fs : filesystem) (self : handler) (r : option handler)
    : Prop :=
  match r with
  | None => raises fs
  | Some self' =>
      exists code message base body,
        responded self self' code message base body /\ body_of fs body
  end.

Definition sends_head `{Runtime} (fs : filesystem) (self : handler)
    (r : option (handler * option string)) : Prop :=
  match r with
  | None => raises fs
  | Some (self', f) =>
      exists code message base body,
        responded self self' code message base body /\
        body_of fs body /\ body_of fs (body ++ default "" f)
  end.

(** The same for an HTTP/0.9 request: the body alone is written, if
    anything. *)
Definition sends_bare `{Runtime} (fs : filesystem) (self : handler)
    (r : option handler) : Prop :=
  match r with
  | None => raises fs
  | Some self' =>
      exists body, wfile self' = wfile self ++ body /\ body_of fs body
  end.

Definition sends_bare_head `{Runtime} (fs : filesystem) (self : handler)
    (r : option (handler * option string)) : Prop :=
  match r with
  | None => raises fs
  | Some (self', f) =>
      exists body,
        wfile self' = wfile self ++ body /\
        body_of fs body /\ body_of fs (body ++ default "" f)
  end.

(** A response carries the Response Header Set when each of its three
    lines occurs in the bytes of the response. *)
Definition carries_fixed_headers (response : string) : Prop :=
  Forall (fun line => Str.occurs_in line response) fixed_header_lines.

(** The texts of the startup banner, in the order of the [print] calls of
    the [with] body. *)
Definition banner (port : Z) : list string :=
  omap (fun s => match s with SPrint text => Some text | SServeForever => None end)
       (with_body port).

(** A run of [print] calls. *)
Definition prints (texts : list string) (p : process) : process :=
  fold_left (fun p text => print text p) texts p.

(** Statement [n] of the [try] block is the first to raise, and raises
    [e]. *)
Definition first_fault (env : environment) (n : nat) (e : exception) : Prop :=
  fault env n = Some e /\ forall m, (m < n)%nat -> fault env m = None.

(** The directory [main] changes to. *)
Definition script_directory (env : environment) : string :=
  posixpath.dirname (posixpath.abspath (start_cwd env) (script env)).

(** The process when the [try] block is entered. *)
Definition started `{Runtime} (env : environment) : process :=
  chdir (script_directory env) (Process (start_cwd env) []).

(** The value of [errno.EADDRINUSE], the error number with which the
    operating system reports a port that is already bound. *)
Inductive platform := Linux | Darwin | Windows.

Definition EADDRINUSE (os : platform) : Z :=
  match os with
  | Linux => 98
  | Darwin => 48
  | Windows => 10048
  end.

(** The number of attempts to bind the listening socket. *)
Definition bind_attempts (t : list event) : nat :=
  length (List.filter (fun e => match e with Bind _ _ => true | _ => false end) t).

(** A plain name: a file or directory name other than [.] and [..]. *)
Definition plain (name : string) : Prop :=
  name <> "" /\ name <> "." /\ name <> ".." /\ Str.mem "/" name = false.

(** The path of the names [n1], ..., [nk] below a directory:
    [root/n1/.../nk], written with one slash before each name. *)
Definition below (root : string) (names : list string) : string :=
  root ++ Str.join (map (String "/") names).

(** The absolute path of the names [n1], ..., [nk]: [/n1/.../nk], and
    [/] when there is none. *)
Definition absolute (names : list string) : string :=
  "/" ++ Str.join_with "/" names.

(** The path of a directory other than the root of the filesystem, as
    [os.getcwd] gives it: it does not end with a slash. *)
Definition directory_path (root : string) : Prop :=
  root <> "" /\ Str.endswith "/" root = false.

(** Lexical confinement to a root directory: the paths that go from the
    root down into plain names, with or without a trailing slash. *)
Definition under (root p : string) : Prop :=
  exists names,
    Forall plain names /\ (p = below root names \/ p = below root names ++ "/").

(** Two filesystems that answer alike on every path under the root. *)
Definition agree (root : string) (fs1 fs2 : filesystem) : Prop :=
  forall p, under root p ->
    isdir fs1 p = isdir fs2 p /\ isfile fs1 p = isfile fs2 p /\
    islink fs1 p = islink fs2 p /\ open_rb fs1 p = open_rb fs2 p /\
    listdir fs1 p = listdir fs2 p.

(** [os.listdir] gives plain names. *)
Definition lists_plain_names (fs : filesystem) : Prop :=
  forall p names, listdir fs p = Some names -> Forall plain names.

(** The response of a handler made for request [r] with directory
    [root]. *)
Definition response_of `{Runtime} (fs : filesystem) (root : string) (r : request)
    : string :=
  let self := TCPServer.new_handler root r in
  match MyHTTPRequestHandler.handle fs r self with
  | Some self' => wfile self'
  | None => wfile self
  end.

(** What the events after the first [Chdir] must be for the root to stay
    what it was set to: no other change of directory, and every request
    served by a handler whose directory is the root. *)
Definition rooted `{Runtime} (fs : filesystem) (root : string) (e : event) : Prop :=
  match e with
  | Chdir _ => False
  | Serve dir r response => dir = root /\ response = response_of fs root r
  | _ => True
  end.

(** The process runs in [root] and its trace is one [Chdir root] followed
    by [rooted] events. *)
Definition root_invariant `{Runtime} (fs : filesystem) (root : string) (p : process)
    : Prop :=
  cwd p = root /\
  exists t, trace p = Chdir root :: t /\ Forall (rooted fs root) t.

(** The fields of the base behaviour for a file that is served. *)
Definition file_fields `{Runtime} (p : string) (f : file) (now : Z)
    : list (string * string) :=
  [ ("Server", version_string);
    ("Date", formatdate now);
    ("Content-type", guess_type p);
    ("Content-Length", Str.of_Z (st_size f));
    ("Last-Modified", formatdate (st_mtime f)) ].

(** ** The runs of [main], statement by statement *)

(** The first statement of the [try] block that raises, among the [k]
    statements from number [n] on, with what it raises. *)
Fixpoint scan_faults (env : environment) (n k : nat) : option (nat * exception) :=
  match k with
  | O => None
  | S k' =>
      match fault env n with
      | Some e => Some (n, e)
      | None => scan_faults env (S n) k'
      end
  end.

(** The same for the fifteen statements of the [try] block. *)
Definition first_raise (env : environment) : option (nat * exception) :=
  scan_faults env 0 15.

(** What the [except] clauses print for an exception, and how the run
    ends. *)
Definition clause_prints (e : exception) : list string :=
  match e with
  | KeyboardInterrupt => [shutdown_message]
  | OSError errno =>
      if errno_is_address_in_use errno then port_in_use_messages PORT else []
  | OtherException _ => []
  end.

Definition clause_result (e : exception) : result :=
  match e with
  | KeyboardInterrupt => Exited 0
  | OSError errno =>
      if errno_is_address_in_use errno then Exited 1 else Raised e
  | OtherException _ => Raised e
  end.

(** The events of serving the requests [rs] from the directory [root]. *)
Definition served `{Runtime} (fs : filesystem) (root : string) (rs : list request)
    : list event :=
  map (fun r => Serve root r (response_of fs root r)) rs.

(** The events of a run of [main] after the change of directory, read
    off the first statement that raises. *)
Definition run_events `{Runtime} (env : environment) : list event :=
  match first_raise env with
  | None =>
      Bind PORT true :: map Print (banner PORT)
      ++ served (fs env) (script_directory env) (requests env)
  | Some (O, e) =>
      Bind PORT false :: Close :: map Print (clause_prints e)
  | Some (i, e) =>
      Bind PORT true :: map Print (take (i - 1) (banner PORT))
      ++ (if Nat.eqb i 14
          then served (fs env) (script_directory env) (requests env) else [])
      ++ Close :: map Print (clause_prints e)
  end.

Definition run_result (env : environment) : result :=
  match first_raise env with
  | None => Serving
  | Some (_, e) => clause_result e
  end.

(** Events that serve a request. *)
Definition is_serve (e : event) : bool :=
  match e with Serve _ _ _ => true | _ => false end.

(** ** The override against the base class *)

(** The response of the base class, without the fixed headers. *)
Definition base_responded (self self' : handler)
    (code : Z) (message : string) (base : list (string * string))
    (body : string) : Prop :=
  wfile self' =
    wfile self ++ Str.join (buffered self)
    ++ response_bytes code message base body.

(** Two runs of a method, one with the [end_headers] of the base class
    and one with the override: both raise, or both answer, with the same
    status, the same fields of the base behaviour, the same body, and the
    same handler apart from the bytes written. *)
Definition paired (self : handler) (rb rs : option handler) : Prop :=
  match rb with
  | None => rs = None
  | Some b =>
      exists s code message base body,
        rs = Some s /\
        set_wfile "" b = set_wfile "" s /\
        base_responded self b code message base body /\
        responded self s code message base body
  end.

Definition paired_head (self : handler)
    (rb rs : option (handler * option string)) : Prop :=
  match rb with
  | None => rs = None
  | Some (b, f) =>
      exists s code message base body,
        rs = Some (s, f) /\
        set_wfile "" b = set_wfile "" s /\
        base_responded self b code message base body /\
        responded self s code message base body
  end.

(** ** Error replies and redirects *)

(** The test of [send_error] for a reply with a body. *)
Definition has_body (code : Z) : bool :=
  (Z.leb 200 code && negb (Z.eqb code 204 || Z.eqb code 205 || Z.eqb code 304))%bool.

(** The long text of a status code that [send_error] takes when it is
    given no explanation. *)
Definition explanation `{Runtime} (code : Z) : string :=
  snd (default ("???", "???") (responses code)).

(** The fields of the base behaviour in an error reply with a body. *)
Definition error_fields `{Runtime} (now : Z) (page : string) : list (string * string) :=
  [ ("Server", version_string);
    ("Date", formatdate now);
    ("Connection", "close");
    ("Content-Type", "text/html;charset=utf-8");
    ("Content-Length", Str.of_Z (Z.of_nat (String.length page))) ].

(** The fields of the base behaviour in the redirect of a directory. *)
Definition redirect_fields `{Runtime} (now : Z) (location : string)
    : list (string * string) :=
  [ ("Server", version_string);
    ("Date", formatdate now);
    ("Location", location);
    ("Content-Length", "0") ].

(** A second example: a root with a sub-directory [docs] and a page in
    it. *)
Module Site.

Definition page : file := File "<p>guide</p>" 12 1700000000.

Definition site_fs : filesystem := {|
  isdir p := (String.eqb p "/srv/site" || String.eqb p "/srv/site/"
              || String.eqb p "/srv/site/docs" || String.eqb p "/srv/site/docs/")%bool;
  isfile p := String.eqb p "/srv/site/docs/guide.html";
  islink _ := false;
  open_rb p :=
    if String.eqb p "/srv/site/docs/guide.html" then Opened page else OpenOSError;
  listdir p :=
    if (String.eqb p "/srv/site" || String.eqb p "/srv/site/")%bool
    then Some ["docs"]
    else if (String.eqb p "/srv/site/docs" || String.eqb p "/srv/site/docs/")%bool
    then Some ["guide.html"]
    else None
|}.

(** A handler after [parse_request]. *)
Definition handler_for (method path version : string) : handler :=
  Handler "/srv/site" method path version [] None "" true 1767225600.

End Site.

(** The fields of the base behaviour in a directory listing. *)
Definition listing_fields `{Runtime} (now : Z) (page : string)
    : list (string * string) :=
  [ ("Server", version_string);
    ("Date", formatdate now);
    ("Content-type", "text/html; charset=" ++ filesystem_encoding);
    ("Content-Length", Str.of_Z (Z.of_nat (String.length page))) ].

(** ** Request lines *)

(** [word] is the version [HTTP/major.minor]: the text [HTTP/], an
    integer, a dot and an integer. *)
Definition http_version (word : string) (major minor : Z) : Prop :=
  exists a b,
    word = "HTTP/" ++ a ++ "." ++ b /\
    Str.int a = Some major /\ Str.int b = Some minor.

Definition below_2_0 (major minor : Z) : Prop :=
  major < 2 \/ (major = 2 /\ minor < 0).

(** A word that announces a version of the protocol below 2.0 and is not
    the word [HTTP/0.9] itself. *)
Definition version_word (word : string) : Prop :=
  word <> "HTTP/0.9" /\
  exists major minor, http_version word major minor /\ below_2_0 major minor.

(** A request line that gets a response with a head: it is longer than
    65536 bytes, or it has three words or more, the last of which is a
    version word. *)
Definition gets_head (line : string) : Prop :=
  65536 < Z.of_nat (String.length line) \/
  exists before version,
    Str.words line = (before ++ [version])%list /\ (2 <= length before)%nat /\
    version_word version.

(** The request target without its query and its fragment. *)
Definition target_path (target : string) : string :=
  Str.before "#" (Str.before "?" target).

(** The condition of a conditional request holds for a file: the fields
    have an [If-Modified-Since] date and no [If-None-Match], the date is
    well formed, in UTC or without zone, and not earlier than the
    modification time of the file. *)
Definition unchanged_since `{Runtime} (fields : list (string * string)) (f : file)
    : Prop :=
  exists value tz t,
    headers_get "If-Modified-Since" fields = Some value /\
    headers_get "If-None-Match" fields = None /\
    parsedate_to_datetime value = Some (tz, t) /\
    tz <> TzOther /\ st_mtime f <= t.

(** The handler that [parse_request] leaves for the request line
    [command target version]. *)
Definition parsed_handler (root : string) (r : request)
    (command target version : string) (fields : list (string * string))
    : handler :=
  Handler root command
    (if Str.startswith "//" target then "/" ++ Str.lstrip_char "/" target
     else target)
    version fields None "" true (req_time r).

(** ** The place of the script *)

(** The script is the file [name] of the directory [/d1/.../dn], which
    is not the root of the filesystem: [__file__] is the absolute path of
    the script, or its path from the directory in which the program was
    started. *)
Definition script_in (env : environment) (dir : list string) (name : string)
    : Prop :=
  dir <> [] /\ Forall plain (dir ++ [name])%list /\
  (script env = absolute (dir ++ [name])%list \/
   exists start rel,
     dir = (start ++ rel)%list /\
     start_cwd env = absolute start /\
     script env = Str.join_with "/" (rel ++ [name])%list).

(** ** The answer to a request *)

(** What [handle_one_request] does with the result of [parse_request]. *)
Definition then_dispatch `{Runtime} (fs : filesystem)
    (x : option (handler * bool)) : option handler :=
  '(self, ok) ← x;
  if (ok : bool) then MyHTTPRequestHandler.dispatch fs self else Some self.

(** The outcome of a method that answers a request, with a head or
    without. *)
Definition replies `{Runtime} (fs : filesystem) (head : bool) (self : handler)
    (r : option handler) : Prop :=
  if head then sends fs self r else sends_bare fs self r.

(** The answer to a request line: an exception leaves the handler, or a
    response with a head is written, or a body alone, if anything; the
    request line decides which of the two. *)
Definition answers `{Runtime} (fs : filesystem) (line : string) (self : handler)
    (r : option handler) : Prop :=
  match r with
  | None => raises fs
  | Some self' =>
      (gets_head line /\
       exists code message base body,
         responded self self' code message base body /\ body_of fs body) \/
      (~ gets_head line /\
       exists body, wfile self' = wfile self ++ body /\ body_of fs body)
  end.

(** The handlers that [parse_request] can leave are marked to be
    closed. *)
Definition closed_parsed (x : option (handler * bool)) : Prop :=
  forall s ok, x = Some (s, ok) -> close_connection s = true.

(** The handlers that [parse_request] can leave have the directory
    [root]. *)
Definition rooted_parsed (root : string) (x : option (handler * bool)) : Prop :=
  forall s ok, x = Some (s, ok) -> directory s = root.

(** The request [r] is the request line [command target version], or
    [GET target] without a version, of at most 65536 bytes, followed by
    the header fields [fields]. *)
Definition asks (r : request) (command target : string) (version : option string)
    (fields : list (string * string)) : Prop :=
  Z.of_nat (String.length (req_line r)) <= 65536 /\
  req_headers r = Headers fields /\
  match version with
  | Some v => Str.words (req_line r) = [command; target; v] /\ version_word v
  | None => Str.words (req_line r) = [command; target] /\ command = "GET"
  end.

(** The path [/n1/.../nk], with a slash at the end or without. *)
Definition names_path (p : string) (names : list string) : Prop :=
  p = absolute names \/ (names <> [] /\ p = absolute names ++ "/").

(** The handler answers request [r] with the bytes [response], and no
    exception leaves it. *)
Definition answered `{Runtime} (fs : filesystem) (root : string) (r : request)
    (response : string) : Prop :=
  exists self',
    MyHTTPRequestHandler.handle fs r (TCPServer.new_handler root r) = Some self' /\
    wfile self' = response.

(** [then_dispatch] for a class whose method [end_headers] is [eh]. *)
Definition then_dispatch_with `{Runtime} (eh : handler -> option handler)
    (fs : filesystem) (x : option (handler * bool)) : option handler :=
  '(self, ok) ← x;
  if (ok : bool) then SimpleHTTPRequestHandler.dispatch eh fs self else Some self.

(** The outcomes of a method in the base class and in the subclass, for
    an answer with a head or without: paired, or the same. *)
Definition akin (head : bool) (self : handler) (rb rs : option handler) : Prop :=
  if head then paired self rb rs else rb = rs.

(** The base class against the subclass on a request line: paired
    answers when the line gets a head, the same answer when not. *)
Definition akin_on (line : string) (self : handler) (rb rs : option handler)
    : Prop :=
  (gets_head line -> paired self rb rs) /\ (~ gets_head line -> rb = rs).

(** The entry of a listing for the name [name], whose path is [full]:
    the link and the text shown.  A directory gets a slash, a symbolic
    link is shown with an at sign. *)
Definition shown_entry (fs : filesystem) (full name : string) : string * string :=
  (if isdir fs full then name ++ "/" else name,
   if islink fs full then name ++ "@"
   else if isdir fs full then name ++ "/" else name).

(** The order of a listing: by the lower-case forms of the names,
    compared character by character. *)
Definition listing_order `{Runtime} (a b : string) : Prop :=
  String.leb (lower a) (lower b) = true.

(** * Properties *)

(** ** Strings *)

Lemma append_nil_l (s : string) : "" ++ s = s.
Proof. reflexivity. Qed.

Lemma append_cons (c : ascii) (s t : string) :
  String c s ++ t = String c (s ++ t).
Proof. reflexivity. Qed.

Lemma append_nil_r (s : string) : s ++ "" = s.
Proof. induction s as [|c s IH]; [reflexivity|]. by rewrite append_cons, IH. Qed.

Lemma append_assoc (s t u : string) : (s ++ t) ++ u = s ++ (t ++ u).
Proof.
  induction s as [|c s IH]; [reflexivity|]. by rewrite !append_cons, IH.
Qed.

Lemma join_cons (x : string) (a : list string) :
  Str.join (x :: a) = x ++ Str.join a.
Proof. reflexivity. Qed.

Lemma join_app (a b : list string) :
  Str.join (a ++ b)%list = Str.join a ++ Str.join b.
Proof.
  induction a as [|x a IH]; [reflexivity|].
  by rewrite <- app_comm_cons, !join_cons, IH, append_assoc.
Qed.

Lemma prefix_occurs (p s : string) :
  String.prefix p s = true <-> exists post, s = p ++ post.
Proof.
  revert s. induction p as [|c p IH]; intros s.
  - destruct s; cbn; split; eauto.
  - destruct s as [|d s]; cbn.
    + split; [done|]. by intros [post ?].
    + destruct (ascii_dec c d) as [->|Hne].
      * rewrite IH. split; intros [post Hp]; exists post.
        -- by rewrite append_cons, Hp.
        -- rewrite append_cons in Hp. congruence.
      * split; [done|]. intros [post Hp]. rewrite append_cons in Hp. congruence.
Qed.

(** [Str.contains] decides [Str.occurs_in]. *)
Lemma contains_spec (needle hay : string) :
  Str.contains needle hay = true <-> Str.occurs_in needle hay.
Proof.
  unfold Str.occurs_in. induction hay as [|c hay IH].
  - cbn [Str.contains]. destruct (String.prefix needle "") eqn:Hp.
    + apply prefix_occurs in Hp as [post Hp]. split; [|done].
      intros _. exists "", post. by rewrite append_nil_l.
    + split; [done|]. intros ([|? ?] & post & Heq).
      * rewrite append_nil_l in Heq.
        assert (String.prefix needle "" = true) as Hq; [|congruence].
        apply prefix_occurs. eauto.
      * by rewrite append_cons in Heq.
  - cbn [Str.contains]. destruct (String.prefix needle (String c hay)) eqn:Hp.
    + apply prefix_occurs in Hp as [post Hp]. split; [|done].
      intros _. exists "", post. by rewrite append_nil_l.
    + rewrite IH. split.
      * intros (pre & post & ->). exists (String c pre), post.
        by rewrite append_cons.
      * intros ([|d pre] & post & Heq).
        -- rewrite append_nil_l in Heq.
           assert (String.prefix needle (String c hay) = true) as Hq;
             [|congruence].
           apply prefix_occurs. eauto.
        -- rewrite append_cons in Heq. injection Heq as -> ->. eauto.
Qed.

(** ** The override of [end_headers] *)

Lemma is_http09_false (self : handler) :
  BaseHTTPRequestHandler.is_http09 self = false <->
  request_version self <> "HTTP/0.9".
Proof. unfold BaseHTTPRequestHandler.is_http09. apply String.eqb_neq. Qed.

Lemma is_http09_buffer_append (line : string) (self : handler) :
  BaseHTTPRequestHandler.is_http09 (BaseHTTPRequestHandler.buffer_append line self)
  = BaseHTTPRequestHandler.is_http09 self.
Proof. reflexivity. Qed.

(** [send_header] for a field other than [Connection], when the request
    is not HTTP/0.9: one more line in the buffer. *)
Lemma send_header_plain (self : handler) (k v : string) :
  BaseHTTPRequestHandler.is_http09 self = false ->
  String.eqb (Str.lower k) "connection" = false ->
  BaseHTTPRequestHandler.send_header self k v =
    BaseHTTPRequestHandler.buffer_append (k ++ ": " ++ v ++ Str.CRLF) self.
Proof.
  intros H09 Hk. unfold BaseHTTPRequestHandler.send_header.
  rewrite H09, Hk. reflexivity.
Qed.

Lemma buffered_buffer_append (line : string) (self : handler) :
  buffered (BaseHTTPRequestHandler.buffer_append line self)
  = (buffered self ++ [line])%list.
Proof. reflexivity. Qed.

(** The base [end_headers] after three more lines were buffered. *)
Lemma base_end_headers_appended (self : handler) (l1 l2 l3 : string) :
  BaseHTTPRequestHandler.is_http09 self = false ->
  BaseHTTPRequestHandler.end_headers
    (BaseHTTPRequestHandler.buffer_append l3
       (BaseHTTPRequestHandler.buffer_append l2
          (BaseHTTPRequestHandler.buffer_append l1 self)))
  = Some (set_headers_buffer (Some [])
            (set_wfile
               (wfile self ++ Str.join (buffered self ++ [l1; l2; l3] ++ [Str.CRLF])%list)
               self)).
Proof.
  intros H09. unfold BaseHTTPRequestHandler.end_headers.
  rewrite !is_http09_buffer_append, H09.
  destruct self as [d c p v hs buf w cc t]. cbn.
  unfold BaseHTTPRequestHandler.flush_headers, set_headers_buffer, set_wfile,
    buffered. cbn.
  by rewrite <- !app_assoc.
Qed.

Lemma fixed_header_lines_sent :
  [ "Access-Control-Allow-Origin" ++ ": " ++ "*" ++ Str.CRLF;
    "Access-Control-Allow-Methods" ++ ": " ++ "GET" ++ Str.CRLF;
    "Cache-Control" ++ ": " ++ "no-store, no-cache, must-revalidate" ++ Str.CRLF ]
  = fixed_header_lines.
Proof. vm_compute. reflexivity. Qed.

(** For a request that is not HTTP/0.9 the override flushes what was
    buffered, then the three fixed lines, then the blank line. *)
Lemma end_headers_not_http09 (self : handler) :
  BaseHTTPRequestHandler.is_http09 self = false ->
  MyHTTPRequestHandler.end_headers self =
    Some (set_headers_buffer (Some [])
            (set_wfile
               (wfile self
                ++ Str.join (buffered self ++ fixed_header_lines ++ [Str.CRLF])%list)
               self)).
Proof.
  intros H09. unfold MyHTTPRequestHandler.end_headers. cbv zeta.
  rewrite (send_header_plain self) by first [exact H09 | reflexivity].
  rewrite (send_header_plain (BaseHTTPRequestHandler.buffer_append _ self))
    by first [exact H09 | reflexivity].
  rewrite (send_header_plain
             (BaseHTTPRequestHandler.buffer_append _
                (BaseHTTPRequestHandler.buffer_append _ self)))
    by first [exact H09 | reflexivity].
  rewrite base_end_headers_appended by exact H09.
  by rewrite fixed_header_lines_sent.
Qed.

(** For an HTTP/0.9 request the override does nothing at all. *)
Lemma end_headers_http09 (self : handler) :
  BaseHTTPRequestHandler.is_http09 self = true ->
  MyHTTPRequestHandler.end_headers self = Some self.
Proof.
  intros H09.
  assert (forall k v, String.eqb (Str.lower k) "connection" = false ->
            BaseHTTPRequestHandler.send_header self k v = self) as Hs.
  { intros k v Hk. unfold BaseHTTPRequestHandler.send_header.
    by rewrite H09, Hk. }
  unfold MyHTTPRequestHandler.end_headers. cbv zeta.
  rewrite !Hs by reflexivity.
  unfold BaseHTTPRequestHandler.end_headers. by rewrite H09.
Qed.

Lemma fixed_header_lines_eq :
  fixed_header_lines = map header_line fixed_headers.
Proof. reflexivity. Qed.

(** ** Building the head of a response *)

Section Head.
Context `{Runtime}.
  Import BaseHTTPRequestHandler.

Lemma send_response_only_plain (self : handler) (code : Z) (message : option string) :
  is_http09 self = false ->
  send_response_only self code message =
    buffer_append
      (status_line code (default (default "" (fst <$> responses code)) message))
      self.
Proof.
  intros H09. unfold send_response_only, status_line. rewrite H09.
  cbn [negb]. destruct message as [m|]; [reflexivity|].
  by destruct (responses code) as [[phrase long]|].
Qed.

Lemma clock_buffer_append (line : string) (self : handler) :
  clock (buffer_append line self) = clock self.
Proof. reflexivity. Qed.

Lemma head_built_appended (self : handler) code message (l1 l2 : string * string) :
  head_built self
    (buffer_append (header_line l2)
       (buffer_append (header_line l1)
          (buffer_append (status_line code message) self)))
    code message [l1; l2].
Proof.
  unfold head_built. repeat split.
  rewrite !buffered_buffer_append, <- !app_assoc. reflexivity.
Qed.

Lemma send_response_built (self : handler) (code : Z) (message : option string) :
  is_http09 self = false ->
  head_built self (send_response self code message) code
    (default (default "" (fst <$> responses code)) message)
    [("Server", version_string); ("Date", formatdate (clock self))].
Proof.
  intros H09. unfold send_response. cbv zeta.
  rewrite send_response_only_plain by exact H09.
  rewrite (send_header_plain (buffer_append _ self))
    by first [exact H09 | reflexivity].
  rewrite (send_header_plain (buffer_append _ (buffer_append _ self)))
    by first [exact H09 | reflexivity].
  rewrite !clock_buffer_append.
  apply (head_built_appended self code _ ("Server", version_string)
           ("Date", formatdate (clock self))).
Qed.

Lemma send_header_built (self self1 : handler) code message fields k v :
    is_http09 self = false ->
    head_built self self1 code message fields ->
    head_built self (send_header self1 k v) code message (fields ++ [(k, v)]).
  Proof.
    intros H09 (Hd & Hc & Hp & Hv & Hh & Ht & Hw & Hb).
    assert (is_http09 self1 = false) as H1.
    { unfold is_http09 in *. by rewrite Hv. }
    destruct self1 as [d1 c1 p1 v1 hs1 buf1 w1 cc1 t1].
    unfold head_built, send_header, buffered in *. cbn in *.
    unfold is_http09 in H1. cbn in H1. rewrite H1. cbn.
    assert (forall h : handler,
      (directory h, command h, path h, request_version h, headers h, clock h,
       wfile h, headers_buffer h)
      = (d1, c1, p1, v1, hs1, t1, w1, Some (default [] buf1 ++ [header_line (k, v)])%list) ->
      directory h = directory self /\ command h = command self /\
      path h = path self /\ request_version h = request_version self /\
      headers h = headers self /\ clock h = clock self /\ wfile h = wfile self /\
      default [] (headers_buffer h) =
        (default [] (headers_buffer self)
         ++ status_line code message :: map header_line (fields ++ [(k, v)]))%list)
      as Hgen.
    { intros h Heq. injection Heq as -> -> -> -> -> -> -> ->. cbn.
      rewrite Hb, map_app, <- app_assoc. cbn. done. }
    repeat case_match; apply Hgen; reflexivity.
  Qed.

  (** The override of [end_headers] turns a built head into a response
      without body. *)
Lemma end_headers_built (self self1 : handler) code message fields :
    is_http09 self = false ->
    head_built self self1 code message fields ->
    exists self2,
      MyHTTPRequestHandler.end_headers self1 = Some self2 /\
      command self2 = command self /\
      responded self self2 code message fields "".
Proof.
    intros H09 (Hd & Hc & Hp & Hv & Hh & Ht & Hw & Hb).
    assert (is_http09 self1 = false) as H1.
    { unfold is_http09 in *. by rewrite Hv. }
    rewrite (end_headers_not_http09 _ H1).
    eexists. split; [reflexivity|]. split; [exact Hc|].
    unfold responded, response_bytes.
    change (wfile (set_headers_buffer ?b (set_wfile ?w ?h))) with w.
    rewrite Hw, Hb, fixed_header_lines_eq, append_nil_r.
    f_equal. rewrite <- join_app. f_equal.
    rewrite map_app, <- !app_assoc. reflexivity.
Qed.

End Head.

(** ** Every path of the handler ends in a response or in an exception *)

Lemma responded_body (self self2 : handler) code message fields body more :
  responded self self2 code message fields body ->
  responded self (set_wfile (wfile self2 ++ more) self2) code message fields
    (body ++ more).
Proof.
  unfold responded, response_bytes. cbn. intros ->.
  by rewrite !append_assoc.
Qed.

Lemma body_of_empty `{Runtime} (fs : filesystem) : body_of fs "".
Proof. by left. Qed.

Lemma body_of_error_page `{Runtime} (fs : filesystem) code message explain :
  body_of fs (error_page code message explain).
Proof. right. left. eauto. Qed.

Lemma fromtimestamp_some (t t' : Z) :
  datetime.fromtimestamp t = Some t' -> t' = t.
Proof. unfold datetime.fromtimestamp. case_match; congruence. Qed.

Section Paths.
Context `{Runtime}.
Import BaseHTTPRequestHandler SimpleHTTPRequestHandler.

Lemma date_time_string_none (t : Z) :
  date_time_string t = None -> datetime.fromtimestamp t = None.
Proof. unfold date_time_string. by destruct (datetime.fromtimestamp t). Qed.

Lemma not_modified_none (self : handler) (f : file) :
  not_modified self f = None -> datetime.fromtimestamp (st_mtime f) = None.
Proof.
  unfold not_modified. intros Hn.
  destruct (datetime.fromtimestamp (st_mtime f)); [|done].
  repeat case_match; discriminate Hn.
Qed.

(** [end_headers] on a built head, followed by an optional body. *)
Lemma end_headers_then (fs : filesystem) (self self1 : handler) code message
    fields (body : string) (c : handler -> bool) :
  is_http09 self = false ->
  head_built self self1 code message fields ->
  body_of fs body ->
  sends fs self
    (self2 ← MyHTTPRequestHandler.end_headers self1;
     Some (if c self2 then set_wfile (wfile self2 ++ body) self2 else self2)).
Proof.
  intros H09 Hb Hbody.
  destruct (end_headers_built _ _ _ _ _ H09 Hb) as (self2 & -> & Hc & Hr).
  cbn [mbind option_bind]. unfold sends. destruct (c self2).
  - exists code, message, fields, ("" ++ body).
    split; [by apply responded_body|exact Hbody].
  - exists code, message, fields, "". split; [exact Hr|apply body_of_empty].
Qed.

(** [end_headers] on a built head, in a method that returns a file
    object or [None]. *)
Lemma end_headers_head (fs : filesystem) (self self1 : handler) code message
    fields (f : option string) :
  is_http09 self = false ->
  head_built self self1 code message fields ->
  body_of fs (default "" f) ->
  sends_head fs self
    (self2 ← MyHTTPRequestHandler.end_headers self1; Some (self2, f)).
Proof.
  intros H09 Hb Hf.
  destruct (end_headers_built _ _ _ _ _ H09 Hb) as (self2 & -> & Hc & Hr).
  cbn [mbind option_bind]. unfold sends_head.
  exists code, message, fields, "".
  split; [exact Hr|]. split; [apply body_of_empty|exact Hf].
Qed.

Lemma end_headers_then_exact (self self1 : handler) code message fields
    (body : string) (g : string -> bool) :
  is_http09 self = false ->
  head_built self self1 code message fields ->
  exists self',
    (x ← MyHTTPRequestHandler.end_headers self1;
     Some (if g (command x) then set_wfile (wfile x ++ body) x else x))
    = Some self' /\
    responded self self' code message fields
      (if g (command self) then body else "").
Proof.
  intros H09 Hb.
  destruct (end_headers_built _ _ _ _ _ H09 Hb) as (self2 & -> & Hc & Hr).
  cbn [mbind option_bind]. rewrite Hc. destruct (g (command self)).
  - eexists. split; [reflexivity|].
    by apply (responded_body _ _ _ _ _ "" body).
  - by exists self2.
Qed.

(** [send_error] for a request that is not HTTP/0.9 never raises: it
    sends a complete response, whose body is the error page or nothing. *)
Lemma send_error_responds (self : handler) code message explain :
  is_http09 self = false ->
  exists self' m fields body,
    MyHTTPRequestHandler.send_error self code message explain = Some self' /\
    responded self self' code m fields body /\
    (body = "" \/ exists e, body = error_page code m e).
Proof.
  intros H09.
  unfold MyHTTPRequestHandler.send_error, send_error.
  destruct (default ("???", "???") (responses code)) as [shortmsg longmsg].
  cbv zeta.
  pose proof (send_response_built self code (Some (default shortmsg message)) H09)
    as Hb.
  apply (send_header_built _ _ _ _ _ "Connection" "close" H09) in Hb.
  destruct (Z.leb 200 code
            && negb (Z.eqb code 204 || Z.eqb code 205 || Z.eqb code 304))%bool.
  - apply (send_header_built _ _ _ _ _ "Content-Type" "text/html;charset=utf-8"
             H09) in Hb.
    eapply (send_header_built _ _ _ _ _ "Content-Length" _ H09) in Hb.
    set (page := error_page code (default shortmsg message)
                   (default longmsg explain)) in *.
    destruct (end_headers_then_exact _ _ _ _ _ page
                (fun c => negb (String.eqb c "HEAD") && negb (String.eqb page ""))
                H09 Hb) as (self' & Hs & Hr).
    exists self'. eexists _, _, _. split; [exact Hs|]. split; [exact Hr|].
    destruct (_ && _)%bool; [right; by eexists|by left].
  - destruct (end_headers_then_exact _ _ _ _ _ ""
                (fun c => negb (String.eqb c "HEAD") && negb (String.eqb "" ""))
                H09 Hb) as (self' & Hs & Hr).
    exists self'. eexists _, _, _. split; [exact Hs|]. split; [exact Hr|].
    left. by destruct (_ && _)%bool.
Qed.

Lemma send_error_sends (fs : filesystem) (self : handler) code message explain :
  is_http09 self = false ->
  sends fs self (MyHTTPRequestHandler.send_error self code message explain).
Proof.
  intros H09.
  destruct (send_error_responds self code message explain H09)
    as (self' & m & fields & body & -> & Hr & Hbody).
  exists code, m, fields, body. split; [exact Hr|].
  destruct Hbody as [->|[e ->]]; [apply body_of_empty|apply body_of_error_page].
Qed.

Lemma sends_as_head (fs : filesystem) (self : handler) (r : option handler) :
  sends fs self r -> sends_head fs self (self' ← r; Some (self', None)).
Proof.
  destruct r as [self'|]; [|done].
  intros (code & message & base & body & Hr & Hbody).
  cbn [mbind option_bind]. unfold sends_head.
  exists code, message, base, body. cbn. by rewrite append_nil_r.
Qed.

Lemma send_file_sends (fs : filesystem) (self : handler) (p : string) :
  is_http09 self = false ->
  sends_head fs self (send_file MyHTTPRequestHandler.end_headers fs self p).
Proof.
  intros H09. unfold send_file. cbv zeta.
  pose proof (send_error_sends fs self 404 (Some "File not found") None H09) as He.
  apply sends_as_head in He.
  destruct (Str.endswith "/" p); [exact He|].
  destruct (open_rb fs p) as [f| |] eqn:Hopen; [|exact He|].
  - destruct (not_modified self f) as [[|]|] eqn:Hnm; cbn [mbind option_bind].
    + pose proof (send_response_built self 304 None H09) as Hb.
      exact (end_headers_head fs _ _ _ _ _ None H09 Hb (body_of_empty fs)).
    + destruct (date_time_string (st_mtime f)) as [lm|] eqn:Hlm;
        cbn [mbind option_bind].
      * pose proof (send_response_built self 200 None H09) as Hb.
        eapply (send_header_built _ _ _ _ _ "Content-type" _ H09) in Hb.
        eapply (send_header_built _ _ _ _ _ "Content-Length" _ H09) in Hb.
        eapply (send_header_built _ _ _ _ _ "Last-Modified" _ H09) in Hb.
        apply (end_headers_head fs _ _ _ _ _ (Some (content f)) H09 Hb).
        right. right. left. eauto.
      * right. left. exists p, f. split; [done|]. by apply date_time_string_none.
    + right. left. exists p, f. split; [done|]. by eapply not_modified_none.
  - left. eauto.
Qed.

Lemma list_directory_sends (fs : filesystem) (self : handler) (p : string) :
  is_http09 self = false ->
  sends_head fs self (list_directory MyHTTPRequestHandler.end_headers fs self p).
Proof.
  intros H09. unfold list_directory.
  destruct (listdir fs p) as [names|].
  - cbv zeta.
    destruct (listing_page _ _) as [encoded|] eqn:Hpage; cbn [mbind option_bind].
    + pose proof (send_response_built self 200 None H09) as Hb.
      eapply (send_header_built _ _ _ _ _ "Content-type" _ H09) in Hb.
      eapply (send_header_built _ _ _ _ _ "Content-Length" _ H09) in Hb.
      apply (end_headers_head fs _ _ _ _ _ (Some encoded) H09 Hb).
      right. right. right. eauto.
    + right. right. right. eauto.
  - apply sends_as_head, send_error_sends, H09.
Qed.

Lemma send_head_sends (fs : filesystem) (self : handler) :
  is_http09 self = false ->
  sends_head fs self (MyHTTPRequestHandler.send_head fs self).
Proof.
  intros H09. unfold MyHTTPRequestHandler.send_head, send_head. cbv zeta.
  destruct (isdir fs _); [|by apply send_file_sends].
  destruct (urlsplit_path _) as [parts_path|] eqn:Hsplit; cbn [mbind option_bind].
  - destruct (negb _).
    + pose proof (send_response_built self 301 None H09) as Hb.
      eapply (send_header_built _ _ _ _ _ "Location" _ H09) in Hb.
      eapply (send_header_built _ _ _ _ _ "Content-Length" "0" H09) in Hb.
      exact (end_headers_head fs _ _ _ _ _ None H09 Hb (body_of_empty fs)).
    + destruct (isfile fs _); [by apply send_file_sends|].
      destruct (isfile fs _); [by apply send_file_sends|].
      by apply list_directory_sends.
  - right. right. left. eauto.
Qed.

(** Every request that is parsed and is not HTTP/0.9 gets exactly one
    response, unless the handler raises. *)
Lemma dispatch_sends (fs : filesystem) (self : handler) :
  is_http09 self = false ->
  sends fs self (MyHTTPRequestHandler.dispatch fs self).
Proof.
  intros H09.
  unfold MyHTTPRequestHandler.dispatch, dispatch.
  pose proof (send_head_sends fs self H09) as Hs.
  unfold MyHTTPRequestHandler.send_head in Hs.
  destruct (String.eqb (command self) "GET").
  - unfold do_GET. destruct (send_head _ fs self) as [[self' f]|]; [|exact Hs].
    destruct Hs as (code & message & base & body & Hr & Hbody & Hf).
    cbn [mbind option_bind]. unfold sends. destruct f as [bytes|].
    + exists code, message, base, (body ++ bytes).
      split; [by apply responded_body|exact Hf].
    + by exists code, message, base, body.
  - destruct (String.eqb (command self) "HEAD").
    + unfold do_HEAD. destruct (send_head _ fs self) as [[self' f]|]; [|exact Hs].
      destruct Hs as (code & message & base & body & Hr & Hbody & Hf).
      cbn [mbind option_bind]. unfold sends.
      by exists code, message, base, body.
    + apply send_error_sends, H09.
Qed.

End Paths.

(** ** HTTP/0.9 requests: the body alone *)

Section Bare.
Context `{Runtime}.
Import BaseHTTPRequestHandler SimpleHTTPRequestHandler.

Lemma send_header_http09 (self : handler) (k v : string) :
  is_http09 self = true ->
  String.eqb (Str.lower k) "connection" = false ->
  send_header self k v = self.
Proof. intros H09 Hk. unfold send_header. by rewrite H09, Hk. Qed.

Lemma send_response_http09 (self : handler) code message :
  is_http09 self = true -> send_response self code message = self.
Proof.
  intros H09. unfold send_response. cbv zeta.
  unfold send_response_only. rewrite H09. cbn [negb].
  by rewrite !(send_header_http09 self) by first [exact H09 | reflexivity].
Qed.

Lemma send_header_close_http09 (self : handler) :
  is_http09 self = true ->
  send_header self "Connection" "close" = set_close_connection true self.
Proof.
  intros H09. unfold send_header. rewrite H09.
  replace (String.eqb (Str.lower "Connection") "connection") with true
    by reflexivity.
  replace (String.eqb (Str.lower "close") "close") with true by reflexivity.
  reflexivity.
Qed.

(** An error reply to an HTTP/0.9 request: the page alone, or nothing at
    all. *)
Lemma send_error_http09 (self : handler) code message explain :
  is_http09 self = true ->
  exists body,
    MyHTTPRequestHandler.send_error self code message explain
    = Some (if String.eqb body "" then set_close_connection true self
            else set_wfile (wfile self ++ body) (set_close_connection true self)) /\
    (body = "" \/ exists m e, body = error_page code m e).
Proof.
  intros H09. unfold MyHTTPRequestHandler.send_error, send_error.
  destruct (default ("???", "???") (responses code)) as [shortmsg longmsg].
  cbv zeta.
  rewrite send_response_http09 by exact H09.
  rewrite send_header_close_http09 by exact H09.
  assert (is_http09 (set_close_connection true self) = true) as H09' by exact H09.
  destruct (Z.leb 200 code
            && negb (Z.eqb code 204 || Z.eqb code 205 || Z.eqb code 304))%bool.
  - rewrite !(send_header_http09 (set_close_connection true self))
      by first [exact H09' | reflexivity].
    rewrite end_headers_http09 by exact H09'. cbn [mbind option_bind].
    set (page := error_page code (default shortmsg message)
                   (default longmsg explain)).
    change (command (set_close_connection true self)) with (command self).
    change (wfile (set_close_connection true self)) with (wfile self).
    destruct (String.eqb (command self) "HEAD").
    + exists "". split; [reflexivity|by left].
    + exists page. cbn [negb andb]. split; [|right; by eexists _, _].
      by destruct (String.eqb page "").
  - rewrite end_headers_http09 by exact H09'. cbn [mbind option_bind].
    exists "". split; [|by left].
    by rewrite andb_false_r.
Qed.

Lemma send_error_bare (fs : filesystem) (self : handler) code message explain :
  is_http09 self = true ->
  sends_bare fs self (MyHTTPRequestHandler.send_error self code message explain).
Proof.
  intros H09.
  destruct (send_error_http09 self code message explain H09) as (body & -> & Hb).
  unfold sends_bare. exists body. split.
  - destruct (String.eqb body "") eqn:He; [|reflexivity].
    apply String.eqb_eq in He as ->. cbn. by rewrite append_nil_r.
  - destruct Hb as [->|(m & e & ->)];
      [apply body_of_empty|apply body_of_error_page].
Qed.

Lemma bare_as_head (fs : filesystem) (self : handler) (r : option handler) :
  sends_bare fs self r ->
  sends_bare_head fs self (self' ← r; Some (self', None)).
Proof.
  destruct r as [self'|]; [|done]. intros (body & Hw & Hbody).
  cbn [mbind option_bind]. unfold sends_bare_head.
  exists body. cbn. by rewrite append_nil_r.
Qed.

Lemma bare_head_nothing (fs : filesystem) (self : handler) (f : option string) :
  body_of fs (default "" f) ->
  sends_bare_head fs self (Some (self, f)).
Proof.
  intros Hf. exists "". rewrite append_nil_r.
  split; [done|]. split; [apply body_of_empty|exact Hf].
Qed.

Lemma send_file_bare (fs : filesystem) (self : handler) (p : string) :
  is_http09 self = true ->
  sends_bare_head fs self (send_file MyHTTPRequestHandler.end_headers fs self p).
Proof.
  intros H09. unfold send_file. cbv zeta.
  pose proof (send_error_bare fs self 404 (Some "File not found") None H09) as He.
  apply bare_as_head in He.
  destruct (Str.endswith "/" p); [exact He|].
  destruct (open_rb fs p) as [f| |] eqn:Hopen; [|exact He|].
  - destruct (not_modified self f) as [[|]|] eqn:Hnm; cbn [mbind option_bind].
    + rewrite send_response_http09, end_headers_http09 by exact H09.
      apply bare_head_nothing, body_of_empty.
    + destruct (date_time_string (st_mtime f)) as [lm|] eqn:Hlm;
        cbn [mbind option_bind].
      * rewrite send_response_http09 by exact H09.
        rewrite !(send_header_http09 self) by first [exact H09 | reflexivity].
        rewrite end_headers_http09 by exact H09.
        apply bare_head_nothing. right. right. left. eauto.
      * right. left. exists p, f. split; [done|]. by apply date_time_string_none.
    + right. left. exists p, f. split; [done|]. by eapply not_modified_none.
  - left. eauto.
Qed.

Lemma list_directory_bare (fs : filesystem) (self : handler) (p : string) :
  is_http09 self = true ->
  sends_bare_head fs self
    (list_directory MyHTTPRequestHandler.end_headers fs self p).
Proof.
  intros H09. unfold list_directory.
  destruct (listdir fs p) as [names|].
  - cbv zeta.
    destruct (listing_page _ _) as [encoded|] eqn:Hpage; cbn [mbind option_bind].
    + rewrite send_response_http09 by exact H09.
      rewrite !(send_header_http09 self) by first [exact H09 | reflexivity].
      rewrite end_headers_http09 by exact H09.
      apply bare_head_nothing. right. right. right. eauto.
    + right. right. right. eauto.
  - apply bare_as_head, send_error_bare, H09.
Qed.

Lemma send_head_bare (fs : filesystem) (self : handler) :
  is_http09 self = true ->
  sends_bare_head fs self (MyHTTPRequestHandler.send_head fs self).
Proof.
  intros H09. unfold MyHTTPRequestHandler.send_head, send_head. cbv zeta.
  destruct (isdir fs _); [|by apply send_file_bare].
  destruct (urlsplit_path _) as [parts_path|] eqn:Hsplit; cbn [mbind option_bind].
  - destruct (negb _).
    + rewrite send_response_http09 by exact H09.
      rewrite !(send_header_http09 self) by first [exact H09 | reflexivity].
      rewrite end_headers_http09 by exact H09.
      apply bare_head_nothing, body_of_empty.
    + destruct (isfile fs _); [by apply send_file_bare|].
      destruct (isfile fs _); [by apply send_file_bare|].
      by apply list_directory_bare.
  - right. right. left. eauto.
Qed.

(** A parsed HTTP/0.9 request gets a body without any head, or nothing,
    unless the handler raises. *)
Lemma dispatch_bare (fs : filesystem) (self : handler) :
  is_http09 self = true ->
  sends_bare fs self (MyHTTPRequestHandler.dispatch fs self).
Proof.
  intros H09.
  unfold MyHTTPRequestHandler.dispatch, dispatch.
  pose proof (send_head_bare fs self H09) as Hs.
  unfold MyHTTPRequestHandler.send_head in Hs.
  destruct (String.eqb (command self) "GET").
  - unfold do_GET. destruct (send_head _ fs self) as [[self' f]|]; [|exact Hs].
    destruct Hs as (body & Hw & Hbody & Hf).
    cbn [mbind option_bind]. unfold sends_bare. destruct f as [bytes|].
    + exists (body ++ bytes). cbn. by rewrite Hw, append_assoc.
    + by exists body.
  - destruct (String.eqb (command self) "HEAD").
    + unfold do_HEAD. destruct (send_head _ fs self) as [[self' f]|]; [|exact Hs].
      destruct Hs as (body & Hw & Hbody & Hf).
      cbn [mbind option_bind]. unfold sends_bare. by exists body.
    + apply send_error_bare, H09.
Qed.

(** [send_error] never raises. *)
Lemma send_error_total (self : handler) code message explain :
  exists self', MyHTTPRequestHandler.send_error self code message explain = Some self'.
Proof.
  destruct (is_http09 self) eqn:H09.
  - destruct (send_error_http09 self code message explain H09) as (body & -> & _).
    eauto.
  - destruct (send_error_responds self code message explain H09)
      as (self' & _ & _ & _ & -> & _). eauto.
Qed.

End Bare.

(** ** Request lines: words and versions *)

Lemma words_from_nil (word : string) :
  Str.words_from word "" = if String.eqb word "" then [] else [word].
Proof. reflexivity. Qed.

Lemma words_from_cons (word : string) (c : ascii) (s : string) :
  Str.words_from word (String c s) =
    if Str.isspace c then
      if String.eqb word "" then Str.words_from "" s
      else word :: Str.words_from "" s
    else Str.words_from (word ++ String c "") s.
Proof. reflexivity. Qed.

Lemma rstrip_chars_cons (chars : string) (d : ascii) (s : string) :
  Str.rstrip_chars chars (String d s) =
    match Str.rstrip_chars chars s with
    | EmptyString => if Str.mem d chars then EmptyString else String d EmptyString
    | r => String d r
    end.
Proof. reflexivity. Qed.

Section Words.
Variable chars : string.
Hypothesis chars_space : forall d, Str.mem d chars = true -> Str.isspace d = true.

(** A string that [rstrip] empties holds white space only. *)
Lemma words_from_stripped (s word : string) :
  Str.rstrip_chars chars s = "" ->
  Str.words_from word s = Str.words_from word "".
Proof.
  revert word. induction s as [|d s IH]; intros word; [done|].
  rewrite rstrip_chars_cons.
  destruct (Str.rstrip_chars chars s) eqn:Hr; [|done].
  destruct (Str.mem d chars) eqn:Hd; [|done]. intros _.
  rewrite words_from_cons, (chars_space _ Hd), (IH "" eq_refl), !words_from_nil.
  by destruct (String.eqb word "").
Qed.

(** The words of a string are those of the string without the white
    space at its end. *)
Lemma words_from_rstrip_chars (s word : string) :
  Str.words_from word (Str.rstrip_chars chars s) = Str.words_from word s.
Proof.
  revert word. induction s as [|d s IH]; intros word; [done|].
  rewrite rstrip_chars_cons.
  destruct (Str.rstrip_chars chars s) as [|e r] eqn:Hr.
  - pose proof (fun w => words_from_stripped s w Hr) as Hs.
    destruct (Str.mem d chars) eqn:Hd.
    + rewrite words_from_cons, (chars_space _ Hd), Hs, !words_from_nil.
      by destruct (String.eqb word "").
    + rewrite !words_from_cons, !Hs. reflexivity.
  - rewrite !words_from_cons, <- !IH. reflexivity.
Qed.

End Words.

Lemma words_rstrip_crlf (s : string) :
  Str.words (Str.rstrip_chars Str.CRLF s) = Str.words s.
Proof.
  apply words_from_rstrip_chars. intros d. cbn.
  destruct (Ascii.eqb d Str.CR) eqn:Hcr.
  - apply Ascii.eqb_eq in Hcr as ->. reflexivity.
  - destruct (Ascii.eqb d Str.LF) eqn:Hlf; [|done].
    apply Ascii.eqb_eq in Hlf as ->. reflexivity.
Qed.

Lemma split_cons (c d : ascii) (s : string) :
  Str.split c (String d s) =
    if Ascii.eqb c d then EmptyString :: Str.split c s
    else match Str.split c s with
         | w :: ws => String d w :: ws
         | [] => [String d EmptyString]
         end.
Proof. reflexivity. Qed.

Lemma split_not_nil (c : ascii) (s : string) : Str.split c s <> [].
Proof.
  induction s as [|d s IH]; [done|]. rewrite split_cons.
  destruct (Ascii.eqb c d); [done|]. by destruct (Str.split c s).
Qed.

Lemma split_no_sep (c : ascii) (w : string) :
  Str.mem c w = false -> Str.split c w = [w].
Proof.
  induction w as [|d w IH]; [done|]. cbn.
  destruct (Ascii.eqb c d); [done|]. intros Hm. by rewrite IH.
Qed.

Lemma split_app_sep (c : ascii) (s t : string) :
  Str.split c (s ++ String c t) = (Str.split c s ++ Str.split c t)%list.
Proof.
  induction s as [|d s IH].
  - rewrite append_nil_l. cbn. by rewrite Ascii.eqb_refl.
  - rewrite append_cons. cbn. rewrite IH.
    destruct (Ascii.eqb c d); [done|].
    pose proof (split_not_nil c s). by destruct (Str.split c s).
Qed.

(** A string with one field has no separator. *)
Lemma split_one (c : ascii) (s b : string) :
  Str.split c s = [b] -> s = b /\ Str.mem c b = false.
Proof.
  revert b. induction s as [|d s IH]; intros b.
  - by intros [= <-].
  - rewrite split_cons. destruct (Ascii.eqb c d) eqn:Hd.
    + intros [= _ Hs]. by apply split_not_nil in Hs.
    + destruct (Str.split c s) as [|w [|w' ws]] eqn:Hs; [|intros [= <-]|done].
      * by apply split_not_nil in Hs.
      * destruct (IH w eq_refl) as [-> Hm]. cbn. by rewrite Hd.
Qed.

(** A string with two fields is the first, the separator and the
    second. *)
Lemma split_two (c : ascii) (s a b : string) :
  Str.split c s = [a; b] ->
  s = a ++ String c b /\ Str.mem c a = false /\ Str.mem c b = false.
Proof.
  revert a. induction s as [|d s IH]; intros a; [done|].
  rewrite split_cons. destruct (Ascii.eqb c d) eqn:Hd.
  - intros [= <- Hs]. apply split_one in Hs as [-> Hm].
    apply Ascii.eqb_eq in Hd as ->. by rewrite append_nil_l.
  - destruct (Str.split c s) as [|w [|w' [|? ?]]] eqn:Hs; try done.
    intros [= <- <-]. destruct (IH w eq_refl) as (-> & Ha & Hb).
    rewrite append_cons. cbn. by rewrite Hd.
Qed.

(** The characters of an integer literal are digits, underscores and a
    sign: there is no dot among them. *)
Lemma digits_no_dot (s : string) value count after_digit r :
  Str.digits value count after_digit s = Some r -> Str.mem "." s = false.
Proof.
  revert value count after_digit.
  induction s as [|c s IH]; intros value count after_digit; [done|].
  cbn [Str.digits Str.mem].
  destruct (Ascii.eqb "." c) eqn:Hc.
  - apply Ascii.eqb_eq in Hc as <-. cbn. done.
  - destruct (Str.digit c); [by apply IH|].
    destruct (Ascii.eqb c "_" && after_digit)%bool; [by apply IH|done].
Qed.

Lemma int_no_dot (s : string) (n : Z) :
  Str.int s = Some n -> Str.mem "." s = false.
Proof.
  unfold Str.int. destruct s as [|c s]; [done|].
  destruct (Ascii.eqb c "+") eqn:Hplus.
  - apply Ascii.eqb_eq in Hplus as ->.
    destruct (Str.digits 0 0 false s) as [[v k]|] eqn:Hd; [|done].
    intros _. cbn. by eapply digits_no_dot.
  - destruct (Ascii.eqb c "-") eqn:Hminus.
    + apply Ascii.eqb_eq in Hminus as ->.
      destruct (Str.digits 0 0 false s) as [[v k]|] eqn:Hd; [|done].
      intros _. cbn. by eapply digits_no_dot.
    + destruct (Str.digits 0 0 false (String c s)) as [[v k]|] eqn:Hd; [|done].
      intros _. by eapply digits_no_dot.
Qed.

(** [version_number] accepts exactly the words [HTTP/major.minor]. *)
Lemma version_number_complete (word : string) (major minor : Z) :
  http_version word major minor ->
  exists base,
    BaseHTTPRequestHandler.version_number word = Some (base, (major, minor)).
Proof.
  intros (a & b & -> & Ha & Hb).
  unfold BaseHTTPRequestHandler.version_number.
  assert (Str.startswith "HTTP/" ("HTTP/" ++ a ++ "." ++ b) = true) as ->
    by (apply prefix_occurs; eauto).
  change (Str.after "/" ("HTTP/" ++ a ++ "." ++ b)) with (a ++ String "." b).
  cbn [negb]. rewrite split_app_sep.
  rewrite (split_no_sep _ _ (int_no_dot _ _ Ha)),
    (split_no_sep _ _ (int_no_dot _ _ Hb)).
  cbn [app]. rewrite Ha, Hb. cbn. eauto.
Qed.

Lemma version_number_sound (word base : string) (major minor : Z) :
  BaseHTTPRequestHandler.version_number word = Some (base, (major, minor)) ->
  http_version word major minor.
Proof.
  unfold BaseHTTPRequestHandler.version_number.
  destruct (Str.startswith "HTTP/" word) eqn:Hp; [|done]. cbn [negb].
  apply prefix_occurs in Hp as [rest ->].
  change (Str.after "/" ("HTTP/" ++ rest)) with rest.
  destruct (Str.split "." rest) as [|a [|b [|? ?]]] eqn:Hs; try done.
  apply split_two in Hs as (-> & _ & _).
  destruct (Str.int a) as [x|] eqn:Ha; [|done].
  destruct (Str.int b) as [y|] eqn:Hb; [|done].
  cbn. intros [= _ <- <-]. by exists a, b.
Qed.

Lemma pair_ge_2_0 (major minor : Z) :
  BaseHTTPRequestHandler.pair_ge (major, minor) (2, 0) = false <->
  below_2_0 major minor.
Proof.
  unfold BaseHTTPRequestHandler.pair_ge, below_2_0. cbn [fst snd].
  rewrite orb_false_iff, andb_false_iff, Z.ltb_ge, Z.eqb_neq, Z.leb_gt. lia.
Qed.

(** The test of [parse_request] on the last word, in the words of the
    specification. *)
Lemma version_word_iff (word : string) :
  version_word word <->
  word <> "HTTP/0.9" /\
  exists base number,
    BaseHTTPRequestHandler.version_number word = Some (base, number) /\
    BaseHTTPRequestHandler.pair_ge number (2, 0) = false.
Proof.
  unfold version_word. split.
  - intros (Hne & major & minor & Hv & Hlt). split; [done|].
    destruct (version_number_complete _ _ _ Hv) as [base Hn].
    exists base, (major, minor). split; [done|]. by apply pair_ge_2_0.
  - intros (Hne & base & [major minor] & Hn & Hge). split; [done|].
    exists major, minor. split; [by eapply version_number_sound|].
    by apply pair_ge_2_0.
Qed.

(** A request line has a version word when it has three words or more
    and the last one is a version word. *)
Lemma versioned_iff (words : list string) :
  (exists before version,
     words = (before ++ [version])%list /\ (2 <= length before)%nat /\
     version_word version) <->
  (3 <= length words)%nat /\ version_word (default "" (last words)).
Proof.
  split.
  - intros (before & version & -> & Hlen & Hv).
    rewrite length_app, last_snoc. cbn. split; [lia|done].
  - intros [Hlen Hv]. destruct words as [|version before _] using rev_ind.
    + cbn in Hlen. lia.
    + rewrite last_snoc in Hv. rewrite length_app in Hlen. cbn in Hlen, Hv.
      exists before, version. split; [done|]. split; [lia|done].
Qed.

(** ** [parse_request] and [handle_one_request] *)

Section Parse.
Context `{Runtime}.
Import BaseHTTPRequestHandler SimpleHTTPRequestHandler.

Lemma protocol_version_old : String.leb "HTTP/1.1" protocol_version = false.
Proof. reflexivity. Qed.

Lemma replies_transport (fs : filesystem) (s1 s2 : handler) (r : option handler) :
  wfile s1 = wfile s2 ->
  headers_buffer s1 = headers_buffer s2 ->
  request_version s1 = request_version s2 ->
  replies fs (negb (is_http09 s1)) s1 r ->
  replies fs (negb (is_http09 s2)) s2 r.
Proof.
  intros Hw Hb Hv. unfold is_http09. rewrite Hv.
  destruct (negb _); unfold replies, sends, sends_bare, responded, buffered;
    destruct r as [self'|]; try done; by rewrite Hw, ?Hb.
Qed.

Lemma send_error_replies (fs : filesystem) (self : handler) code message explain :
  replies fs (negb (is_http09 self)) self
    (MyHTTPRequestHandler.send_error self code message explain).
Proof.
  destruct (is_http09 self) eqn:H09; cbn [negb replies].
  - by apply send_error_bare.
  - by apply send_error_sends.
Qed.

Lemma dispatch_replies (fs : filesystem) (self : handler) :
  replies fs (negb (is_http09 self)) self (MyHTTPRequestHandler.dispatch fs self).
Proof.
  destruct (is_http09 self) eqn:H09; cbn [negb replies].
  - by apply dispatch_bare.
  - by apply dispatch_sends.
Qed.

Lemma then_dispatch_reject (fs : filesystem) (self : handler) code message explain :
  then_dispatch fs (reject MyHTTPRequestHandler.end_headers self code message explain)
  = MyHTTPRequestHandler.send_error self code message explain.
Proof.
  unfold then_dispatch, reject, MyHTTPRequestHandler.send_error.
  by destruct (send_error _ self code message explain).
Qed.

Lemma parse_headers_replies (fs : filesystem) (r : request) (self : handler) :
  replies fs (negb (is_http09 self)) self
    (then_dispatch fs (parse_headers MyHTTPRequestHandler.end_headers r self)).
Proof.
  unfold parse_headers.
  destruct (req_headers r) as [fields|err|err];
    [|rewrite then_dispatch_reject; apply send_error_replies..].
  cbv zeta. rewrite protocol_version_old, !andb_false_r, ?andb_false_l.
  set (self1 := set_headers fields self).
  unfold then_dispatch. cbn [mbind option_bind].
  destruct (String.eqb (Str.lower _) "close").
  - apply (replies_transport fs (set_close_connection true self1) self);
      [reflexivity..|]. apply dispatch_replies.
  - apply (replies_transport fs self1 self); [reflexivity..|].
    apply dispatch_replies.
Qed.

Lemma parse_words_replies (fs : filesystem) (line : string) (words : list string)
    (r : request) (self : handler) :
  replies fs (negb (is_http09 self)) self
    (then_dispatch fs
       (parse_words MyHTTPRequestHandler.end_headers line words r self)).
Proof.
  unfold parse_words.
  destruct (negb (Nat.leb 2 _ && _)) eqn:Hlen;
    [rewrite then_dispatch_reject; apply send_error_replies|].
  destruct words as [|command [|path rest]]; [done..|].
  destruct (Nat.eqb _ 2).
  - cbv zeta. destruct (negb (String.eqb command "GET")).
    + unfold reject.
      pose proof (send_error_replies fs (set_close_connection true self) 400
                    (Some ("Bad HTTP/0.9 request type (" ++ repr command ++ ")"))
                    None) as He.
      unfold MyHTTPRequestHandler.send_error in He.
      destruct (send_error _ _ 400 _ None) as [self'|]; cbn [mbind option_bind];
        by apply (replies_transport fs (set_close_connection true self) self).
    + cbn [mbind option_bind negb].
      match goal with
      | |- replies _ _ _ (then_dispatch _ (parse_headers _ _ ?s)) =>
          apply (replies_transport fs s self);
            [by destruct (Str.startswith _ _)..|]
      end.
      apply parse_headers_replies.
  - cbn [mbind option_bind negb].
    match goal with
    | |- replies _ _ _ (then_dispatch _ (parse_headers _ _ ?s)) =>
        apply (replies_transport fs s self);
          [by destruct (Str.startswith _ _)..|]
    end.
    apply parse_headers_replies.
Qed.

(** [parse_version] without the branch that the protocol version of
    the server closes. *)
Lemma parse_version_cases (eh : handler -> option handler)
    (words : list string) (self : handler) :
  parse_version eh words self =
    if Nat.leb 3 (length words) then
      match version_number (default "" (last words)) with
      | None =>
          reject eh self 400
            (Some ("Bad request version (" ++ repr (default "" (last words)) ++ ")"))
            None
      | Some (base_version_number, number) =>
          if pair_ge number (2, 0) then
            reject eh self 505
              (Some ("Invalid HTTP version (" ++ base_version_number ++ ")")) None
          else Some (set_request_version (default "" (last words)) self, true)
      end
    else Some (self, true).
Proof.
  unfold parse_version. rewrite protocol_version_old.
  destruct (Nat.leb 3 (length words)); [|done].
  destruct (version_number _) as [[base number]|]; [|done].
  by rewrite andb_false_r.
Qed.

End Parse.

Section Answers.
Context `{Runtime}.
Import BaseHTTPRequestHandler SimpleHTTPRequestHandler.

Lemma bind_reject (fs : filesystem) (self : handler) code message explain
    (k : handler -> option (handler * bool)) :
  then_dispatch fs
    ('(s, ok) ← reject MyHTTPRequestHandler.end_headers self code message explain;
     if negb ok then Some (s, false) else k s)
  = MyHTTPRequestHandler.send_error self code message explain.
Proof.
  unfold then_dispatch, reject, MyHTTPRequestHandler.send_error.
  by destruct (send_error _ self code message explain).
Qed.

Lemma answers_bare (fs : filesystem) (line : string) (self s : handler)
    (r : option handler) :
  ~ gets_head line ->
  wfile s = wfile self ->
  sends_bare fs s r ->
  answers fs line self r.
Proof.
  intros Hno Hw Hs. destruct r as [self'|]; [|exact Hs].
  right. split; [exact Hno|]. by rewrite <- Hw.
Qed.

Lemma answers_head (fs : filesystem) (line : string) (self s : handler)
    (r : option handler) :
  gets_head line ->
  wfile s = wfile self ->
  headers_buffer s = headers_buffer self ->
  sends fs s r ->
  answers fs line self r.
Proof.
  intros Hyes Hw Hb Hs. destruct r as [self'|]; [|exact Hs].
  left. split; [exact Hyes|].
  unfold responded, buffered in *. by rewrite <- Hw, <- Hb.
Qed.

Lemma not_gets_head (line : string) :
  Z.ltb 65536 (Z.of_nat (String.length line)) = false ->
  ~ ((3 <= length (Str.words line))%nat /\
     version_word (default "" (last (Str.words line)))) ->
  ~ gets_head line.
Proof.
  intros Hlen Hno [Hlong|Hv].
  - apply Z.ltb_ge in Hlen. lia.
  - by apply versioned_iff in Hv.
Qed.

(** [parse_request] followed by the call of the method. *)
Lemma serve_answers (fs : filesystem) (r : request) (self : handler) :
  Z.ltb 65536 (Z.of_nat (String.length (req_line r))) = false ->
  answers fs (req_line r) self
    (then_dispatch fs (MyHTTPRequestHandler.parse_request r self)).
Proof.
  intros Hlen.
  unfold MyHTTPRequestHandler.parse_request, parse_request. cbv zeta.
  rewrite words_rstrip_crlf.
  set (s0 := set_close_connection true
               (set_request_version default_request_version
                  (set_command "" self))).
  set (ws := Str.words (req_line r)).
  assert (is_http09 s0 = true) as H0 by reflexivity.
  destruct (Nat.eqb (length ws) 0) eqn:Hnil.
  { apply (answers_bare fs _ self s0); [|reflexivity|].
    - apply not_gets_head; [exact Hlen|]. fold ws.
      apply Nat.eqb_eq in Hnil. lia.
    - exists "". cbn. rewrite append_nil_r. split; [done|apply body_of_empty]. }
  rewrite parse_version_cases.
  destruct (Nat.leb 3 (length ws)) eqn:H3.
  - destruct (version_number (default "" (last ws))) as [[base number]|] eqn:Hv.
    + destruct (pair_ge number (2, 0)) eqn:Hge.
      * rewrite bind_reject.
        apply (answers_bare fs _ self s0); [|reflexivity|by apply send_error_bare].
        apply not_gets_head; [exact Hlen|]. fold ws. intros [_ Hw].
        apply version_word_iff in Hw as (_ & base' & number' & Hv' & Hge').
        congruence.
      * cbn [mbind option_bind negb].
        set (version := default "" (last ws)) in *.
        set (s1 := set_request_version version s0).
        pose proof (parse_words_replies fs
                      (Str.rstrip_chars Str.CRLF (req_line r)) ws r s1) as Hr.
        destruct (is_http09 s1) eqn:H1; cbn [negb replies] in Hr.
        -- apply (answers_bare fs _ self s1); [|reflexivity|exact Hr].
           apply not_gets_head; [exact Hlen|]. fold ws. intros [_ [Hne _]].
           apply String.eqb_eq in H1. done.
        -- apply (answers_head fs _ self s1); [|reflexivity..|exact Hr].
           right. apply versioned_iff. fold ws. split; [by apply Nat.leb_le|].
           apply version_word_iff. split; [by apply String.eqb_neq in H1|].
           by exists base, number.
    + rewrite bind_reject.
      apply (answers_bare fs _ self s0); [|reflexivity|by apply send_error_bare].
      apply not_gets_head; [exact Hlen|]. fold ws. intros [_ Hw].
      apply version_word_iff in Hw as (_ & base' & number' & Hv' & Hge').
      fold ws in Hv'. congruence.
  - cbn [mbind option_bind negb].
    pose proof (parse_words_replies fs
                  (Str.rstrip_chars Str.CRLF (req_line r)) ws r s0) as Hr.
    rewrite H0 in Hr. cbn [negb replies] in Hr.
    apply (answers_bare fs _ self s0); [|reflexivity|exact Hr].
    apply not_gets_head; [exact Hlen|]. fold ws.
    apply Nat.leb_gt in H3. lia.
Qed.

(** Every request line is answered as [answers] says. *)
Lemma handle_one_request_answers (fs : filesystem) (r : request) (self : handler) :
  answers fs (req_line r) self (MyHTTPRequestHandler.handle_one_request fs r self).
Proof.
  unfold MyHTTPRequestHandler.handle_one_request, handle_one_request.
  destruct (Z.ltb 65536 (Z.of_nat (String.length (req_line r)))) eqn:Hlen.
  - cbv zeta.
    apply (answers_head fs _ self
             (set_command "" (set_request_version "" self)));
      [|reflexivity..|].
    + left. by apply Z.ltb_lt.
    + by apply send_error_sends.
  - destruct (String.eqb (req_line r) "") eqn:Hempty.
    + apply String.eqb_eq in Hempty.
      apply (answers_bare fs _ self self); [|reflexivity|].
      * apply not_gets_head; [exact Hlen|]. rewrite Hempty. cbn. lia.
      * exists "". cbn. rewrite append_nil_r. split; [done|apply body_of_empty].
    + exact (serve_answers fs r self Hlen).
Qed.

End Answers.

(** ** One request for each connection *)

Section Closing.
Context `{Runtime}.
Import BaseHTTPRequestHandler SimpleHTTPRequestHandler.

Lemma send_header_connection_close (self : handler) :
  close_connection (send_header self "Connection" "close") = true.
Proof.
  unfold send_header.
  replace (String.eqb (Str.lower "Connection") "connection") with true
    by reflexivity.
  replace (String.eqb (Str.lower "close") "close") with true by reflexivity.
  reflexivity.
Qed.

Lemma send_header_keeps_connection (self : handler) (k v : string) :
  String.eqb (Str.lower k) "connection" = false ->
  close_connection (send_header self k v) = close_connection self.
Proof.
  intros Hk. unfold send_header. rewrite Hk. by destruct (negb (is_http09 self)).
Qed.

Lemma send_response_keeps_connection (self : handler) code message :
  close_connection (send_response self code message) = close_connection self.
Proof.
  unfold send_response. cbv zeta.
  rewrite !send_header_keeps_connection by reflexivity.
  unfold send_response_only. by destruct (negb (is_http09 self)).
Qed.

Lemma end_headers_keeps_connection (self self' : handler) :
  MyHTTPRequestHandler.end_headers self = Some self' ->
  close_connection self' = close_connection self.
Proof.
  destruct (is_http09 self) eqn:H09.
  - rewrite end_headers_http09 by exact H09. by intros [= <-].
  - rewrite end_headers_not_http09 by exact H09. by intros [= <-].
Qed.

(** [send_error] marks the connection to be closed. *)
Lemma send_error_closes (self self' : handler) code message explain :
  MyHTTPRequestHandler.send_error self code message explain = Some self' ->
  close_connection self' = true.
Proof.
  unfold MyHTTPRequestHandler.send_error, BaseHTTPRequestHandler.send_error.
  destruct (default ("???", "???") (responses code)) as [shortmsg longmsg].
  cbv zeta. intros Hs.
  destruct (Z.leb 200 code
            && negb (Z.eqb code 204 || Z.eqb code 205 || Z.eqb code 304))%bool.
  - destruct (MyHTTPRequestHandler.end_headers _) as [self2|] eqn:He;
      [|discriminate Hs].
    apply end_headers_keeps_connection in He.
    rewrite !send_header_keeps_connection in He by reflexivity.
    rewrite send_header_connection_close in He.
    cbn [mbind option_bind] in Hs. injection Hs as <-.
    by destruct (_ && _)%bool.
  - destruct (MyHTTPRequestHandler.end_headers _) as [self2|] eqn:He;
      [|discriminate Hs].
    apply end_headers_keeps_connection in He.
    rewrite send_header_connection_close in He.
    cbn [mbind option_bind] in Hs. injection Hs as <-.
    by destruct (_ && _)%bool.
Qed.

Lemma error_head_closes (self self' : handler) code message explain
    (f : option string) :
  (s ← MyHTTPRequestHandler.send_error self code message explain; Some (s, f))
  = Some (self', f) ->
  close_connection self' = true.
Proof.
  destruct (MyHTTPRequestHandler.send_error _ _ _ _) as [s|] eqn:Hs; [|done].
  intros [= <-]. by eapply send_error_closes.
Qed.

Lemma send_file_closes (fs : filesystem) (self self' : handler) (p : string)
    (f : option string) :
  close_connection self = true ->
  send_file MyHTTPRequestHandler.end_headers fs self p = Some (self', f) ->
  close_connection self' = true.
Proof.
  intros Hc. unfold send_file. cbv zeta.
  assert (forall f', (s ← send_error MyHTTPRequestHandler.end_headers self 404
                            (Some "File not found") None; Some (s, f'))
                     = Some (self', f) -> close_connection self' = true) as He.
  { intros f' Hs. destruct (send_error _ _ _ _ _) as [s|] eqn:Hs'; [|done].
    injection Hs as <- _. by eapply send_error_closes. }
  destruct (Str.endswith "/" p); [apply He|].
  destruct (open_rb fs p) as [file| |]; [|apply He|done].
  destruct (not_modified self file) as [[|]|]; cbn [mbind option_bind]; [| |done].
  - destruct (MyHTTPRequestHandler.end_headers _) as [s|] eqn:Hs; [|done].
    intros [= <- _]. apply end_headers_keeps_connection in Hs.
    by rewrite Hs, send_response_keeps_connection.
  - destruct (date_time_string _) as [lm|]; cbn [mbind option_bind]; [|done].
    destruct (MyHTTPRequestHandler.end_headers _) as [s|] eqn:Hs; [|done].
    intros [= <- _]. apply end_headers_keeps_connection in Hs.
    rewrite Hs, !send_header_keeps_connection by reflexivity.
    by rewrite send_response_keeps_connection.
Qed.

Lemma list_directory_closes (fs : filesystem) (self self' : handler) (p : string)
    (f : option string) :
  close_connection self = true ->
  list_directory MyHTTPRequestHandler.end_headers fs self p = Some (self', f) ->
  close_connection self' = true.
Proof.
  intros Hc. unfold list_directory.
  destruct (listdir fs p) as [names|].
  - cbv zeta. destruct (listing_page _ _) as [encoded|]; cbn [mbind option_bind];
      [|done].
    destruct (MyHTTPRequestHandler.end_headers _) as [s|] eqn:Hs; [|done].
    intros [= <- _]. apply end_headers_keeps_connection in Hs.
    rewrite Hs, !send_header_keeps_connection by reflexivity.
    by rewrite send_response_keeps_connection.
  - destruct (send_error _ _ _ _ _) as [s|] eqn:Hs; [|done].
    intros [= <- _]. by eapply send_error_closes.
Qed.

Lemma send_head_closes (fs : filesystem) (self self' : handler)
    (f : option string) :
  close_connection self = true ->
  MyHTTPRequestHandler.send_head fs self = Some (self', f) ->
  close_connection self' = true.
Proof.
  intros Hc. unfold MyHTTPRequestHandler.send_head, send_head. cbv zeta.
  destruct (isdir fs _); [|by apply send_file_closes].
  destruct (urlsplit_path _) as [parts_path|]; cbn [mbind option_bind]; [|done].
  destruct (negb _).
  - destruct (MyHTTPRequestHandler.end_headers _) as [s|] eqn:Hs; [|done].
    intros [= <- _]. apply end_headers_keeps_connection in Hs.
    rewrite Hs, !send_header_keeps_connection by reflexivity.
    by rewrite send_response_keeps_connection.
  - destruct (isfile fs _); [by apply send_file_closes|].
    destruct (isfile fs _); [by apply send_file_closes|].
    by apply list_directory_closes.
Qed.

Lemma dispatch_closes (fs : filesystem) (self self' : handler) :
  close_connection self = true ->
  MyHTTPRequestHandler.dispatch fs self = Some self' ->
  close_connection self' = true.
Proof.
  intros Hc. unfold MyHTTPRequestHandler.dispatch, dispatch, do_GET, do_HEAD.
  pose proof (fun s f => send_head_closes fs self s f Hc) as Hs.
  unfold MyHTTPRequestHandler.send_head in Hs.
  destruct (String.eqb (command self) "GET").
  - destruct (send_head _ fs self) as [[s f]|]; [|done].
    cbn [mbind option_bind]. intros [= <-].
    specialize (Hs s f eq_refl). by destruct f.
  - destruct (String.eqb (command self) "HEAD").
    + destruct (send_head _ fs self) as [[s f]|]; [|done].
      cbn [mbind option_bind]. intros [= <-]. by apply (Hs s f).
    + apply send_error_closes.
Qed.

Lemma reject_closed (self : handler) code message explain :
  closed_parsed (reject MyHTTPRequestHandler.end_headers self code message explain).
Proof.
  intros s ok. unfold reject.
  destruct (send_error _ self code message explain) as [s'|] eqn:Hs; [|done].
  intros [= <- _]. by eapply send_error_closes.
Qed.

Lemma parse_headers_closed (r : request) (self : handler) :
  close_connection self = true ->
  closed_parsed (parse_headers MyHTTPRequestHandler.end_headers r self).
Proof.
  intros Hc. unfold parse_headers.
  destruct (req_headers r) as [fields|err|err]; [|apply reject_closed..].
  cbv zeta. rewrite protocol_version_old, !andb_false_r, ?andb_false_l.
  intros s ok [= <- _]. by destruct (String.eqb _ "close").
Qed.

Lemma parse_words_closed (line : string) (words : list string) (r : request)
    (self : handler) :
  close_connection self = true ->
  closed_parsed (parse_words MyHTTPRequestHandler.end_headers line words r self).
Proof.
  intros Hc. unfold parse_words.
  destruct (negb (Nat.leb 2 _ && _)); [apply reject_closed|].
  destruct words as [|command [|path rest]]; [by intros s ok [= <- _]..|].
  destruct (Nat.eqb _ 2).
  - cbv zeta. destruct (negb (String.eqb command "GET")).
    + pose proof (reject_closed (set_close_connection true self) 400
                    (Some ("Bad HTTP/0.9 request type (" ++ repr command ++ ")"))
                    None) as Hr.
      destruct (reject _ _ 400 _ None) as [[s' ok']|]; [|done].
      cbn [mbind option_bind]. intros s ok.
      destruct ok'; cbn [negb].
      * intros Hp. eapply parse_headers_closed; [|exact Hp].
        destruct (Str.startswith _ _); by apply (Hr s' true).
      * intros [= <- _]. by apply (Hr s' false).
    + cbn [mbind option_bind negb]. apply parse_headers_closed.
      by destruct (Str.startswith _ _).
  - cbn [mbind option_bind negb]. apply parse_headers_closed.
    by destruct (Str.startswith _ _).
Qed.

Lemma parse_request_closed (r : request) (self : handler) :
  closed_parsed (MyHTTPRequestHandler.parse_request r self).
Proof.
  unfold MyHTTPRequestHandler.parse_request, parse_request. cbv zeta.
  set (s0 := set_close_connection true _).
  destruct (Nat.eqb _ 0); [by intros s ok [= <- _]|].
  rewrite parse_version_cases.
  destruct (Nat.leb 3 _).
  - destruct (version_number _) as [[base number]|].
    + destruct (pair_ge number (2, 0)).
      * pose proof (reject_closed s0 505
                      (Some ("Invalid HTTP version (" ++ base ++ ")")) None) as Hr.
        destruct (reject _ _ 505 _ None) as [[s' ok']|]; [|done].
        cbn [mbind option_bind]. intros s ok. destruct ok'; cbn [negb].
        -- apply parse_words_closed. by apply (Hr s' true).
        -- intros [= <- _]. by apply (Hr s' false).
      * cbn [mbind option_bind negb]. by apply parse_words_closed.
    + match goal with
      | |- closed_parsed (mbind _ (reject ?eh ?s ?c ?m ?e)) =>
          pose proof (reject_closed s c m e) as Hr;
          destruct (reject eh s c m e) as [[s' ok']|]; [|done]
      end.
      cbn [mbind option_bind]. intros s ok. destruct ok'; cbn [negb].
      * apply parse_words_closed. by apply (Hr s' true).
      * intros [= <- _]. by apply (Hr s' false).
  - cbn [mbind option_bind negb]. by apply parse_words_closed.
Qed.

(** After [handle_one_request] the connection is marked to be closed,
    whatever the request: the loop of [handle] stops after one request. *)
Lemma handle_one_request_closes (fs : filesystem) (r : request)
    (self self' : handler) :
  MyHTTPRequestHandler.handle_one_request fs r self = Some self' ->
  close_connection self' = true.
Proof.
  unfold MyHTTPRequestHandler.handle_one_request, handle_one_request.
  destruct (Z.ltb _ _); [apply send_error_closes|].
  destruct (String.eqb _ ""); [by intros [= <-]|].
  pose proof (parse_request_closed r self) as Hp.
  unfold MyHTTPRequestHandler.parse_request in Hp.
  destruct (parse_request _ r self) as [[s ok]|]; [|done].
  cbn [mbind option_bind]. specialize (Hp s ok eq_refl).
  destruct ok; [by apply dispatch_closes|by intros [= <-]].
Qed.

Lemma handle_once (fs : filesystem) (r : request) (self : handler) :
  MyHTTPRequestHandler.handle fs r self
  = MyHTTPRequestHandler.handle_one_request fs r (set_close_connection true self).
Proof.
  unfold MyHTTPRequestHandler.handle, handle. cbv zeta.
  change (handle_one_request MyHTTPRequestHandler.end_headers)
    with MyHTTPRequestHandler.handle_one_request.
  destruct (MyHTTPRequestHandler.handle_one_request fs r _) as [s|] eqn:Hs; [|done].
  cbn [mbind option_bind]. by rewrite (handle_one_request_closes _ _ _ _ Hs).
Qed.

End Closing.

(** ** The fixed headers on the wire *)

Lemma occurs_in_join (line : string) (lines : list string) (pre post : string) :
  In line lines -> Str.occurs_in line (pre ++ Str.join lines ++ post).
Proof.
  intros Hin. apply in_split in Hin as (l1 & l2 & ->).
  exists (pre ++ Str.join l1), (Str.join l2 ++ post).
  by rewrite join_app, join_cons, !append_assoc.
Qed.

Lemma responded_carries (self self' : handler) code message base body :
  responded self self' code message base body ->
  carries_fixed_headers (wfile self').
Proof.
  unfold responded, response_bytes, carries_fixed_headers. intros ->.
  rewrite <- append_assoc. apply Forall_forall. intros line Hin.
  apply occurs_in_join. right. apply in_or_app. left.
  rewrite map_app. apply in_or_app. right.
  rewrite <- fixed_header_lines_eq. by apply list_elem_of_In.
Qed.

(** C1, as stated, fails: a request line of two words is an HTTP/0.9
    request, for which [send_response_only], [send_header] and
    [end_headers] write nothing; the answer to [GET /missing.html] is
    then the error page alone, without status line or headers. *)
Lemma fixed_headers_absent_http09 :
  let r := Request ("GET /missing.html" ++ Str.CRLF) (Headers []) 1767225600 in
  exists self',
    MyHTTPRequestHandler.handle Examples.demo_fs r
      (TCPServer.new_handler "/srv/demo" r) = Some self' /\
    response_of Examples.demo_fs "/srv/demo" r = wfile self' /\
    wfile self' =
      Reference.error_page 404 "File not found" "Nothing matches the given URI" /\
    ~ carries_fixed_headers (wfile self').
Proof.
  eexists. split; [vm_compute; reflexivity|]. split; [vm_compute; reflexivity|].
  split; [reflexivity|].
  intros Hall. apply Forall_inv in Hall. apply contains_spec in Hall.
  vm_compute in Hall. discriminate Hall.
Qed.

(** C1 (amended): whatever the request and the files, a handler made
    for a connection either raises, and then nothing is sent, or answers
    in one of two ways that the request line decides.  If the line is
    longer than 65536 bytes, or has three words or more of which the last
    is a version [HTTP/major.minor] below 2.0 other than the word
    [HTTP/0.9], the response is a status line, the header fields of the
    base behaviour, the three fixed fields with their exact bytes, a blank
    line and a body, so that each of the three fixed header lines occurs
    in it.  Otherwise what is sent, if anything, is a body alone: an error
    page, the bytes of a file or a listing, without status line and
    without header. *)
Theorem every_response_carries_fixed_headers
    `{Runtime} (fs : filesystem) (root : string) (r : request) :
  match MyHTTPRequestHandler.handle fs r (TCPServer.new_handler root r) with
  | None => raises fs /\ response_of fs root r = ""
  | Some self' =>
      response_of fs root r = wfile self' /\
      (gets_head (req_line r) ->
       exists code message base body,
         wfile self' =
           response_bytes code message (base ++ fixed_headers)%list body /\
         body_of fs body /\
         carries_fixed_headers (wfile self')) /\
      (~ gets_head (req_line r) -> body_of fs (wfile self'))
  end.
Proof.
  unfold response_of. cbv zeta.
  pose proof (handle_one_request_answers fs r
                (set_close_connection true (TCPServer.new_handler root r))) as Ha.
  rewrite <- handle_once in Ha.
  destruct (MyHTTPRequestHandler.handle fs r (TCPServer.new_handler root r))
    as [self'|]; [|by split].
  split; [reflexivity|].
  destruct Ha as [[Hyes (code & message & base & body & Hr & Hbody)]
                  |[Hno (body & Hw & Hbody)]].
  - split; [|done]. intros _. exists code, message, base, body.
    split; [exact Hr|]. split; [exact Hbody|]. by eapply responded_carries.
  - split; [done|]. intros _. by rewrite Hw.
Qed.

(** C2: the override of [end_headers] never fails and changes nothing
    of the handler but the connection bytes and the emptied buffer; for
    an HTTP/0.9 request it changes nothing at all; otherwise it writes
    the lines the base behaviour had buffered, unchanged and in their
    order, then the three fixed lines, then the blank line.  None of the
    three is a content-type line, so the response has as many
    content-type lines as the base behaviour buffered. *)
Theorem fixed_headers_follow_base_headers (self : handler) :
  exists self',
    MyHTTPRequestHandler.end_headers self = Some self' /\
    (directory self', command self', path self', request_version self',
     headers self', close_connection self', clock self')
    = (directory self, command self, path self, request_version self,
       headers self, close_connection self, clock self) /\
    (if BaseHTTPRequestHandler.is_http09 self then self' = self
     else
       headers_buffer self' = Some [] /\
       wfile self' =
         wfile self ++ Str.join (buffered self)
         ++ Str.join fixed_header_lines ++ Str.CRLF) /\
    List.filter is_content_type_line (buffered self ++ fixed_header_lines)%list
    = List.filter is_content_type_line (buffered self).
Proof.
  destruct (BaseHTTPRequestHandler.is_http09 self) eqn:H09.
  - exists self. split; [by apply end_headers_http09|].
    split; [reflexivity|]. split; [reflexivity|].
    rewrite List.filter_app. cbn. apply app_nil_r.
  - eexists. split; [by apply end_headers_not_http09|].
    split; [reflexivity|]. split.
    + split; [reflexivity|]. cbn.
      rewrite !join_app. cbn. by rewrite append_nil_r.
    + rewrite List.filter_app. cbn. apply app_nil_r.
Qed.
(** ** The [try] block of [main] *)

Lemma with_body_banner (port : Z) :
  with_body port = (map SPrint (banner port) ++ [SServeForever])%list.
Proof. reflexivity. Qed.

Lemma banner_length (port : Z) : length (banner port) = 13%nat.
Proof. reflexivity. Qed.

Lemma printed_emit (e : event) (p : process) :
  printed (trace (emit e p)) =
    (printed (trace p) ++ match e with Print text => [text] | _ => [] end)%list.
Proof.
  unfold printed, emit. cbn. rewrite omap_app. by destruct e.
Qed.

Lemma printed_prints (texts : list string) (p : process) :
  printed (trace (prints texts p)) = (printed (trace p) ++ texts)%list.
Proof.
  revert p. induction texts as [|t texts IH]; intros p; cbn.
  - by rewrite app_nil_r.
  - unfold prints in IH. rewrite IH. unfold print.
    by rewrite printed_emit, <- app_assoc.
Qed.

Lemma cwd_prints (texts : list string) (p : process) :
  cwd (prints texts p) = cwd p.
Proof.
  revert p. induction texts as [|t texts IH]; intros p; [done|].
  cbn. unfold prints in IH. by rewrite IH.
Qed.

Section TryBlock.
Context `{Runtime}.

Lemma printed_serve_forever handle fs (rs : list request) (p : process) :
    printed (trace (TCPServer.serve_forever handle fs rs p)) = printed (trace p).
  Proof.
    revert p. induction rs as [|r rs IH]; intros p; [done|].
    cbn. unfold TCPServer.serve_forever in IH. rewrite IH.
    unfold TCPServer.finish_request. by rewrite printed_emit, app_nil_r.
  Qed.

Lemma cwd_serve_forever handle fs (rs : list request) (p : process) :
    cwd (TCPServer.serve_forever handle fs rs p) = cwd p.
  Proof.
    revert p. induction rs as [|r rs IH]; intros p; [done|].
    cbn. unfold TCPServer.serve_forever in IH. by rewrite IH.
  Qed.

  (** A run of [print] statements none of which raises. *)
Lemma run_body_prints env (texts : list string) (rest : list stmt) n p :
    (forall m, (n <= m < n + length texts)%nat -> fault env m = None) ->
    run_body env n (map SPrint texts ++ rest)%list p =
      run_body env (n + length texts) rest (prints texts p).
  Proof.
    revert n p. induction texts as [|t texts IH]; intros n p Hnone.
    - cbn. by rewrite Nat.add_0_r.
    - cbn [map app run_body length]. rewrite Hnone by (cbn; lia).
      rewrite IH.
      + f_equal. lia.
      + intros m Hm. apply Hnone. cbn. lia.
  Qed.

  (** The [with] body when statement [i] of the [try] block is the first
      to raise, for a statement of the body. *)
Lemma run_body_raised env port (i : nat) e p :
    (1 <= i <= 14)%nat ->
    first_fault env i e ->
    exists p',
      run_body env 1 (with_body port) p = (p', Raised e) /\
      cwd p' = cwd p /\
      printed (trace p') = (printed (trace p) ++ take (i - 1) (banner port))%list.
  Proof.
    intros Hi [Hf Hnone]. rewrite with_body_banner.
    destruct (decide (i = 14%nat)) as [->|Hne].
    - rewrite run_body_prints
        by (intros m Hm; apply Hnone; rewrite banner_length in Hm; lia).
      rewrite banner_length. cbn [run_body Nat.add]. rewrite Hf.
      eexists. split; [reflexivity|].
      rewrite cwd_serve_forever, printed_serve_forever, cwd_prints, printed_prints.
      split; reflexivity.
    - destruct (lookup_lt_is_Some_2 (banner port) (i - 1)) as [t Ht].
      { rewrite banner_length. lia. }
      replace (map SPrint (banner port))
        with (map SPrint (take (i - 1) (banner port)
                          ++ t :: drop (S (i - 1)) (banner port)))
        by (by rewrite (take_drop_middle _ _ _ Ht)).
      assert (length (take (i - 1) (banner port)) = (i - 1)%nat) as Hlen.
      { rewrite length_take, banner_length. lia. }
      rewrite map_app, <- app_assoc, run_body_prints
        by (intros m Hm; apply Hnone; rewrite Hlen in Hm; lia).
      rewrite Hlen. replace (1 + (i - 1))%nat with i by lia.
      cbn [map app run_body]. rewrite Hf.
      eexists. split; [reflexivity|].
      by rewrite cwd_prints, printed_prints.
  Qed.

  (** The [with] statement when statement [i] of the [try] block is the
      first to raise: the exception leaves the statement, the banner was
      printed up to that statement, the socket is closed, and the socket
      was bound at most once. *)
Lemma with_TCPServer_raised env port (i : nat) e p :
    (i <= 14)%nat ->
    first_fault env i e ->
    exists p',
      with_TCPServer env port p = (p', Raised e) /\
      cwd p' = cwd p /\
      printed (trace p') = (printed (trace p) ++ take (i - 1) (banner port))%list /\
      last (trace p') = Some Close.
  Proof.
    intros Hi Hff. unfold with_TCPServer.
    destruct i as [|j].
    - destruct Hff as [-> _]. eexists. split; [reflexivity|].
      split; [done|]. split.
      + rewrite !printed_emit. cbn. by rewrite !app_nil_r.
      + unfold emit. cbn. by rewrite last_snoc.
    - destruct Hff as [Hf Hnone]. rewrite (Hnone 0%nat) by lia.
      destruct (run_body_raised env port (S j) e (emit (Bind port true) p))
        as (p' & -> & Hcwd & Hpr); [lia|done|].
      eexists. split; [reflexivity|]. split; [done|]. split.
      + rewrite printed_emit, Hpr, printed_emit. cbn. by rewrite !app_nil_r.
      + unfold emit. cbn. by rewrite last_snoc.
  Qed.

End TryBlock.

(** ** [main]: the two [except] clauses *)

Section MainClauses.
Context `{Runtime}.

Lemma main_unfold (env : environment) :
    main env =
      let '(p, r) := with_TCPServer env PORT (started env) in
      match r with
      | Raised KeyboardInterrupt => (print shutdown_message p, Exited 0)
      | Raised (OSError errno) =>
          if errno_is_address_in_use errno
          then (prints (port_in_use_messages PORT) p, Exited 1)
          else (p, Raised (OSError errno))
      | _ => (p, r)
      end.
  Proof. reflexivity. Qed.

Lemma printed_started (env : environment) : printed (trace (started env)) = [].
  Proof. reflexivity. Qed.

Lemma errno_is_address_in_use_iff (errno : option Z) :
    errno_is_address_in_use errno = true <-> errno = Some 98 \/ errno = Some 48.
  Proof.
    destruct errno as [n|]; cbn.
    - rewrite orb_true_iff, !Z.eqb_eq. split; intros [?|?]; simplify_eq; auto.
    - split; [done|]. by intros [?|?].
  Qed.

  (** A failure of the constructor leaves the [with] statement at once:
      one attempt to bind, the socket closed, nothing printed. *)
Lemma main_constructor_fails (env : environment) (e : exception) :
    fault env 0%nat = Some e ->
    with_TCPServer env PORT (started env) =
      (emit Close (emit (Bind PORT false) (started env)), Raised e).
  Proof. intros Hf. unfold with_TCPServer. by rewrite Hf. Qed.

  (** The diagnostic names the port and gives two numbered suggestions,
      whatever the port. *)
Lemma port_in_use_messages_shape (port : Z) :
    exists diagnostic intro first second,
      port_in_use_messages port = [diagnostic; intro; first; second] /\
      Str.occurs_in (Str.of_Z port) diagnostic /\
      Str.startswith "  1. " first = true /\
      Str.startswith "  2. " second = true.
  Proof.
    do 4 eexists. split; [reflexivity|]. split; [|split; reflexivity].
    exists (Str.NL ++ "❌ ОШИБКА: Порт "), " уже используется!".
    by rewrite !append_assoc.
  Qed.

End MainClauses.

(** C3: when the constructor fails with the error number of the
    platform for an address in use, [main] prints the diagnostic and
    exits with status 1 after a single attempt to bind on Linux (98) and
    on macOS (48); on Windows (10048) the comparison with 98 and 48
    fails and the exception leaves [main] with nothing printed. *)
Theorem port_conflict_by_platform `{Runtime} (env : environment) (os : platform) :
  fault env 0%nat = Some (OSError (Some (EADDRINUSE os))) ->
  match os with
  | Windows =>
      main env =
        (emit Close (emit (Bind PORT false) (started env)),
         Raised (OSError (Some 10048)))
  | _ =>
      snd (main env) = Exited 1 /\
      printed (trace (fst (main env))) = port_in_use_messages PORT /\
      bind_attempts (trace (fst (main env))) = 1%nat
  end.
Proof.
  intros Hf. rewrite main_unfold, (main_constructor_fails _ _ Hf).
  destruct os; cbn [EADDRINUSE errno_is_address_in_use Z.eqb orb];
    try reflexivity; (split; [reflexivity|]); split; reflexivity.
Qed.

Lemma port_conflict_by_platform_witness :
  main (Examples.demo_env
          (fun n => if Nat.eqb n 0 then Some (OSError (Some 10048)) else None) [])
  = (emit Close
       (emit (Bind PORT false)
          (started (Examples.demo_env
             (fun n => if Nat.eqb n 0 then Some (OSError (Some 10048)) else None)
             []))),
     Raised (OSError (Some 10048))).
Proof.
  apply (port_conflict_by_platform
           (Examples.demo_env
              (fun n => if Nat.eqb n 0 then Some (OSError (Some 10048)) else None)
              [])
           Windows).
  reflexivity.
Defined.

(** C5: an [OSError] of the constructor whose error number is neither
    98 nor 48 leaves [main] as the same exception: the socket is closed,
    nothing is printed, the process does not exit by itself. *)
Theorem other_os_error_propagates `{Runtime} (env : environment) (errno : option Z) :
  fault env 0%nat = Some (OSError errno) ->
  errno_is_address_in_use errno = false ->
  main env =
    (emit Close (emit (Bind PORT false) (started env)), Raised (OSError errno)) /\
  printed (trace (fst (main env))) = [].
Proof.
  intros Hf Hno. rewrite main_unfold, (main_constructor_fails _ _ Hf), Hno.
  split; reflexivity.
Qed.

Lemma other_os_error_propagates_witness :
  main (Examples.demo_env
          (fun n => if Nat.eqb n 0 then Some (OSError (Some 13)) else None) [])
  = (emit Close
       (emit (Bind PORT false)
          (started (Examples.demo_env
             (fun n => if Nat.eqb n 0 then Some (OSError (Some 13)) else None)
             []))),
     Raised (OSError (Some 13))) /\
  printed (trace (fst (main (Examples.demo_env
          (fun n => if Nat.eqb n 0 then Some (OSError (Some 13)) else None) []))))
  = [].
Proof.
  apply (other_os_error_propagates
           (Examples.demo_env
              (fun n => if Nat.eqb n 0 then Some (OSError (Some 13)) else None) [])
           (Some 13)); reflexivity.
Defined.

(** C9: for an [OSError] raised anywhere in the [try] block, the
    diagnostic and exit status 1 come exactly when the error number is 98
    or 48; with any other error number, 10048 of Windows among them, or
    with none, the same exception leaves [main] and nothing is printed
    after the banner lines that were already out. *)
Theorem port_conflict_branch_iff_98_or_48
    `{Runtime} (env : environment) (i : nat) (errno : option Z) :
  (i <= 14)%nat ->
  first_fault env i (OSError errno) ->
  (snd (main env) = Exited 1 <-> errno = Some 98 \/ errno = Some 48) /\
  (errno = Some 98 \/ errno = Some 48 ->
   printed (trace (fst (main env))) =
     (take (i - 1) (banner PORT) ++ port_in_use_messages PORT)%list) /\
  (~ (errno = Some 98 \/ errno = Some 48) ->
   snd (main env) = Raised (OSError errno) /\
   printed (trace (fst (main env))) = take (i - 1) (banner PORT)) /\
  (errno = Some (EADDRINUSE Windows) -> snd (main env) = Raised (OSError errno)).
Proof.
  intros Hi Hff. rewrite main_unfold.
  destruct (with_TCPServer_raised env PORT i _ (started env) Hi Hff)
    as (p' & -> & _ & Hpr & _).
  rewrite printed_started in Hpr. cbn [app] in Hpr.
  pose proof (errno_is_address_in_use_iff errno) as Hiff.
  destruct (errno_is_address_in_use errno) eqn:Hb; cbn [fst snd].
  - assert (errno = Some 98 \/ errno = Some 48) as Hor by by apply Hiff.
    split; [done|]. split; [|split].
    + intros _. by rewrite printed_prints, Hpr.
    + done.
    + intros ->. by destruct Hor.
  - assert (~ (errno = Some 98 \/ errno = Some 48)) as Hnor.
    { intros Hor. apply Hiff in Hor. discriminate Hor. }
    split; [|split; [done|split; done]].
    split; [discriminate|done].
Qed.

Lemma port_conflict_branch_iff_98_or_48_witness :
  let env := Examples.demo_env
               (fun n => if Nat.eqb n 0 then Some (OSError (Some 10048)) else None)
               [] in
  (snd (main env) = Exited 1 <-> Some 10048 = Some 98 \/ Some 10048 = Some 48) /\
  (Some 10048 = Some 98 \/ Some 10048 = Some 48 ->
   printed (trace (fst (main env))) =
     (take (0 - 1) (banner PORT) ++ port_in_use_messages PORT)%list) /\
  (~ (Some 10048 = Some 98 \/ Some 10048 = Some 48) ->
   snd (main env) = Raised (OSError (Some 10048)) /\
   printed (trace (fst (main env))) = take (0 - 1) (banner PORT)) /\
  (Some 10048 = Some (EADDRINUSE Windows) ->
   snd (main env) = Raised (OSError (Some 10048))).
Proof.
  apply (port_conflict_branch_iff_98_or_48
           (Examples.demo_env
              (fun n => if Nat.eqb n 0 then Some (OSError (Some 10048)) else None)
              [])
           0%nat (Some 10048)).
  - lia.
  - split; [reflexivity|]. intros m Hm. lia.
Defined.

(** C10: a [KeyboardInterrupt] raised by any statement of the [try]
    block, be it the constructor (statement 0), one of the thirteen
    [print] calls of the banner (1 to 13, the socket being bound) or
    [serve_forever] (14), ends the process with status 0; the last text
    printed is the message of the [except] clause, two empty lines and
    the words that say that the server is stopped, and it follows the
    banner lines that were already out. *)
Theorem interrupt_anywhere_exits_zero `{Runtime} (env : environment) (i : nat) :
  (i <= 14)%nat ->
  first_fault env i KeyboardInterrupt ->
  snd (main env) = Exited 0 /\
  printed (trace (fst (main env))) =
    (take (i - 1) (banner PORT)
     ++ [(Str.NL ++ Str.NL ++ "👋 Сервер остановлен")%string])%list /\
  stdout (trace (fst (main env))) =
    Str.join (map (fun text => text ++ Str.NL) (take (i - 1) (banner PORT)))
    ++ Str.NL ++ Str.NL ++ "👋 Сервер остановлен" ++ Str.NL.
Proof.
  intros Hi Hff. rewrite main_unfold.
  destruct (with_TCPServer_raised env PORT i _ (started env) Hi Hff)
    as (p' & -> & _ & Hpr & _).
  rewrite printed_started in Hpr. cbn [app] in Hpr.
  split; [reflexivity|]. cbn [fst]. unfold print, stdout.
  rewrite printed_emit, Hpr. split; [reflexivity|].
  rewrite map_app, join_app. cbn [map Str.join foldr].
  rewrite append_nil_r. f_equal.
Qed.

Lemma interrupt_anywhere_exits_zero_witness :
  let env := Examples.demo_env
               (fun n => if Nat.eqb n 3 then Some KeyboardInterrupt else None) [] in
  snd (main env) = Exited 0 /\
  printed (trace (fst (main env))) =
    (take (3 - 1) (banner PORT)
     ++ [(Str.NL ++ Str.NL ++ "👋 Сервер остановлен")%string])%list /\
  stdout (trace (fst (main env))) =
    Str.join (map (fun text => text ++ Str.NL) (take (3 - 1) (banner PORT)))
    ++ Str.NL ++ Str.NL ++ "👋 Сервер остановлен" ++ Str.NL.
Proof.
  apply (interrupt_anywhere_exits_zero
           (Examples.demo_env
              (fun n => if Nat.eqb n 3 then Some KeyboardInterrupt else None) [])
           3%nat).
  - lia.
  - split; [reflexivity|].
    intros m Hm. do 3 (destruct m as [|m]; [reflexivity|]). lia.
Defined.

(** ** Paths below a directory *)

Lemma upto_last_empty (c : ascii) (s : string) :
  Str.upto_last c s = "" -> Str.mem c s = false.
Proof.
  induction s as [|d s IH]; [done|]. cbn.
  destruct (Str.mem c s) eqn:Hm; [done|].
  destruct (Ascii.eqb c d); done.
Qed.

Lemma rstrip_char_empty (c : ascii) (s : string) :
  Str.rstrip_char c s = "" -> Str.all_char c s = true.
Proof.
  induction s as [|d s IH]; [done|]. cbn.
  destruct (Str.rstrip_char c s) eqn:Hr; [|done].
  destruct (Ascii.eqb c d); [|done]. intros _. by apply IH.
Qed.

(** A word that [translate_path] keeps has no slash and is neither [.]
    nor [..]. *)
Lemma kept_word (w : string) :
  SimpleHTTPRequestHandler.ignored_word w = false ->
  Str.mem "/" w = false /\ w <> "." /\ w <> "..".
Proof.
  unfold SimpleHTTPRequestHandler.ignored_word, posixpath.dirname.
  rewrite !orb_false_iff, negb_false_iff. intros [[Hd Hdot] Hdotdot].
  split; [|split; intros ->; discriminate].
  apply String.eqb_eq in Hd. apply upto_last_empty.
  destruct (String.eqb (Str.upto_last posixpath.sep w) "") eqn:He.
  - by apply String.eqb_eq in He.
  - destruct (Str.all_char posixpath.sep (Str.upto_last posixpath.sep w)) eqn:Ha.
    + cbn in Hd. apply String.eqb_neq in He. done.
    + cbn in Hd. apply rstrip_char_empty in Hd. congruence.
Qed.

Lemma mem_startswith (c : ascii) (w : string) :
  Str.mem c w = false -> Str.startswith (String c "") w = false.
Proof.
  destruct w as [|d w]; [done|]. cbn.
  destruct (Ascii.eqb c d) eqn:He; [done|]. intros _.
  destruct (ascii_dec c d) as [->|Hne]; [|done].
  by rewrite Ascii.eqb_refl in He.
Qed.

(** Joining a kept word only appends to the path. *)
Lemma join_kept (p w : string) :
  SimpleHTTPRequestHandler.ignored_word w = false ->
  posixpath.join p w =
    if (String.eqb p "" || Str.endswith posixpath.sep p)%bool
    then p ++ w else p ++ "/" ++ w.
Proof.
  intros Hw. apply kept_word in Hw as [Hm _].
  unfold posixpath.join. by rewrite (mem_startswith _ _ Hm).
Qed.

Lemma endswith_app (c : ascii) (a s : string) :
  s <> "" -> Str.endswith c (a ++ s) = Str.endswith c s.
Proof.
  intros Hs. induction a as [|d a IH]; [done|].
  rewrite append_cons. cbn. rewrite IH.
  destruct (a ++ s) eqn:Ha; [|done].
  destruct a; [|by rewrite append_cons in Ha].
  by rewrite append_nil_l in Ha.
Qed.

Lemma endswith_inv (c : ascii) (s : string) :
  Str.endswith c s = true -> exists s0, s = s0 ++ String c "".
Proof.
  induction s as [|d s IH]; [done|]. cbn. destruct s as [|e s].
  - intros He. exists "". rewrite append_nil_l.
    destruct (ascii_dec c d) as [->|Hne]; [done|].
    by apply Ascii.eqb_eq in He.
  - intros He. destruct (IH He) as [s0 ->].
    exists (String d s0). by rewrite append_cons.
Qed.

Lemma mem_app_sep (c : ascii) (s w : string) :
  Str.mem c (s ++ String c w) = true.
Proof.
  induction s as [|d s IH].
  - rewrite append_nil_l. cbn. by rewrite Ascii.eqb_refl.
  - rewrite append_cons. cbn. rewrite IH. by destruct (Ascii.eqb c d).
Qed.

Lemma mem_endswith (c : ascii) (s : string) :
  Str.mem c s = false -> Str.endswith c s = false.
Proof.
  intros Hm. destruct (Str.endswith c s) eqn:He; [|done].
  apply endswith_inv in He as [s0 ->]. by rewrite mem_app_sep in Hm.
Qed.

Lemma upto_last_none (c : ascii) (w : string) :
  Str.mem c w = false -> Str.upto_last c w = "".
Proof.
  induction w as [|d w IH]; [done|]. cbn.
  destruct (Ascii.eqb c d); [done|]. by intros ->.
Qed.

Lemma upto_last_app_sep (c : ascii) (s w : string) :
  Str.mem c w = false ->
  Str.upto_last c (s ++ String c w) = s ++ String c "".
Proof.
  intros Hw. induction s as [|d s IH].
  - rewrite !append_nil_l. cbn. by rewrite Hw, Ascii.eqb_refl.
  - rewrite !append_cons. cbn. by rewrite mem_app_sep, IH.
Qed.

Lemma rstrip_char_app_sep (c : ascii) (s : string) :
  Str.rstrip_char c (s ++ String c "") = Str.rstrip_char c s.
Proof.
  induction s as [|d s IH].
  - rewrite append_nil_l. cbn. by rewrite Ascii.eqb_refl.
  - rewrite append_cons. cbn. by rewrite IH.
Qed.

Lemma rstrip_char_none (c : ascii) (s : string) :
  Str.endswith c s = false -> Str.rstrip_char c s = s.
Proof.
  induction s as [|d s IH]; [done|]. cbn. destruct s as [|e s].
  - cbn. by intros ->.
  - intros He. by rewrite (IH He).
Qed.

Lemma all_char_app_sep (c : ascii) (s : string) :
  Str.all_char c (s ++ String c "") = Str.all_char c s.
Proof.
  induction s as [|d s IH].
  - rewrite append_nil_l. cbn. by rewrite Ascii.eqb_refl.
  - rewrite append_cons. cbn. by rewrite IH.
Qed.

Lemma all_char_endswith (c : ascii) (s : string) :
  Str.all_char c s = true -> s <> "" -> Str.endswith c s = true.
Proof.
  induction s as [|d s IH]; [done|]. cbn. intros Hall _.
  apply andb_prop in Hall as [Hd Hs]. destruct s as [|e s]; [done|].
  by apply IH.
Qed.

Lemma append_sep_not_empty (s : string) (c : ascii) (t : string) :
  String.eqb (s ++ String c t) "" = false.
Proof. apply String.eqb_neq. by destruct s. Qed.

(** [posixpath.dirname] gives back the directory a plain name was
    joined to, for a directory written without trailing slash (or made of
    slashes only, like the root of the filesystem). *)
Lemma dirname_join (d w : string) :
  SimpleHTTPRequestHandler.ignored_word w = false ->
  Str.endswith "/" d = false \/ Str.all_char "/" d = true ->
  posixpath.dirname (posixpath.join d w) = d.
Proof.
  intros Hw Hd. rewrite (join_kept _ _ Hw).
  apply kept_word in Hw as (Hm & _ & _).
  unfold posixpath.dirname, posixpath.sep.
  destruct (String.eqb_spec d "") as [->|Hne].
  - cbn [orb]. rewrite append_nil_l, (upto_last_none _ _ Hm). reflexivity.
  - cbn [orb]. destruct (Str.endswith "/" d) eqn:Hend.
    + destruct Hd as [Hd|Hall]; [discriminate Hd|].
      destruct (endswith_inv _ _ Hend) as [d0 ->].
      rewrite append_assoc. change (String "/" "" ++ w) with (String "/" w).
      rewrite (upto_last_app_sep _ _ _ Hm), append_sep_not_empty, Hall.
      reflexivity.
    + change ("/" ++ w) with (String "/" w).
      rewrite (upto_last_app_sep _ _ _ Hm), append_sep_not_empty,
        all_char_app_sep.
      destruct (Str.all_char "/" d) eqn:Hall.
      * rewrite (all_char_endswith _ _ Hall Hne) in Hend. discriminate Hend.
      * cbn [negb andb]. by rewrite rstrip_char_app_sep, rstrip_char_none.
Qed.

(** The plain names are the non-empty words that [translate_path]
    keeps. *)
Lemma plain_kept (w : string) :
  plain w -> SimpleHTTPRequestHandler.ignored_word w = false.
Proof.
  intros (_ & Hd & Hdd & Hm).
  unfold SimpleHTTPRequestHandler.ignored_word, posixpath.dirname, posixpath.sep.
  rewrite (upto_last_none _ _ Hm).
  apply String.eqb_neq in Hd, Hdd. by rewrite Hd, Hdd.
Qed.

Lemma kept_plain (w : string) :
  SimpleHTTPRequestHandler.ignored_word w = false -> w <> "" -> plain w.
Proof.
  intros Hw Hne. apply kept_word in Hw as (Hm & Hd & Hdd). by repeat split.
Qed.

Lemma below_nil (root : string) : below root [] = root.
Proof. unfold below. cbn [map Str.join foldr]. apply append_nil_r. Qed.

Lemma below_snoc (root : string) (names : list string) (w : string) :
  below root (names ++ [w]) = below root names ++ String "/" w.
Proof.
  unfold below. rewrite map_app, join_app. cbn [map Str.join foldr].
  by rewrite append_nil_r, append_assoc.
Qed.

Lemma below_app (root : string) (names more : list string) :
  below root (names ++ more) = below (below root names) more.
Proof. unfold below. by rewrite map_app, join_app, append_assoc. Qed.

(** A path below a directory is not empty and does not end with a
    slash. *)
Lemma below_no_slash (root : string) (names : list string) :
  directory_path root \/ names <> [] -> Forall plain names ->
  below root names <> "" /\ Str.endswith "/" (below root names) = false.
Proof.
  intros Hd Hn. destruct names as [|n names _] using rev_ind.
  - rewrite below_nil. destruct Hd as [Hd|Hd]; [exact Hd|done].
  - apply Forall_app in Hn as [_ Hn]. apply Forall_inv in Hn.
    destruct Hn as (Hne & _ & _ & Hm).
    rewrite below_snoc. split.
    + by destruct (below root names).
    + rewrite endswith_app by done.
      change (String "/" n) with ("/" ++ n).
      rewrite endswith_app by done. by apply mem_endswith.
Qed.

(** [posixpath.join] with a plain name goes one name down. *)
Lemma join_below (root : string) (names : list string) (w : string) :
  directory_path root \/ names <> [] -> Forall plain names -> plain w ->
  posixpath.join (below root names) w = below root (names ++ [w]).
Proof.
  intros Hd Hn Hw. rewrite (join_kept _ _ (plain_kept _ Hw)).
  destruct (below_no_slash root names Hd Hn) as [Hne Hend].
  apply String.eqb_neq in Hne. unfold posixpath.sep.
  by rewrite Hne, Hend, below_snoc.
Qed.

Lemma join_below_slash (root : string) (names : list string) (w : string) :
  plain w ->
  posixpath.join (below root names ++ "/") w = below root (names ++ [w]).
Proof.
  intros Hw. rewrite (join_kept _ _ (plain_kept _ Hw)).
  unfold posixpath.sep.
  rewrite append_sep_not_empty, endswith_app by done.
  cbn [Str.endswith orb Ascii.eqb Bool.eqb].
  by rewrite below_snoc, append_assoc.
Qed.

Lemma Forall_snoc {A} (P : A -> Prop) (l : list A) (x : A) :
  Forall P l -> P x -> Forall P (l ++ [x]).
Proof. intros Hl Hx. apply Forall_app. by repeat constructor. Qed.

Lemma under_root (root : string) : under root root.
Proof. exists []. split; [constructor|]. left. by rewrite below_nil. Qed.

Lemma under_join (root p w : string) :
  directory_path root -> under root p -> plain w ->
  under root (posixpath.join p w).
Proof.
  intros Hd (names & Hn & [->| ->]) Hw; exists (names ++ [w])%list.
  - split; [by apply Forall_snoc|]. left. apply join_below; auto.
  - split; [by apply Forall_snoc|]. left. by apply join_below_slash.
Qed.

(** The loop of [translate_path] goes down by the plain names among the
    words. *)
Lemma translate_words_below (root : string) (names words : list string) :
  directory_path root -> Forall plain names ->
  Forall (fun w => w <> "") words ->
  exists names',
    Forall plain names' /\
    SimpleHTTPRequestHandler.translate_words (below root names) words
    = below root names'.
Proof.
  intros Hd. revert names.
  induction words as [|w words IH]; intros names Hn Hw.
  - by exists names.
  - apply Forall_cons in Hw as [Hne Hw].
    unfold SimpleHTTPRequestHandler.translate_words in *. cbn [fold_left].
    destruct (SimpleHTTPRequestHandler.ignored_word w) eqn:Hk.
    + by apply IH.
    + pose proof (kept_plain _ Hk Hne) as Hp.
      rewrite join_below by auto. apply IH; [|done]. by apply Forall_snoc.
Qed.

Lemma translate_words_plain (root : string) (names words : list string) :
  directory_path root \/ names <> [] -> Forall plain names ->
  Forall plain words ->
  SimpleHTTPRequestHandler.translate_words (below root names) words
  = below root (names ++ words).
Proof.
  intros Hd Hn Hw. revert names Hd Hn.
  induction Hw as [|w words Hp Hw IH]; intros names Hd Hn.
  - by rewrite app_nil_r.
  - unfold SimpleHTTPRequestHandler.translate_words in *. cbn [fold_left].
    rewrite (plain_kept _ Hp), join_below by auto.
    rewrite IH.
    + by rewrite <- app_assoc.
    + right. by destruct names.
    + by apply Forall_snoc.
Qed.

Lemma filter_not_empty (words : list string) :
  Forall (fun w => w <> "")
    (List.filter (fun w => negb (String.eqb w "")) words).
Proof.
  apply Forall_forall. intros w Hin. apply list_elem_of_In in Hin.
  apply filter_In in Hin as [_ Hw].
  apply negb_true_iff, String.eqb_neq in Hw. exact Hw.
Qed.

(** Whatever the request target, and whatever [unquote] makes of it,
    the translated path is the directory of the handler followed by plain
    names, with a slash at the end or without. *)
Lemma translate_path_under `{Runtime} (self : handler) (target : string) :
  directory_path (directory self) ->
  under (directory self) (SimpleHTTPRequestHandler.translate_path self target).
Proof.
  intros Hd. unfold SimpleHTTPRequestHandler.translate_path. cbv zeta.
  destruct (translate_words_below (directory self) []
              (List.filter (fun w => negb (String.eqb w ""))
                 (Str.split "/"
                    (posixpath.normpath
                       (urllib.unquote (Str.before "#" (Str.before "?" target))))))
              Hd (List.Forall_nil _) (filter_not_empty _)) as (names & Hn & Heq).
  rewrite below_nil in Heq. rewrite Heq.
  exists names. split; [done|]. destruct (Str.endswith _ _); auto.
Qed.

(** A path under a root begins with the root. *)
Lemma under_begins (root p : string) :
  under root p -> exists rest, p = root ++ rest.
Proof.
  intros (names & _ & [->| ->]); unfold below; eauto.
  rewrite append_assoc. eauto.
Qed.

(** ** Absolute paths *)

Lemma split_below (names : list string) :
  Forall plain names ->
  Str.split "/" (Str.join (map (String "/") names)) = "" :: names.
Proof.
  induction 1 as [|n names (_ & _ & _ & Hm) Hn IH]; [reflexivity|].
  cbn [map]. rewrite join_cons, append_cons, split_cons.
  cbn [Ascii.eqb Bool.eqb]. f_equal.
  destruct names as [|m names].
  - cbn [map Str.join foldr]. rewrite append_nil_r. by apply split_no_sep.
  - cbn [map] in *. rewrite join_cons, append_cons in *.
    rewrite split_cons in IH. cbn [Ascii.eqb Bool.eqb] in IH.
    injection IH as IH.
    by rewrite split_app_sep, (split_no_sep _ _ Hm), IH.
Qed.

Lemma join_with_cons (sep x y : string) (rest : list string) :
  Str.join_with sep (x :: y :: rest) = x ++ sep ++ Str.join_with sep (y :: rest).
Proof. reflexivity. Qed.

Lemma absolute_below (names : list string) :
  names <> [] -> absolute names = below "" names.
Proof.
  unfold absolute, below. rewrite append_nil_l.
  induction names as [|n [|m names] IH]; [done| |]; intros _.
  - cbn [map Str.join foldr Str.join_with]. by rewrite append_nil_r.
  - rewrite join_with_cons. cbn [map]. rewrite join_cons.
    cbn [map] in IH. rewrite <- IH by done.
    by rewrite !append_cons, !append_nil_l.
Qed.

Lemma absolute_nil : absolute [] = "/".
Proof. reflexivity. Qed.

Lemma join_with_app (sep : string) (a b : list string) :
  a <> [] -> b <> [] ->
  Str.join_with sep (a ++ b) = Str.join_with sep a ++ sep ++ Str.join_with sep b.
Proof.
  intros Ha Hb. induction a as [|x [|y a] IH]; [done| |].
  - destruct b as [|z b]; [done|]. reflexivity.
  - rewrite <- !app_comm_cons, !join_with_cons, app_comm_cons, IH by done.
    by rewrite !append_assoc.
Qed.

Lemma join_with_not_absolute (names : list string) :
  Forall plain names -> Str.startswith "/" (Str.join_with "/" names) = false.
Proof.
  intros Hn. destruct Hn as [|n rest (Hne & _ & _ & Hm) _]; [reflexivity|].
  destruct n as [|c n]; [done|].
  assert (Ascii.eqb "/" c = false) as Hc.
  { cbn [Str.mem] in Hm. by destruct (Ascii.eqb "/" c). }
  destruct rest; [cbn [Str.join_with]|rewrite join_with_cons, append_cons];
    unfold Str.startswith; cbn [String.prefix];
    (destruct (ascii_dec "/" c) as [Heq|]; [|done]);
    rewrite <- Heq in Hc; by vm_compute in Hc.
Qed.

Lemma normpath_comps_plain (names acc : list string) :
  Forall plain names ->
  posixpath.normpath_comps 1 names acc = (acc ++ names)%list.
Proof.
  intros Hn. revert acc.
  induction Hn as [|n names (Hne & Hd & Hdd & _) _ IH]; intros acc.
  - by rewrite app_nil_r.
  - cbn [posixpath.normpath_comps].
    apply String.eqb_neq in Hne, Hd, Hdd. rewrite Hne, Hd, Hdd.
    cbn [orb negb]. by rewrite IH, <- app_assoc.
Qed.

(** [posixpath.normpath] leaves an absolute path of plain names as it
    is. *)
Lemma normpath_absolute (names : list string) :
  Forall plain names -> posixpath.normpath (absolute names) = absolute names.
Proof.
  intros Hn. destruct names as [|n names]; [reflexivity|].
  unfold posixpath.normpath.
  assert (Str.split "/" (absolute (n :: names)) = "" :: n :: names) as ->.
  { rewrite absolute_below by done. unfold below. rewrite append_nil_l.
    by apply split_below. }
  assert (String.eqb (absolute (n :: names)) "" = false) as -> by reflexivity.
  assert (Str.startswith "/" (absolute (n :: names)) = true) as ->
    by (apply prefix_occurs; unfold absolute; eauto).
  assert (Str.startswith "//" (absolute (n :: names)) = false) as ->.
  { pose proof (join_with_not_absolute _ Hn) as Hs.
    unfold absolute. rewrite append_cons, append_nil_l.
    unfold Str.startswith in *. cbn [String.prefix].
    by destruct (ascii_dec "/" "/"). }
  cbn [andb].
  change (posixpath.normpath_comps 1 ("" :: n :: names) [])
    with (posixpath.normpath_comps 1 (n :: names) []).
  rewrite normpath_comps_plain by done. cbn [app Str.times].
  rewrite append_nil_r. reflexivity.
Qed.

(** [posixpath.dirname] of an absolute path of plain names drops the
    last name. *)
Lemma dirname_absolute (names : list string) (name : string) :
  Forall plain (names ++ [name]) ->
  posixpath.dirname (absolute (names ++ [name])) = absolute names.
Proof.
  intros Hn. apply Forall_app in Hn as [Hn Hname]. apply Forall_inv in Hname.
  destruct names as [|d names].
  - change (absolute ([] ++ [name])) with ("/" ++ name).
    assert ("/" ++ name = posixpath.join "/" name) as ->.
    { by rewrite (join_kept _ _ (plain_kept _ Hname)). }
    rewrite dirname_join; [done|by apply plain_kept|by right].
  - rewrite absolute_below by (by destruct names).
    rewrite <- join_below by auto.
    rewrite dirname_join.
    + by rewrite absolute_below.
    + by apply plain_kept.
    + left. apply below_no_slash; auto.
Qed.

(** [posixpath.abspath] of a relative path of plain names, from a
    directory given by plain names. *)
Lemma abspath_relative (start rel : list string) :
  Forall plain start -> Forall plain rel -> rel <> [] ->
  posixpath.abspath (absolute start) (Str.join_with "/" rel)
  = absolute (start ++ rel).
Proof.
  intros Hs Hr Hne. unfold posixpath.abspath, posixpath.isabs.
  rewrite (join_with_not_absolute _ Hr).
  unfold posixpath.join. rewrite (join_with_not_absolute _ Hr).
  assert ((if (String.eqb (absolute start) "" || Str.endswith posixpath.sep (absolute start))%bool
           then absolute start ++ Str.join_with "/" rel
           else absolute start ++ "/" ++ Str.join_with "/" rel)
          = absolute (start ++ rel)) as ->.
  { destruct start as [|s start]; [reflexivity|].
    destruct (below_no_slash "" (s :: start)) as [Hn He]; [by right|done|].
    rewrite <- absolute_below in Hn, He by done.
    apply String.eqb_neq in Hn. unfold posixpath.sep. rewrite Hn, He.
    cbn [orb]. unfold absolute. rewrite join_with_app by done.
    by rewrite !append_assoc. }
  apply normpath_absolute. by apply Forall_app.
Qed.

Lemma abspath_absolute (getcwd : string) (names : list string) :
  Forall plain names ->
  posixpath.abspath getcwd (absolute names) = absolute names.
Proof.
  intros Hn. unfold posixpath.abspath, posixpath.isabs.
  assert (Str.startswith "/" (absolute names) = true) as ->
    by (apply prefix_occurs; unfold absolute; eauto).
  by apply normpath_absolute.
Qed.

(** ** The directory of a handler never changes *)

Section Directory.
Context `{Runtime}.
Import BaseHTTPRequestHandler SimpleHTTPRequestHandler.

Lemma send_header_directory (self : handler) (k v : string) :
  directory (send_header self k v) = directory self.
Proof.
  unfold send_header. destruct (negb (is_http09 self));
    destruct (String.eqb (Str.lower k) "connection"); try reflexivity;
    destruct (String.eqb (Str.lower v) "close"); try reflexivity;
    by destruct (String.eqb (Str.lower v) "keep-alive").
Qed.

Lemma send_response_directory (self : handler) code message :
  directory (send_response self code message) = directory self.
Proof.
  unfold send_response. cbv zeta. rewrite !send_header_directory.
  unfold send_response_only. by destruct (negb (is_http09 self)).
Qed.

Lemma end_headers_directory (self self' : handler) :
  MyHTTPRequestHandler.end_headers self = Some self' ->
  directory self' = directory self.
Proof.
  destruct (is_http09 self) eqn:H09.
  - rewrite end_headers_http09 by exact H09. by intros [= <-].
  - rewrite end_headers_not_http09 by exact H09. by intros [= <-].
Qed.

Lemma send_error_directory (self self' : handler) code message explain :
  MyHTTPRequestHandler.send_error self code message explain = Some self' ->
  directory self' = directory self.
Proof.
  unfold MyHTTPRequestHandler.send_error, BaseHTTPRequestHandler.send_error.
  destruct (default ("???", "???") (responses code)) as [shortmsg longmsg].
  cbv zeta. intros Hs.
  destruct (Z.leb 200 code
            && negb (Z.eqb code 204 || Z.eqb code 205 || Z.eqb code 304))%bool.
  - destruct (MyHTTPRequestHandler.end_headers _) as [self2|] eqn:He;
      [|discriminate Hs].
    apply end_headers_directory in He.
    rewrite !send_header_directory, send_response_directory in He.
    cbn [mbind option_bind] in Hs. injection Hs as <-.
    by destruct (_ && _)%bool.
  - destruct (MyHTTPRequestHandler.end_headers _) as [self2|] eqn:He;
      [|discriminate Hs].
    apply end_headers_directory in He.
    rewrite !send_header_directory, send_response_directory in He.
    cbn [mbind option_bind] in Hs. injection Hs as <-.
    by destruct (_ && _)%bool.
Qed.

Lemma reject_rooted (self : handler) code message explain :
  rooted_parsed (directory self)
    (reject MyHTTPRequestHandler.end_headers self code message explain).
Proof.
  intros s ok. unfold reject.
  destruct (send_error _ self code message explain) as [s'|] eqn:Hs; [|done].
  intros [= <- _]. by eapply send_error_directory.
Qed.

Lemma parse_headers_rooted (r : request) (self : handler) :
  rooted_parsed (directory self)
    (parse_headers MyHTTPRequestHandler.end_headers r self).
Proof.
  unfold parse_headers.
  destruct (req_headers r) as [fields|err|err]; [|apply reject_rooted..].
  cbv zeta. rewrite protocol_version_old, !andb_false_r, ?andb_false_l.
  intros s ok [= <- _]. by destruct (String.eqb _ "close").
Qed.

Lemma parse_words_rooted (line : string) (words : list string) (r : request)
    (self : handler) :
  rooted_parsed (directory self)
    (parse_words MyHTTPRequestHandler.end_headers line words r self).
Proof.
  unfold parse_words.
  destruct (negb (Nat.leb 2 _ && _)); [apply reject_rooted|].
  destruct words as [|command [|path rest]]; [by intros s ok [= <- _]..|].
  destruct (Nat.eqb _ 2).
  - cbv zeta. destruct (negb (String.eqb command "GET")).
    + pose proof (reject_rooted (set_close_connection true self) 400
                    (Some ("Bad HTTP/0.9 request type (" ++ repr command ++ ")"))
                    None) as Hr.
      destruct (reject _ _ 400 _ None) as [[s' ok']|]; [|done].
      cbn [mbind option_bind]. intros s ok.
      specialize (Hr s' ok' eq_refl). destruct ok'; cbn [negb].
      * intros Hp. apply parse_headers_rooted in Hp. rewrite Hp.
        by destruct (Str.startswith _ _).
      * by intros [= <- _].
    + cbn [mbind option_bind negb]. intros s ok Hp.
      apply parse_headers_rooted in Hp. rewrite Hp.
      by destruct (Str.startswith _ _).
  - cbn [mbind option_bind negb]. intros s ok Hp.
    apply parse_headers_rooted in Hp. rewrite Hp.
    by destruct (Str.startswith _ _).
Qed.

Lemma parse_request_rooted (r : request) (self : handler) :
  rooted_parsed (directory self) (MyHTTPRequestHandler.parse_request r self).
Proof.
  unfold MyHTTPRequestHandler.parse_request, parse_request. cbv zeta.
  set (s0 := set_close_connection true _).
  change (directory self) with (directory s0).
  destruct (Nat.eqb _ 0); [by intros s ok [= <- _]|].
  rewrite parse_version_cases.
  destruct (Nat.leb 3 _).
  - destruct (version_number _) as [[base number]|].
    + destruct (pair_ge number (2, 0)).
      * pose proof (reject_rooted s0 505
                      (Some ("Invalid HTTP version (" ++ base ++ ")")) None) as Hr.
        destruct (reject _ _ 505 _ None) as [[s' ok']|]; [|done].
        cbn [mbind option_bind]. intros s ok.
        specialize (Hr s' ok' eq_refl). destruct ok'; cbn [negb].
        -- intros Hp. apply parse_words_rooted in Hp. by rewrite Hp.
        -- by intros [= <- _].
      * cbn [mbind option_bind negb]. intros s ok Hp.
        by apply parse_words_rooted in Hp.
    + match goal with
      | |- rooted_parsed _ (mbind _ (reject ?eh ?s ?c ?m ?e)) =>
          pose proof (reject_rooted s c m e) as Hr;
          destruct (reject eh s c m e) as [[s' ok']|]; [|done]
      end.
      cbn [mbind option_bind]. intros s ok.
      specialize (Hr s' ok' eq_refl). destruct ok'; cbn [negb].
      * intros Hp. apply parse_words_rooted in Hp. by rewrite Hp.
      * by intros [= <- _].
  - cbn [mbind option_bind negb]. intros s ok Hp.
    by apply parse_words_rooted in Hp.
Qed.

End Directory.

(** ** The response depends on the paths under the root only *)

Lemma insert_by_Forall (key : string -> string) (P : string -> Prop)
    (x : string) (l : list string) :
  P x -> Forall P l -> Forall P (Str.insert_by key x l).
Proof.
  intros Hx. induction 1 as [|y l Hy Hl IH]; cbn.
  - by repeat constructor.
  - destruct (String.leb _ _); repeat constructor; done.
Qed.

Lemma sort_by_Forall (key : string -> string) (P : string -> Prop)
    (l : list string) :
  Forall P l -> Forall P (Str.sort_by key l).
Proof.
  induction 1 as [|x l Hx Hl IH]; [constructor|].
  cbn. by apply insert_by_Forall.
Qed.

Lemma plain_index_html : plain "index.html".
Proof. by repeat split. Qed.

Lemma plain_index_htm : plain "index.htm".
Proof. by repeat split. Qed.

Section NonInterference.
Context `{Runtime}.
Variables (root : string) (fs1 fs2 : filesystem).
Hypothesis Hroot : directory_path root.
Hypothesis Hagree : agree root fs1 fs2.
Hypothesis Hplain : lists_plain_names fs1.
Import BaseHTTPRequestHandler SimpleHTTPRequestHandler.

Lemma listing_entry_agree (p name : string) :
  under root p -> plain name ->
  listing_entry fs1 p name = listing_entry fs2 p name.
Proof.
  intros Hp Hname. unfold listing_entry.
  destruct (Hagree (posixpath.join p name)) as (-> & _ & -> & _);
    [by apply under_join|done].
Qed.

Lemma list_directory_agree eh (self : handler) (p : string) :
  under root p ->
  list_directory eh fs1 self p = list_directory eh fs2 self p.
Proof.
  intros Hp. unfold list_directory.
  destruct (Hagree p Hp) as (_ & _ & _ & _ & Hl). rewrite <- Hl.
  destruct (listdir fs1 p) as [names|] eqn:Hnames; [|done].
  apply Hplain in Hnames.
  apply (sort_by_Forall lower) in Hnames.
  assert (map (listing_entry fs1 p) (Str.sort_by lower names)
          = map (listing_entry fs2 p) (Str.sort_by lower names)) as ->; [|done].
  induction Hnames as [|name l Hname _ IH]; [done|].
  cbn. by rewrite IH, listing_entry_agree.
Qed.

Lemma send_file_agree eh (self : handler) (p : string) :
  under root p ->
  send_file eh fs1 self p = send_file eh fs2 self p.
Proof.
  intros Hp. unfold send_file.
  destruct (Hagree p Hp) as (_ & _ & _ & -> & _). done.
Qed.

Lemma send_head_agree eh (self : handler) :
  directory self = root ->
  send_head eh fs1 self = send_head eh fs2 self.
Proof.
  intros Hdir. unfold send_head.
  assert (under root (translate_path self (self_path self))) as Hp.
  { rewrite <- Hdir. apply translate_path_under. by rewrite Hdir. }
  set (p := translate_path self (self_path self)) in *.
  assert (under root (posixpath.join p "index.html")) as Hi1
    by (apply under_join; auto using plain_index_html).
  assert (under root (posixpath.join p "index.htm")) as Hi2
    by (apply under_join; auto using plain_index_htm).
  destruct (Hagree p Hp) as (-> & _).
  destruct (Hagree _ Hi1) as (_ & -> & _).
  destruct (Hagree _ Hi2) as (_ & -> & _).
  by rewrite !send_file_agree, list_directory_agree.
Qed.

Lemma dispatch_agree eh (self : handler) :
  directory self = root ->
  dispatch eh fs1 self = dispatch eh fs2 self.
Proof.
  intros Hdir. unfold dispatch, do_GET, do_HEAD.
  by rewrite send_head_agree.
Qed.

Lemma handle_one_request_agree (r : request) (self : handler) :
  directory self = root ->
  MyHTTPRequestHandler.handle_one_request fs1 r self
  = MyHTTPRequestHandler.handle_one_request fs2 r self.
Proof.
  intros Hdir.
  unfold MyHTTPRequestHandler.handle_one_request, handle_one_request.
  destruct (Z.ltb _ _); [done|]. destruct (String.eqb _ ""); [done|].
  pose proof (parse_request_rooted r self) as Hp.
  unfold MyHTTPRequestHandler.parse_request in Hp.
  destruct (parse_request _ r self) as [[s ok]|]; [|done].
  cbn [mbind option_bind]. specialize (Hp s ok eq_refl).
  destruct ok; [|done]. apply dispatch_agree. by rewrite Hp.
Qed.

Lemma handle_agree (r : request) (self : handler) :
  directory self = root ->
  MyHTTPRequestHandler.handle fs1 r self = MyHTTPRequestHandler.handle fs2 r self.
Proof.
  intros Hdir. rewrite !handle_once. by apply handle_one_request_agree.
Qed.

End NonInterference.


Lemma demo_fs_lists_plain_names : lists_plain_names Examples.demo_fs.
Proof.
  intros p names. cbn. destruct (_ || _)%bool; [|done].
  intros [= <-]. by repeat constructor.
Qed.

Lemma demo_fs_agrees_under_root :
  agree "/srv/demo" Examples.demo_fs Examples.other_fs.
Proof.
  intros p Hp. repeat split. cbn.
  destruct (String.eqb p "/etc/passwd") eqn:He; [|done].
  apply String.eqb_eq in He as ->.
  apply under_begins in Hp as (rest & Hrest).
  rewrite !append_cons in Hrest. discriminate Hrest.
Qed.



(** ** The path a target names *)

Lemma normpath_comps_plain_then (names rest acc : list string) :
  Forall plain names ->
  posixpath.normpath_comps 1 (names ++ rest) acc
  = posixpath.normpath_comps 1 rest (acc ++ names).
Proof.
  intros Hn. revert acc.
  induction Hn as [|n names (Hne & Hd & Hdd & _) _ IH]; intros acc.
  - by rewrite app_nil_r.
  - rewrite <- app_comm_cons. cbn [posixpath.normpath_comps].
    apply String.eqb_neq in Hne, Hd, Hdd. rewrite Hne, Hd, Hdd.
    cbn [orb negb]. by rewrite IH, <- app_assoc.
Qed.

Lemma startswith_app (c : ascii) (s t : string) :
  s <> "" -> Str.startswith (String c "") s = false ->
  Str.startswith (String c "") (s ++ t) = false.
Proof.
  intros Hne. destruct s as [|d s]; [done|].
  rewrite append_cons. unfold Str.startswith. cbn [String.prefix].
  destruct (ascii_dec c d); [|done]. by destruct s.
Qed.

Lemma join_with_not_empty (sep : string) (n : string) (rest : list string) :
  n <> "" -> Str.join_with sep (n :: rest) <> "".
Proof.
  intros Hne. destruct n as [|c n]; [done|].
  destruct rest; [done|]. by rewrite join_with_cons, append_cons.
Qed.

(** [posixpath.normpath] drops the slash at the end of an absolute path
    of plain names. *)
Lemma normpath_names (p : string) (names : list string) :
  Forall plain names -> names_path p names ->
  posixpath.normpath p = absolute names.
Proof.
  intros Hn [->|[Hne ->]]; [by apply normpath_absolute|].
  destruct names as [|n names]; [done|].
  unfold posixpath.normpath.
  assert (Str.split "/" (absolute (n :: names) ++ "/")
          = (("" :: n :: names) ++ [""])%list) as ->.
  { rewrite split_app_sep, absolute_below by done. unfold below.
    rewrite append_nil_l. by rewrite split_below. }
  assert (String.eqb (absolute (n :: names) ++ "/") "" = false) as ->
    by reflexivity.
  assert (Str.startswith "/" (absolute (n :: names) ++ "/") = true) as ->.
  { apply prefix_occurs. unfold absolute. rewrite append_assoc. eauto. }
  assert (Str.startswith "//" (absolute (n :: names) ++ "/") = false) as ->.
  { pose proof (join_with_not_absolute _ Hn) as Hs.
    apply (startswith_app _ _ "/") in Hs;
      [|apply join_with_not_empty; by destruct (Forall_inv Hn)].
    unfold absolute. rewrite append_assoc, append_cons, append_nil_l.
    unfold Str.startswith in *. cbn [String.prefix].
    by destruct (ascii_dec "/" "/"). }
  cbn [andb].
  change (posixpath.normpath_comps 1 (("" :: n :: names) ++ [""])%list [])
    with (posixpath.normpath_comps 1 ((n :: names) ++ [""])%list []).
  rewrite normpath_comps_plain_then by done.
  cbn [app posixpath.normpath_comps String.eqb orb Str.times].
  rewrite append_nil_r. reflexivity.
Qed.

Lemma filter_plain (names : list string) :
  Forall plain names ->
  List.filter (fun w => negb (String.eqb w "")) names = names.
Proof.
  induction 1 as [|n names (Hne & _) _ IH]; [done|].
  cbn [List.filter]. apply String.eqb_neq in Hne. by rewrite Hne, IH.
Qed.

(** The path [translate_path] makes of a target that names the plain
    names [n1], ..., [nk]: these names below the directory of the
    handler, and a slash if the target ends with one. *)
Lemma translate_path_names `{Runtime} (self : handler) (target : string)
    (names : list string) :
  directory_path (directory self) -> Forall plain names ->
  names_path (urllib.unquote (target_path target)) names ->
  SimpleHTTPRequestHandler.translate_path self target
  = below (directory self) names
    ++ (if Str.endswith "/" (Str.rstrip (target_path target)) then "/" else "").
Proof.
  intros Hd Hn Hu. unfold SimpleHTTPRequestHandler.translate_path. cbv zeta.
  change (Str.before "#" (Str.before "?" target)) with (target_path target).
  rewrite (normpath_names _ _ Hn Hu).
  assert (List.filter (fun w => negb (String.eqb w ""))
            (Str.split "/" (absolute names)) = names) as ->.
  { destruct names as [|n names]; [reflexivity|].
    rewrite absolute_below by done. unfold below. rewrite append_nil_l.
    rewrite split_below by done.
    change (List.filter (fun w => negb (String.eqb w "")) ("" :: n :: names))
      with (List.filter (fun w => negb (String.eqb w "")) (n :: names)).
    by apply filter_plain. }
  pose proof (translate_words_plain (directory self) [] names
                (or_introl Hd) (List.Forall_nil _) Hn) as Ht.
  rewrite below_nil in Ht. rewrite Ht. cbn [app].
  destruct (Str.endswith _ _); [done|by rewrite append_nil_r].
Qed.

(** ** [main]: interrupt while serving *)

Lemma with_TCPServer_serving_raised `{Runtime} (env : environment) port p e :
  first_fault env 14 e ->
  with_TCPServer env port p =
    (emit Close
       (TCPServer.serve_forever MyHTTPRequestHandler.handle
          (fs env) (requests env)
          (prints (banner port) (emit (Bind port true) p))),
     Raised e).
Proof.
  intros [Hf Hnone]. unfold with_TCPServer. rewrite (Hnone 0%nat) by lia.
  rewrite with_body_banner, run_body_prints
    by (intros m Hm; apply Hnone; rewrite banner_length in Hm; lia).
  rewrite banner_length. cbn [run_body Nat.add]. by rewrite Hf.
Qed.

(** C4: when [serve_forever] is the first statement to raise and raises
    [KeyboardInterrupt], the process has bound the socket, printed the
    banner and served the requests that arrived; it then closes the
    server, prints the message of the [except] clause (two empty lines
    and the words that say that the server is stopped) and exits with
    status 0.  Standard output is the banner followed by that message. *)
Theorem interrupt_while_serving_exits_zero `{Runtime} (env : environment) :
  first_fault env 14 KeyboardInterrupt ->
  main env =
    (print (Str.NL ++ Str.NL ++ "👋 Сервер остановлен")
       (emit Close
          (TCPServer.serve_forever MyHTTPRequestHandler.handle
             (fs env) (requests env)
             (prints (banner PORT) (emit (Bind PORT true) (started env))))),
     Exited 0) /\
  printed (trace (fst (main env))) =
    (banner PORT ++ [(Str.NL ++ Str.NL ++ "👋 Сервер остановлен")%string])%list /\
  stdout (trace (fst (main env))) =
    Str.join (map (fun text => text ++ Str.NL) (banner PORT))
    ++ Str.NL ++ Str.NL ++ "👋 Сервер остановлен" ++ Str.NL.
Proof.
  intros Hff. rewrite main_unfold, (with_TCPServer_serving_raised _ _ _ _ Hff).
  split; [reflexivity|]. cbn [fst].
  assert (printed
            (trace
               (print shutdown_message
                  (emit Close
                     (TCPServer.serve_forever MyHTTPRequestHandler.handle
                        (fs env) (requests env)
                        (prints (banner PORT)
                           (emit (Bind PORT true) (started env)))))))
          = (banner PORT
             ++ [(Str.NL ++ Str.NL ++ "👋 Сервер остановлен")%string])%list)
    as Hpr.
  { unfold print.
    rewrite !printed_emit, printed_serve_forever, printed_prints, printed_emit.
    rewrite printed_started, !app_nil_r. reflexivity. }
  split; [exact Hpr|]. unfold stdout. rewrite Hpr.
  rewrite map_app, join_app. cbn [map Str.join foldr].
  rewrite append_nil_r. f_equal.
Qed.

Lemma interrupt_while_serving_exits_zero_witness :
  let env := Examples.demo_env
               (fun n => if Nat.eqb n 14 then Some KeyboardInterrupt else None)
               [Examples.get "/stage8-vfs-demo.html" "HTTP/1.1" []] in
  main env =
    (print (Str.NL ++ Str.NL ++ "👋 Сервер остановлен")
       (emit Close
          (TCPServer.serve_forever MyHTTPRequestHandler.handle
             (fs env) (requests env)
             (prints (banner PORT) (emit (Bind PORT true) (started env))))),
     Exited 0) /\
  printed (trace (fst (main env))) =
    (banner PORT ++ [(Str.NL ++ Str.NL ++ "👋 Сервер остановлен")%string])%list /\
  stdout (trace (fst (main env))) =
    Str.join (map (fun text => text ++ Str.NL) (banner PORT))
    ++ Str.NL ++ Str.NL ++ "👋 Сервер остановлен" ++ Str.NL.
Proof.
  apply (interrupt_while_serving_exits_zero
           (Examples.demo_env
              (fun n => if Nat.eqb n 14 then Some KeyboardInterrupt else None)
              [Examples.get "/stage8-vfs-demo.html" "HTTP/1.1" []])).
  split; [reflexivity|].
  intros m Hm. do 14 (destruct m as [|m]; [reflexivity|]). lia.
Defined.

(** ** The server root *)

Section Root.
Context `{Runtime}.
Variables (fs0 : filesystem) (root : string).

Lemma root_invariant_emit (e : event) (p : process) :
  rooted fs0 root e -> root_invariant fs0 root p ->
  root_invariant fs0 root (emit e p).
Proof.
  intros He (Hcwd & t & Ht & Hall). split; [done|].
  exists (t ++ [e])%list. cbn. rewrite Ht. split; [done|].
  by apply Forall_snoc.
Qed.

Lemma root_invariant_prints (texts : list string) (p : process) :
  root_invariant fs0 root p -> root_invariant fs0 root (prints texts p).
Proof.
  revert p. induction texts as [|text texts IH]; intros p Hp; [done|].
  cbn. apply IH. by apply root_invariant_emit.
Qed.

Lemma root_invariant_serve_forever (rs : list request) (p : process) :
  root_invariant fs0 root p ->
  root_invariant fs0 root
    (TCPServer.serve_forever MyHTTPRequestHandler.handle fs0 rs p).
Proof.
  revert p. induction rs as [|r rs IH]; intros p Hp; [done|].
  cbn. apply IH. unfold TCPServer.finish_request.
  apply root_invariant_emit; [|done].
  destruct Hp as [Hcwd _]. cbn. rewrite Hcwd. done.
Qed.

Lemma root_invariant_run_body (env : environment) (body : list stmt) n p :
  fs env = fs0 ->
  root_invariant fs0 root p ->
  root_invariant fs0 root (fst (run_body env n body p)).
Proof.
  intros Hfs. revert n p. induction body as [|s body IH]; intros n p Hp; [done|].
  cbn. destruct s as [text|].
  - destruct (fault env n); [done|].
    apply IH. by apply root_invariant_emit.
  - cbn. rewrite Hfs. by apply root_invariant_serve_forever.
Qed.

Lemma root_invariant_with_TCPServer (env : environment) port p :
  fs env = fs0 ->
  root_invariant fs0 root p ->
  root_invariant fs0 root (fst (with_TCPServer env port p)).
Proof.
  intros Hfs Hp. unfold with_TCPServer. destruct (fault env 0%nat).
  - cbn. by repeat apply root_invariant_emit.
  - pose proof (root_invariant_run_body env (with_body port) 1
                  (emit (Bind port true) p) Hfs) as Hrun.
    destruct (run_body env 1 (with_body port) (emit (Bind port true) p))
      as [p' r].
    cbn in Hrun.
    assert (root_invariant fs0 root p') as Hp'
      by by apply Hrun, root_invariant_emit.
    destruct r; cbn; try done; by apply root_invariant_emit.
Qed.

End Root.

Lemma root_invariant_main `{Runtime} (env : environment) :
  root_invariant (fs env) (script_directory env) (fst (main env)).
Proof.
  rewrite main_unfold.
  pose proof (root_invariant_with_TCPServer (fs env) (script_directory env)
                env PORT (started env) eq_refl) as Hw.
  destruct (with_TCPServer env PORT (started env)) as [p r].
  cbn in Hw.
  assert (root_invariant (fs env) (script_directory env) p) as Hp.
  { apply Hw. split; [done|]. exists []. by split. }
  destruct r as [|status|[|errno|name]|]; cbn [fst]; try done.
  - by apply root_invariant_emit.
  - destruct (errno_is_address_in_use errno); cbn [fst]; [|done].
    by apply root_invariant_prints.
Qed.

(** The directory [main] changes to, for a script that lies in the
    directory [/d1/.../dn]. *)
Lemma script_directory_absolute (env : environment) (dir : list string)
    (name : string) :
  script_in env dir name -> script_directory env = absolute dir.
Proof.
  intros (Hne & Hplain & [Hs|(start & rel & -> & Hcwd & Hs)]);
    unfold script_directory; rewrite Hs.
  - rewrite abspath_absolute by done. by apply dirname_absolute.
  - rewrite Hcwd. rewrite <- app_assoc in Hplain.
    apply Forall_app in Hplain as [Hstart Hrel].
    rewrite abspath_relative; [|done|done|by destruct rel].
    rewrite app_assoc. apply dirname_absolute.
    rewrite <- app_assoc. by apply Forall_app.
Qed.



(** ** Requests that [parse_request] accepts *)

Section Parsed.
Context `{Runtime}.
Import BaseHTTPRequestHandler SimpleHTTPRequestHandler.

Lemma parse_headers_fields (r : request) (self : handler)
    (fields : list (string * string)) :
  req_headers r = Headers fields ->
  close_connection self = true ->
  parse_headers MyHTTPRequestHandler.end_headers r self
  = Some (set_headers fields self, true).
Proof.
  intros Hh Hc. unfold parse_headers. rewrite Hh. cbv zeta.
  rewrite protocol_version_old, !andb_false_r, ?andb_false_l.
  destruct (String.eqb _ "close"); [|done].
  destruct self. cbn in Hc. by rewrite Hc.
Qed.

Lemma parse_request_asks (root : string) (r : request) (command target : string)
    (version : option string) (fields : list (string * string)) :
  asks r command target version fields ->
  MyHTTPRequestHandler.parse_request r
    (set_close_connection true (TCPServer.new_handler root r))
  = Some (parsed_handler root r command target (default "HTTP/0.9" version) fields,
          true).
Proof.
  intros (_ & Hh & Hw).
  unfold MyHTTPRequestHandler.parse_request, parse_request. cbv zeta.
  rewrite words_rstrip_crlf.
  destruct version as [v|]; destruct Hw as [Hw Hv]; rewrite Hw.
  - rewrite parse_version_cases.
    apply version_word_iff in Hv as (_ & base & number & Hn & Hge).
    change (Nat.eqb (length [command; target; v]) 0) with false.
    change (Nat.leb 3 (length [command; target; v])) with true.
    change (default "" (last [command; target; v])) with v.
    cbv iota. rewrite Hn, Hge.
    cbn [mbind option_bind negb]. unfold parse_words.
    change (Nat.leb 2 (length [command; target; v])) with true.
    change (Nat.leb (length [command; target; v]) 3) with true.
    change (Nat.eqb (length [command; target; v]) 2) with false.
    cbn [andb negb mbind option_bind].
    rewrite (parse_headers_fields _ _ fields Hh)
      by (by destruct (Str.startswith _ _)).
    unfold parsed_handler, self_path, Str.startswith. cbn.
    by destruct (String.prefix "//" target).
  - rewrite parse_version_cases.
    change (Nat.eqb (length [command; target]) 0) with false.
    change (Nat.leb 3 (length [command; target])) with false.
    cbn [mbind option_bind negb]. unfold parse_words.
    change (Nat.leb 2 (length [command; target])) with true.
    change (Nat.leb (length [command; target]) 3) with true.
    change (Nat.eqb (length [command; target]) 2) with true.
    cbn [andb negb]. cbv zeta. rewrite Hv.
    cbn [String.eqb Ascii.eqb Bool.eqb negb mbind option_bind].
    rewrite (parse_headers_fields _ _ fields Hh)
      by (by destruct (Str.startswith _ _)).
    unfold parsed_handler, self_path, Str.startswith. cbn.
    by destruct (String.prefix "//" target).
Qed.

(** A request that [parse_request] accepts is handled by the method of
    its command, on the handler that [parse_request] leaves. *)
Lemma handle_asks (fs : filesystem) (root : string) (r : request)
    (command target : string) (version : option string)
    (fields : list (string * string)) :
  asks r command target version fields ->
  MyHTTPRequestHandler.handle fs r (TCPServer.new_handler root r)
  = MyHTTPRequestHandler.dispatch fs
      (parsed_handler root r command target (default "HTTP/0.9" version) fields).
Proof.
  intros Ha. rewrite handle_once.
  pose proof (parse_request_asks root r _ _ _ _ Ha) as Hp.
  destruct Ha as (Hlen & _ & Hw).
  unfold MyHTTPRequestHandler.handle_one_request, handle_one_request.
  assert (Z.ltb 65536 (Z.of_nat (String.length (req_line r))) = false) as ->
    by (apply Z.ltb_ge; lia).
  assert (String.eqb (req_line r) "" = false) as ->.
  { apply String.eqb_neq. intros He. rewrite He in Hw.
    by destruct version; destruct Hw as [Hw _]. }
  unfold MyHTTPRequestHandler.parse_request in Hp. rewrite Hp. reflexivity.
Qed.

Lemma is_http09_asks (root : string) (r : request) (command target : string)
    (version : option string) (fields : list (string * string)) :
  asks r command target version fields ->
  is_http09 (parsed_handler root r command target (default "HTTP/0.9" version) fields)
  = match version with Some _ => false | None => true end.
Proof.
  intros (_ & _ & Hw). destruct version as [v|]; [|reflexivity].
  destruct Hw as [_ [Hne _]]. by apply String.eqb_neq.
Qed.

End Parsed.

(** ** Serving an existing file *)

Section ExistingFile.
Context `{Runtime}.
Import BaseHTTPRequestHandler SimpleHTTPRequestHandler.

(** The test that sends 304, in the words of the specification. *)
Lemma not_modified_unchanged (self : handler) (f : file) :
  datetime.fromtimestamp (st_mtime f) <> None ->
  (unchanged_since (headers self) f -> not_modified self f = Some true) /\
  (~ unchanged_since (headers self) f -> not_modified self f = Some false).
Proof.
  intros Hrep. unfold not_modified, headers_contains, unchanged_since.
  destruct (datetime.fromtimestamp (st_mtime f)) as [t'|] eqn:Hft; [|done].
  apply fromtimestamp_some in Hft as ->.
  destruct (headers_get "If-Modified-Since" (headers self)) as [value|];
    [|split; [by intros (? & ? & ? & ? & _)|done]].
  destruct (headers_get "If-None-Match" (headers self)) as [etag|];
    [split; [by intros (? & ? & ? & _ & ? & _)|done]|].
  cbn [andb negb mbind option_bind].
  destruct (parsedate_to_datetime value) as [[tz t]|] eqn:Hdate;
    [|split; [intros (? & ? & ? & [= <-] & _ & ? & _); congruence|done]].
  assert (forall b : bool,
            (b = true <-> st_mtime f <= t) ->
            (tz <> TzOther) ->
            ((exists value0 tz0 t0,
                Some value = Some value0 /\ None = (None : option string) /\
                parsedate_to_datetime value0 = Some (tz0, t0) /\
                tz0 <> TzOther /\ st_mtime f <= t0) -> Some b = Some true) /\
            (~ (exists value0 tz0 t0,
                Some value = Some value0 /\ None = (None : option string) /\
                parsedate_to_datetime value0 = Some (tz0, t0) /\
                tz0 <> TzOther /\ st_mtime f <= t0) -> Some b = Some false))
    as Hcase.
  { intros b Hb Htz. split.
    - intros (v0 & tz0 & t0 & [= <-] & _ & Hd & _ & Hle).
      rewrite Hdate in Hd. injection Hd as <- <-. f_equal. by apply Hb.
    - intros Hno. destruct b; [|done]. exfalso. apply Hno.
      exists value, tz, t. repeat split; try done. by apply Hb. }
  destruct tz; cbn [mbind option_bind].
  - apply Hcase; [apply Z.leb_le|done].
  - apply Hcase; [apply Z.leb_le|done].
  - split; [|done].
    intros (v0 & tz0 & t0 & [= <-] & _ & Hd & Htz & _).
    rewrite Hdate in Hd. by injection Hd as <- <-.
Qed.

(** [send_file] for a file that can be opened. *)
Lemma send_file_found (fs : filesystem) (self : handler) (p : string) (f : file) :
  Str.endswith "/" p = false ->
  open_rb fs p = Opened f ->
  datetime.fromtimestamp (st_mtime f) <> None ->
  not_modified self f = Some false ->
  exists self',
    send_file MyHTTPRequestHandler.end_headers fs self p
      = Some (self', Some (content f)) /\
    if is_http09 self then self' = self
    else responded self self' 200 (default "" (fst <$> responses 200))
           (file_fields p f (clock self)) "".
Proof.
  intros Hslash Hopen Hrep Hnm. unfold send_file.
  rewrite Hslash, Hopen, Hnm. cbn [mbind option_bind]. cbv zeta.
  unfold date_time_string.
  destruct (datetime.fromtimestamp (st_mtime f)) as [t'|]; [|done].
  cbn [mbind option_bind].
  destruct (is_http09 self) eqn:H09.
  - rewrite send_response_http09 by exact H09.
    rewrite !(send_header_http09 self) by first [exact H09 | reflexivity].
    rewrite end_headers_http09 by exact H09.
    cbn [mbind option_bind]. by exists self.
  - pose proof (send_response_built self 200 None H09) as Hb.
    eapply (send_header_built _ _ _ _ _ "Content-type" _ H09) in Hb.
    eapply (send_header_built _ _ _ _ _ "Content-Length" _ H09) in Hb.
    eapply (send_header_built _ _ _ _ _ "Last-Modified" _ H09) in Hb.
    destruct (end_headers_built _ _ _ _ _ H09 Hb) as (self2 & Heh & Hc & Hr).
    rewrite Heh. cbn [mbind option_bind]. by exists self2.
Qed.

(** [send_file] for a file that has not changed since the date of the
    request. *)
Lemma send_file_unchanged (fs : filesystem) (self : handler) (p : string)
    (f : file) :
  Str.endswith "/" p = false ->
  open_rb fs p = Opened f ->
  not_modified self f = Some true ->
  exists self',
    send_file MyHTTPRequestHandler.end_headers fs self p = Some (self', None) /\
    if is_http09 self then self' = self
    else responded self self' 304 (default "" (fst <$> responses 304))
           [("Server", version_string); ("Date", formatdate (clock self))] "".
Proof.
  intros Hslash Hopen Hnm. unfold send_file.
  rewrite Hslash, Hopen, Hnm. cbn [mbind option_bind]. cbv zeta.
  destruct (is_http09 self) eqn:H09.
  - rewrite send_response_http09 by exact H09.
    rewrite end_headers_http09 by exact H09.
    cbn [mbind option_bind]. by exists self.
  - pose proof (send_response_built self 304 None H09) as Hb.
    destruct (end_headers_built _ _ _ _ _ H09 Hb) as (self2 & Heh & Hc & Hr).
    rewrite Heh. cbn [mbind option_bind]. by exists self2.
Qed.

(** [send_head] for a path that is not a directory. *)
Lemma send_head_file (fs : filesystem) (self : handler) :
  isdir fs (translate_path self (path self)) = false ->
  MyHTTPRequestHandler.send_head fs self
  = send_file MyHTTPRequestHandler.end_headers fs self
      (translate_path self (path self)).
Proof.
  intros Hdir. unfold MyHTTPRequestHandler.send_head, send_head, self_path.
  cbv zeta. by rewrite Hdir.
Qed.

Lemma dispatch_GET (fs : filesystem) (self : handler) :
  command self = "GET" ->
  MyHTTPRequestHandler.dispatch fs self
  = '(s, f) ← MyHTTPRequestHandler.send_head fs self;
    Some match f with
         | Some bytes => set_wfile (wfile s ++ bytes) s
         | None => s
         end.
Proof.
  intros Hc. unfold MyHTTPRequestHandler.dispatch, dispatch. by rewrite Hc.
Qed.

Lemma dispatch_HEAD (fs : filesystem) (self : handler) :
  command self = "HEAD" ->
  MyHTTPRequestHandler.dispatch fs self
  = '(s, _) ← MyHTTPRequestHandler.send_head fs self; Some s.
Proof.
  intros Hc. unfold MyHTTPRequestHandler.dispatch, dispatch. by rewrite Hc.
Qed.

(** The path of the file that a request for the plain names [n1], ...,
    [nk] addresses. *)
Lemma translate_path_parsed (root : string) (r : request)
    (command target version : string) (fields : list (string * string))
    (names : list string) :
  Str.startswith "//" target = false ->
  directory_path root -> Forall plain names ->
  names_path (urllib.unquote (target_path target)) names ->
  translate_path (parsed_handler root r command target version fields)
    (path (parsed_handler root r command target version fields))
  = below root names
    ++ (if Str.endswith "/" (Str.rstrip (target_path target)) then "/" else "").
Proof.
  intros Hs Hd Hn Hu. unfold parsed_handler at 2. cbn [path]. rewrite Hs.
  by apply (translate_path_names (parsed_handler root r command target version fields)).
Qed.

End ExistingFile.

(** C8, as stated, fails: a GET for an existing file that carries an
    [If-Modified-Since] date not earlier than the modification time of
    the file is answered with status 304 and no body. *)
Lemma conditional_get_is_not_modified :
  let r := Examples.get "/stage8-vfs-demo.html" "HTTP/1.1"
             [("If-Modified-Since", "Thu, 01 Jan 2026 00:00:00 GMT")] in
  isdir Examples.demo_fs (below "/srv/demo" ["stage8-vfs-demo.html"]) = false /\
  open_rb Examples.demo_fs (below "/srv/demo" ["stage8-vfs-demo.html"])
    = Opened Examples.demo_file /\
  exists self',
    MyHTTPRequestHandler.handle Examples.demo_fs r
      (TCPServer.new_handler "/srv/demo" r) = Some self' /\
    wfile self' =
      response_bytes 304 "Not Modified"
        ([("Server", "SimpleHTTP/0.6 Python/3.11.2");
          ("Date", "Thu, 01 Jan 2026 00:00:00 GMT")] ++ fixed_headers)%list "" /\
    ~ Str.occurs_in (content Examples.demo_file) (wfile self').
Proof.
  split; [reflexivity|]. split; [reflexivity|].
  eexists. split; [vm_compute; reflexivity|].
  split; [reflexivity|].
  intros Hin. apply contains_spec in Hin. vm_compute in Hin. discriminate Hin.
Qed.

(** C8 (amended): a request [GET target], with a version word or (as
    HTTP/0.9) without, whose target names the plain names [n1], ..., [nk]
    and does not end with a slash, where [root/n1/.../nk] is not a
    directory and can be opened, is answered with the bytes of that file,
    unchanged, unless the condition of an [If-Modified-Since] field holds.
    With a version word the bytes follow the status line 200, the fields
    of the base behaviour for the file, the three fixed fields and the
    blank line; without, they are the whole response.  When the condition
    holds, the response is 304 with the fixed fields and no body, and
    nothing at all for HTTP/0.9. *)
Theorem existing_file_is_served_unchanged
    `{Runtime} (fs : filesystem) (root : string) (r : request) (target : string)
    (version : option string) (fields : list (string * string))
    (names : list string) (f : file) :
  asks r "GET" target version fields ->
  Str.startswith "//" target = false ->
  directory_path root -> names <> [] -> Forall plain names ->
  urllib.unquote (target_path target) = absolute names ->
  Str.endswith "/" (Str.rstrip (target_path target)) = false ->
  isdir fs (below root names) = false ->
  open_rb fs (below root names) = Opened f ->
  datetime.fromtimestamp (st_mtime f) <> None ->
  (~ unchanged_since fields f ->
   answered fs root r
     match version with
     | Some _ =>
         response_bytes 200 (default "" (fst <$> responses 200))
           (file_fields (below root names) f (req_time r) ++ fixed_headers)%list
           (content f)
     | None => content f
     end) /\
  (unchanged_since fields f ->
   answered fs root r
     match version with
     | Some _ =>
         response_bytes 304 (default "" (fst <$> responses 304))
           ([("Server", version_string); ("Date", formatdate (req_time r))]
            ++ fixed_headers)%list ""
     | None => ""
     end).
Proof.
  intros Ha Hs Hd Hne Hn Hu Hslash Hdir Hopen Hrep.
  set (self := parsed_handler root r "GET" target (default "HTTP/0.9" version)
                 fields).
  assert (SimpleHTTPRequestHandler.translate_path self (path self)
          = below root names) as Hp.
  { unfold self. rewrite (translate_path_parsed root r _ _ _ _ names Hs Hd Hn)
      by by left.
    by rewrite Hslash, append_nil_r. }
  assert (Str.endswith "/" (below root names) = false) as Hend
    by (apply below_no_slash; auto).
  pose proof (is_http09_asks root r _ _ _ _ Ha) as H09. fold self in H09.
  destruct (not_modified_unchanged self f Hrep) as [Hyes Hno].
  unfold answered. rewrite (handle_asks fs root r _ _ _ _ Ha). fold self.
  rewrite dispatch_GET by reflexivity.
  rewrite send_head_file by (by rewrite Hp). rewrite Hp.
  split; intros Hcond.
  - destruct (send_file_found fs self _ f Hend Hopen Hrep (Hno Hcond))
      as (self' & -> & Hr).
    cbn [mbind option_bind]. eexists. split; [reflexivity|].
    rewrite H09 in Hr. destruct version as [v|].
    + apply (responded_body _ _ _ _ _ _ (content f)) in Hr. exact Hr.
    + by rewrite Hr.
  - destruct (send_file_unchanged fs self _ f Hend Hopen (Hyes Hcond))
      as (self' & -> & Hr).
    cbn [mbind option_bind]. eexists. split; [reflexivity|].
    rewrite H09 in Hr. destruct version as [v|].
    + exact Hr.
    + by rewrite Hr.
Qed.

Lemma existing_file_is_served_unchanged_witness :
  let r := Examples.get "/stage8-vfs-demo.html" "HTTP/1.1" [] in
  (~ unchanged_since [] Examples.demo_file ->
   answered Examples.demo_fs "/srv/demo" r
     match Some "HTTP/1.1" with
     | Some _ =>
         response_bytes 200 (default "" (fst <$> responses 200))
           (file_fields (below "/srv/demo" ["stage8-vfs-demo.html"])
              Examples.demo_file (req_time r) ++ fixed_headers)%list
           (content Examples.demo_file)
     | None => content Examples.demo_file
     end) /\
  (unchanged_since [] Examples.demo_file ->
   answered Examples.demo_fs "/srv/demo" r
     match Some "HTTP/1.1" with
     | Some _ =>
         response_bytes 304 (default "" (fst <$> responses 304))
           ([("Server", version_string); ("Date", formatdate (req_time r))]
            ++ fixed_headers)%list ""
     | None => ""
     end).
Proof.
  apply (existing_file_is_served_unchanged Examples.demo_fs "/srv/demo"
           (Examples.get "/stage8-vfs-demo.html" "HTTP/1.1" [])
           "/stage8-vfs-demo.html" (Some "HTTP/1.1") []
           ["stage8-vfs-demo.html"] Examples.demo_file).
  - split; [by vm_compute|]. split; [reflexivity|].
    split; [vm_compute; reflexivity|]. split; [discriminate|].
    exists 1, 1. split; [|left; lia].
    exists "1", "1". by repeat split.
  - reflexivity.
  - split; [discriminate|reflexivity].
  - discriminate.
  - repeat constructor; discriminate.
  - vm_compute. reflexivity.
  - vm_compute. reflexivity.
  - reflexivity.
  - reflexivity.
  - discriminate.
Defined.

(** ** The runs of [main] in full *)

Lemma scan_faults_some (env : environment) (n k i : nat) (e : exception) :
  scan_faults env n k = Some (i, e) ->
  (n <= i < n + k)%nat /\ fault env i = Some e /\
  forall m, (n <= m < i)%nat -> fault env m = None.
Proof.
  revert n. induction k as [|k IH]; intros n; [done|].
  cbn. destruct (fault env n) as [e'|] eqn:Hn.
  - intros [= <- <-]. split; [lia|]. split; [done|]. intros m Hm. lia.
  - intros Hs. apply IH in Hs as (Hi & Hf & Hnone).
    split; [lia|]. split; [done|]. intros m Hm.
    destruct (decide (m = n)) as [->|Hne]; [done|]. apply Hnone. lia.
Qed.

Lemma scan_faults_none (env : environment) (n k : nat) :
  scan_faults env n k = None ->
  forall m, (n <= m < n + k)%nat -> fault env m = None.
Proof.
  revert n. induction k as [|k IH]; intros n; [intros _ m Hm; lia|].
  cbn. destruct (fault env n) as [e'|] eqn:Hn; [done|].
  intros Hs m Hm. destruct (decide (m = n)) as [->|Hne]; [done|].
  apply (IH _ Hs). lia.
Qed.

Lemma first_raise_some (env : environment) (i : nat) (e : exception) :
  first_raise env = Some (i, e) -> (i <= 14)%nat /\ first_fault env i e.
Proof.
  intros Hs. apply scan_faults_some in Hs as (Hi & Hf & Hnone).
  split; [lia|]. split; [done|]. intros m Hm. apply Hnone. lia.
Qed.

Lemma first_raise_none (env : environment) :
  first_raise env = None -> forall m, (m <= 14)%nat -> fault env m = None.
Proof. intros Hs m Hm. apply (scan_faults_none _ _ _ Hs). lia. Qed.

Lemma first_fault_first_raise (env : environment) (i : nat) (e : exception) :
  (i <= 14)%nat -> first_fault env i e -> first_raise env = Some (i, e).
Proof.
  intros Hi [Hf Hnone].
  destruct (first_raise env) as [[j e']|] eqn:Hr.
  - apply first_raise_some in Hr as (Hj & Hf' & Hnone').
    destruct (Nat.lt_trichotomy i j) as [Hlt|[->|Hgt]].
    + rewrite (Hnone' i Hlt) in Hf. discriminate Hf.
    + congruence.
    + rewrite (Hnone j Hgt) in Hf'. discriminate Hf'.
  - rewrite (first_raise_none _ Hr i Hi) in Hf. discriminate Hf.
Qed.

Lemma trace_emit (e : event) (p : process) :
  trace (emit e p) = (trace p ++ [e])%list.
Proof. reflexivity. Qed.

Lemma trace_prints (texts : list string) (p : process) :
  trace (prints texts p) = (trace p ++ map Print texts)%list.
Proof.
  revert p. induction texts as [|t texts IH]; intros p.
  - cbn. by rewrite app_nil_r.
  - cbn [prints fold_left map]. unfold prints in IH. rewrite IH.
    unfold print. by rewrite trace_emit, <- app_assoc.
Qed.

Lemma trace_serve_forever `{Runtime} (fs0 : filesystem) (rs : list request)
    (p : process) :
  trace (TCPServer.serve_forever MyHTTPRequestHandler.handle fs0 rs p)
  = (trace p ++ served fs0 (cwd p) rs)%list.
Proof.
  revert p. induction rs as [|r rs IH]; intros p.
  - cbn. by rewrite app_nil_r.
  - cbn [TCPServer.serve_forever fold_left served map].
    unfold TCPServer.serve_forever in IH. rewrite IH.
    unfold TCPServer.finish_request. rewrite trace_emit, <- app_assoc.
    reflexivity.
Qed.

(** The [with] statement when one of the [print] calls is the first to
    raise. *)
Lemma with_TCPServer_print_raised `{Runtime} (env : environment) port p i e :
  (1 <= i <= 13)%nat ->
  first_fault env i e ->
  with_TCPServer env port p =
    (emit Close (prints (take (i - 1) (banner port)) (emit (Bind port true) p)),
     Raised e).
Proof.
  intros Hi [Hf Hnone]. unfold with_TCPServer. rewrite (Hnone 0%nat) by lia.
  rewrite with_body_banner.
  destruct (lookup_lt_is_Some_2 (banner port) (i - 1)) as [t Ht].
  { rewrite banner_length. lia. }
  replace (map SPrint (banner port))
    with (map SPrint (take (i - 1) (banner port)
                      ++ t :: drop (S (i - 1)) (banner port)))
    by (by rewrite (take_drop_middle _ _ _ Ht)).
  assert (length (take (i - 1) (banner port)) = (i - 1)%nat) as Hlen.
  { rewrite length_take, banner_length. lia. }
  rewrite map_app, <- app_assoc, run_body_prints
    by (intros m Hm; apply Hnone; rewrite Hlen in Hm; lia).
  rewrite Hlen. replace (1 + (i - 1))%nat with i by lia.
  cbn [map app run_body]. by rewrite Hf.
Qed.

(** The [with] statement when nothing raises. *)
Lemma with_TCPServer_serving `{Runtime} (env : environment) port p :
  (forall m, (m <= 14)%nat -> fault env m = None) ->
  with_TCPServer env port p =
    (TCPServer.serve_forever MyHTTPRequestHandler.handle
       (fs env) (requests env)
       (prints (banner port) (emit (Bind port true) p)),
     Serving).
Proof.
  intros Hnone. unfold with_TCPServer. rewrite (Hnone 0%nat) by lia.
  rewrite with_body_banner, run_body_prints
    by (intros m Hm; apply Hnone; rewrite banner_length in Hm; lia).
  rewrite banner_length. cbn [run_body Nat.add]. by rewrite (Hnone 14%nat).
Qed.

(** The two [except] clauses and the exceptions they let through. *)
Lemma main_clauses `{Runtime} (env : environment) (p : process) (e : exception) :
  with_TCPServer env PORT (started env) = (p, Raised e) ->
  main env = (prints (clause_prints e) p, clause_result e).
Proof.
  intros Hw. rewrite main_unfold, Hw.
  destruct e as [|errno|name]; [reflexivity| |reflexivity].
  cbn [clause_prints clause_result].
  by destruct (errno_is_address_in_use errno).
Qed.

Lemma trace_started `{Runtime} (env : environment) :
  trace (started env) = [Chdir (script_directory env)].
Proof. reflexivity. Qed.

Lemma cwd_started `{Runtime} (env : environment) :
  cwd (started env) = script_directory env.
Proof. reflexivity. Qed.

(** Every run of [main], event by event: the change of directory, then
    what [run_events] reads off the first statement that raises; and the
    way the run ends. *)
Lemma main_run `{Runtime} (env : environment) :
  trace (fst (main env)) = Chdir (script_directory env) :: run_events env /\
  snd (main env) = run_result env.
Proof.
  unfold run_events, run_result.
  destruct (first_raise env) as [[i e]|] eqn:Hr.
  - apply first_raise_some in Hr as [Hi Hff].
    destruct i as [|j].
    + destruct Hff as [Hf _].
      rewrite (main_clauses env _ e (main_constructor_fails env e Hf)).
      cbn [fst snd]. split; [|reflexivity].
      by rewrite trace_prints, !trace_emit, trace_started.
    + destruct (decide (S j = 14%nat)) as [Heq|Hne].
      * rewrite Heq in *.
        rewrite (main_clauses env _ e (with_TCPServer_serving_raised _ _ _ _ Hff)).
        cbn [fst snd Nat.eqb]. split; [|reflexivity].
        rewrite trace_prints, trace_emit, trace_serve_forever, trace_prints,
          trace_emit, trace_started, cwd_prints.
        cbn [emit cwd]. rewrite cwd_started.
        change (take (14 - 1) (banner PORT)) with (banner PORT).
        by rewrite <- !app_assoc.
      * assert (1 <= S j <= 13)%nat as Hrange by lia.
        rewrite (main_clauses env _ e
                   (with_TCPServer_print_raised _ _ _ _ _ Hrange Hff)).
        cbn [fst snd]. split; [|reflexivity].
        rewrite trace_prints, trace_emit, trace_prints, trace_emit, trace_started.
        replace (Nat.eqb (S j) 14) with false
          by (symmetry; by apply Nat.eqb_neq).
        by rewrite <- !app_assoc.
  - pose proof (first_raise_none _ Hr) as Hnone.
    rewrite main_unfold, (with_TCPServer_serving _ _ _ Hnone).
    cbn [fst snd]. split; [|reflexivity].
    rewrite trace_serve_forever, trace_prints, trace_emit, trace_started,
      cwd_prints.
    cbn [emit cwd]. rewrite cwd_started. by rewrite <- !app_assoc.
Qed.

(** ** What every run of [main] does and never does *)

Lemma first_raise_none_intro (env : environment) :
  (forall m, (m <= 14)%nat -> fault env m = None) -> first_raise env = None.
Proof.
  intros Hnone. destruct (first_raise env) as [[i e]|] eqn:Hr; [|done].
  apply first_raise_some in Hr as (Hi & Hf & _).
  rewrite (Hnone i Hi) in Hf. discriminate Hf.
Qed.

(** When no statement of the [try] block raises, [main] changes to the
    directory of the script, binds the socket once, prints the thirteen
    banner lines and serves the requests in the order they arrive; the
    server is never closed and the run does not end. *)
Theorem main_serves_when_nothing_raises `{Runtime} (env : environment) :
  (forall m, (m <= 14)%nat -> fault env m = None) ->
  trace (fst (main env)) =
    Chdir (script_directory env) :: Bind PORT true
    :: (map Print (banner PORT)
        ++ served (fs env) (script_directory env) (requests env))%list /\
  snd (main env) = Serving.
Proof.
  intros Hnone. destruct (main_run env) as [Ht Hr].
  unfold run_events in Ht. unfold run_result in Hr.
  by rewrite (first_raise_none_intro _ Hnone) in Ht, Hr.
Qed.

Lemma main_serves_when_nothing_raises_witness :
  let env := Examples.demo_env (fun _ => None)
               [Examples.get "/stage8-vfs-demo.html" "HTTP/1.1" []] in
  trace (fst (main env)) =
    Chdir (script_directory env) :: Bind PORT true
    :: (map Print (banner PORT)
        ++ served (fs env) (script_directory env) (requests env))%list /\
  snd (main env) = Serving.
Proof.
  apply (main_serves_when_nothing_raises
           (Examples.demo_env (fun _ => None)
              [Examples.get "/stage8-vfs-demo.html" "HTTP/1.1" []])).
  intros m Hm. reflexivity.
Defined.

Lemma bind_attempts_app (t1 t2 : list event) :
  bind_attempts (t1 ++ t2) = (bind_attempts t1 + bind_attempts t2)%nat.
Proof. unfold bind_attempts. by rewrite List.filter_app, length_app. Qed.

Lemma bind_attempts_prints (texts : list string) :
  bind_attempts (map Print texts) = 0%nat.
Proof. induction texts as [|t texts IH]; [done|]. exact IH. Qed.

Lemma bind_attempts_served `{Runtime} fs0 root (rs : list request) :
  bind_attempts (served fs0 root rs) = 0%nat.
Proof. induction rs as [|r rs IH]; [done|]. exact IH. Qed.

(** [main] never retries: whatever the statements of the [try] block
    raise, and whatever happens after, a run holds exactly one attempt to
    bind the listening socket. *)
Theorem main_binds_exactly_once `{Runtime} (env : environment) :
  bind_attempts (trace (fst (main env))) = 1%nat.
Proof.
  destruct (main_run env) as [-> _]. unfold run_events.
  change (Chdir ?d :: ?t) with ([Chdir d] ++ t)%list.
  rewrite bind_attempts_app.
  destruct (first_raise env) as [[[|j] e]|].
  - change (Bind PORT false :: Close :: ?t)
      with ([Bind PORT false; Close] ++ t)%list.
    by rewrite bind_attempts_app, bind_attempts_prints.
  - change (Bind PORT true :: ?t) with ([Bind PORT true] ++ t)%list.
    change (Close :: ?t) with ([Close] ++ t)%list.
    rewrite !bind_attempts_app, !bind_attempts_prints.
    destruct (Nat.eqb (S j) 14); by rewrite ?bind_attempts_served.
  - change (Bind PORT true :: ?t) with ([Bind PORT true] ++ t)%list.
    by rewrite !bind_attempts_app, bind_attempts_prints, bind_attempts_served.
Qed.

(** An exception that is neither [KeyboardInterrupt] nor [OSError]
    passes both [except] clauses: it leaves [main] as it was raised, after
    the [with] statement closed the server, and nothing is printed beyond
    the banner lines that were already out. *)
Theorem other_exception_propagates
    `{Runtime} (env : environment) (i : nat) (name : string) :
  (i <= 14)%nat ->
  first_fault env i (OtherException name) ->
  snd (main env) = Raised (OtherException name) /\
  printed (trace (fst (main env))) = take (i - 1) (banner PORT) /\
  last (trace (fst (main env))) = Some Close.
Proof.
  intros Hi Hff.
  destruct (with_TCPServer_raised env PORT i _ (started env) Hi Hff)
    as (p' & Hw & _ & Hpr & Hlast).
  rewrite (main_clauses env p' _ Hw). cbn [fst snd clause_prints clause_result].
  rewrite printed_started in Hpr. by cbn [app] in Hpr.
Qed.

Lemma other_exception_propagates_witness :
  let env := Examples.demo_env
               (fun n => if Nat.eqb n 2
                         then Some (OtherException "UnicodeEncodeError")
                         else None) [] in
  snd (main env) = Raised (OtherException "UnicodeEncodeError") /\
  printed (trace (fst (main env))) = take (2 - 1) (banner PORT) /\
  last (trace (fst (main env))) = Some Close.
Proof.
  apply (other_exception_propagates
           (Examples.demo_env
              (fun n => if Nat.eqb n 2
                        then Some (OtherException "UnicodeEncodeError")
                        else None) [])
           2%nat "UnicodeEncodeError").
  - lia.
  - split; [reflexivity|].
    intros m Hm. do 2 (destruct m as [|m]; [reflexivity|]). lia.
Defined.


Lemma printed_map_Print (texts : list string) : printed (map Print texts) = texts.
Proof.
  unfold printed. induction texts as [|t texts IH]; [done|]. cbn. by rewrite IH.
Qed.

Lemma printed_served `{Runtime} fs0 root (rs : list request) :
  printed (served fs0 root rs) = [].
Proof. induction rs as [|r rs IH]; [done|]. exact IH. Qed.

Lemma printed_app (t1 t2 : list event) :
  printed (t1 ++ t2) = (printed t1 ++ printed t2)%list.
Proof. unfold printed. apply omap_app. Qed.

Lemma no_serve_map_Print (texts : list string) :
  Forall (fun e => is_serve e = false) (map Print texts).
Proof. induction texts; by constructor. Qed.

Lemma not_in_close_map_Print (texts : list string) : ~ In Close (map Print texts).
Proof. intros Hin. apply in_map_iff in Hin as (t & Ht & _). discriminate Ht. Qed.

Lemma not_in_close_served `{Runtime} fs0 root (rs : list request) :
  ~ In Close (served fs0 root rs).
Proof. intros Hin. apply in_map_iff in Hin as (t & Ht & _). discriminate Ht. Qed.

Lemma clause_result_not_serving (e : exception) : clause_result e <> Serving.
Proof.
  destruct e as [|errno|name]; cbn; try discriminate.
  destruct (errno_is_address_in_use errno); discriminate.
Qed.

Lemma printed_cons_Print (text : string) (t : list event) :
  printed (Print text :: t) = text :: printed t.
Proof. reflexivity. Qed.

(** What the [except] clauses print, text by text. *)
Lemma clause_prints_texts (e : exception) :
  clause_prints e =
    match e with
    | KeyboardInterrupt => [(Str.NL ++ Str.NL ++ "👋 Сервер остановлен")%string]
    | OSError errno =>
        if errno_is_address_in_use errno then port_in_use_messages PORT else []
    | OtherException _ => []
    end.
Proof. by destruct e. Qed.

(** The [with] statement releases the socket on every way out: a run
    that is still serving has not closed the server; a run that ended
    was ended by the first statement of the [try] block that raised, it
    has closed the server exactly once, before the close it has printed
    the banner lines of the statements that came before that statement
    and nothing else, and after the close it only prints, namely the
    texts of the [except] clause for the exception: no request is served
    after the close. *)
Theorem server_closed_exactly_when_main_ends `{Runtime} (env : environment) :
  (snd (main env) = Serving -> ~ In Close (trace (fst (main env)))) /\
  (snd (main env) <> Serving ->
   exists before i e,
     (i <= 14)%nat /\ first_fault env i e /\
     trace (fst (main env)) =
       (before ++ Close
        :: map Print
             match e with
             | KeyboardInterrupt =>
                 [(Str.NL ++ Str.NL ++ "👋 Сервер остановлен")%string]
             | OSError errno =>
                 if errno_is_address_in_use errno
                 then port_in_use_messages PORT else []
             | OtherException _ => []
             end)%list /\
     ~ In Close before /\
     printed before = take (i - 1) (banner PORT) /\
     bind_attempts before = 1%nat).
Proof.
  destruct (main_run env) as [-> ->]. unfold run_events, run_result.
  destruct (first_raise env) as [[i e]|] eqn:Hr.
  - pose proof (first_raise_some _ _ _ Hr) as [Hi Hff].
    split; [intros He; by apply clause_result_not_serving in He|].
    intros _. destruct i as [|j].
    + exists [Chdir (script_directory env); Bind PORT false], 0%nat, e.
      split; [done|]. split; [done|].
      split; [by rewrite <- clause_prints_texts|].
      split; [|by split]. intros [Hin|[Hin|[]]]; discriminate Hin.
    + exists (Chdir (script_directory env) :: Bind PORT true
              :: map Print (take (S j - 1) (banner PORT))
              ++ (if Nat.eqb (S j) 14
                  then served (fs env) (script_directory env) (requests env)
                  else []))%list, (S j), e.
      split; [done|]. split; [done|].
      split; [rewrite <- clause_prints_texts; cbn [app]; by rewrite <- app_assoc|].
      split; [|split].
      * intros [Hin|[Hin|Hin]]; [discriminate Hin..|].
        apply in_app_iff in Hin as [Hin|Hin].
        -- by apply not_in_close_map_Print in Hin.
        -- destruct (Nat.eqb (S j) 14); [|done].
           by apply not_in_close_served in Hin.
      * change (printed (Chdir ?d :: Bind ?p ?o :: ?t)) with (printed t).
        rewrite printed_app, printed_map_Print.
        destruct (Nat.eqb (S j) 14);
          by rewrite ?printed_served, app_nil_r.
      * change (Chdir ?d :: Bind ?p ?o :: ?t)
          with ([Chdir d; Bind p o] ++ t)%list.
        rewrite !bind_attempts_app, bind_attempts_prints.
        destruct (Nat.eqb (S j) 14); by rewrite ?bind_attempts_served.
  - split; [|done]. intros _ [Hin|[Hin|Hin]]; [discriminate Hin..|].
    apply in_app_iff in Hin as [Hin|Hin].
    + by apply not_in_close_map_Print in Hin.
    + by apply not_in_close_served in Hin.
Qed.

Lemma server_closed_exactly_when_main_ends_witness :
  let env := Examples.demo_env
               (fun n => if Nat.eqb n 14 then Some KeyboardInterrupt else None)
               [Examples.get "/stage8-vfs-demo.html" "HTTP/1.1" []] in
  snd (main env) <> Serving /\
  exists before i e,
    (i <= 14)%nat /\ first_fault env i e /\
    trace (fst (main env)) =
      (before ++ Close
       :: map Print
            match e with
            | KeyboardInterrupt =>
                [(Str.NL ++ Str.NL ++ "👋 Сервер остановлен")%string]
            | OSError errno =>
                if errno_is_address_in_use errno
                then port_in_use_messages PORT else []
            | OtherException _ => []
            end)%list /\
    ~ In Close before /\
    printed before = take (i - 1) (banner PORT) /\
    bind_attempts before = 1%nat.
Proof.
  assert (snd (main (Examples.demo_env
                       (fun n => if Nat.eqb n 14 then Some KeyboardInterrupt
                                 else None)
                       [Examples.get "/stage8-vfs-demo.html" "HTTP/1.1" []]))
          <> Serving) as Hne by (vm_compute; discriminate).
  split; [exact Hne|].
  exact (proj2 (server_closed_exactly_when_main_ends
                  (Examples.demo_env
                     (fun n => if Nat.eqb n 14 then Some KeyboardInterrupt
                               else None)
                     [Examples.get "/stage8-vfs-demo.html" "HTTP/1.1" []]))
           Hne).
Defined.

Lemma split_middle {A} (P : A -> bool) (a s b t1 t2 : list A) (x : A) :
  (a ++ s ++ b = t1 ++ x :: t2)%list ->
  Forall (fun y => P y = false) a ->
  Forall (fun y => P y = false) b ->
  P x = true ->
  exists s1 s2, t1 = (a ++ s1)%list /\ s = (s1 ++ x :: s2)%list.
Proof.
  intros Heq Ha Hb Hx.
  assert (forall l, Forall (fun y => P y = false) l -> ~ x ∈ l) as Hnot.
  { intros l Hl Hin. rewrite Forall_forall in Hl. apply Hl in Hin. congruence. }
  assert (forall k, (s ++ b = k ++ x :: t2)%list ->
            exists s2, s = (k ++ x :: s2)%list) as Hs.
  { intros k Hk. apply app_eq_inv in Hk as [(k' & -> & Hk')|(k' & -> & Hk')].
    - destruct k' as [|y k'].
      + exfalso. apply (Hnot b Hb). cbn in Hk'. subst b. left.
      + cbn in Hk'. injection Hk' as <- _. eauto.
    - exfalso. apply (Hnot b Hb). subst b. apply elem_of_app. right. left. }
  apply app_eq_inv in Heq as [(k & -> & Hk)|(k & -> & Hk)].
  - destruct k as [|y k].
    + cbn in Hk. destruct (Hs [] (eq_sym Hk)) as [s2 ->]. exists [], s2.
      by rewrite !app_nil_r.
    + cbn in Hk. injection Hk as <- _. exfalso. apply (Hnot _ Ha).
      apply elem_of_app. right. left.
  - destruct (Hs k Hk) as [s2 ->]. eauto.
Qed.

(** The events of a run, cut into what comes before the service, the
    service and what comes after. *)
Ltac no_serve :=
  repeat first
    [ apply no_serve_map_Print
    | apply Forall_app; split
    | apply Forall_cons; split; [reflexivity|]
    | apply Forall_nil ].

Lemma main_trace_shape `{Runtime} (env : environment) :
  exists a s b,
    trace (fst (main env)) = (a ++ s ++ b)%list /\
    Forall (fun e => is_serve e = false) a /\
    Forall (fun e => is_serve e = false) b /\
    (s = [] \/
     (a = Chdir (script_directory env) :: Bind PORT true :: map Print (banner PORT)
      /\ s = served (fs env) (script_directory env) (requests env))).
Proof.
  destruct (main_run env) as [-> _]. unfold run_events.
  destruct (first_raise env) as [[[|j] e]|] eqn:Hr.
  - exists (Chdir (script_directory env) :: Bind PORT false :: Close
            :: map Print (clause_prints e)), [], [].
    split; [by rewrite !app_nil_r|]. split; [|split; [constructor|by left]].
    no_serve.
  - destruct (Nat.eqb (S j) 14) eqn:H14.
    + apply Nat.eqb_eq in H14. rewrite H14.
      exists (Chdir (script_directory env) :: Bind PORT true
              :: map Print (banner PORT)),
        (served (fs env) (script_directory env) (requests env)),
        (Close :: map Print (clause_prints e)).
      split; [reflexivity|]. split; [|split; [|by right]].
      * no_serve.
      * no_serve.
    + exists (Chdir (script_directory env) :: Bind PORT true
              :: map Print (take (S j - 1) (banner PORT))
              ++ Close :: map Print (clause_prints e))%list, [], [].
      split; [by rewrite !app_nil_r|]. split; [|split; [constructor|by left]].
      no_serve.
  - exists (Chdir (script_directory env) :: Bind PORT true
            :: map Print (banner PORT)),
      (served (fs env) (script_directory env) (requests env)), [].
    split; [by rewrite app_nil_r|]. split; [|split; [constructor|by right]].
    no_serve.
Qed.

(** The server announces itself before it serves: whenever a request is
    served, the socket has been bound with success and the banner has
    been printed in full, and nothing else has been printed. *)
Theorem banner_precedes_service
    `{Runtime} (env : environment) (t1 t2 : list event)
    (dir : string) (r : request) (response : string) :
  trace (fst (main env)) = (t1 ++ Serve dir r response :: t2)%list ->
  In (Bind PORT true) t1 /\ printed t1 = banner PORT.
Proof.
  intros Ht. destruct (main_trace_shape env) as (a & s & b & Hshape & Ha & Hb & Hs).
  rewrite Hshape in Ht.
  destruct (split_middle is_serve _ _ _ _ _ _ Ht Ha Hb eq_refl)
    as (s1 & s2 & -> & Hs12).
  destruct Hs as [->|[-> ->]]; [by destruct s1|].
  split; [right; by left|].
  rewrite printed_app. cbn [printed omap]. 
  change (printed (Chdir ?d :: Bind ?p ?o :: ?t)) with (printed t).
  rewrite printed_map_Print.
  pose proof (printed_served (fs env) (script_directory env) (requests env))
    as Hnone.
  rewrite Hs12, printed_app in Hnone. apply app_nil in Hnone as [-> _].
  by rewrite app_nil_r.
Qed.

Lemma banner_precedes_service_witness :
  let env := Examples.demo_env (fun _ => None)
               [Examples.get "/stage8-vfs-demo.html" "HTTP/1.1" []] in
  In (Bind PORT true)
     (Chdir (script_directory env) :: Bind PORT true :: map Print (banner PORT)) /\
  printed (Chdir (script_directory env) :: Bind PORT true
           :: map Print (banner PORT)) = banner PORT.
Proof.
  apply (banner_precedes_service
           (Examples.demo_env (fun _ => None)
              [Examples.get "/stage8-vfs-demo.html" "HTTP/1.1" []])
           (Chdir (script_directory
                     (Examples.demo_env (fun _ => None)
                        [Examples.get "/stage8-vfs-demo.html" "HTTP/1.1" []]))
            :: Bind PORT true :: map Print (banner PORT))
           []
           "/srv/demo"
           (Examples.get "/stage8-vfs-demo.html" "HTTP/1.1" [])
           (response_of Examples.demo_fs "/srv/demo"
              (Examples.get "/stage8-vfs-demo.html" "HTTP/1.1" []))).
  vm_compute. reflexivity.
Defined.


(** ** The override changes a response by the three fixed lines only *)

Section Pairing.
Context `{Runtime}.
Import BaseHTTPRequestHandler SimpleHTTPRequestHandler.

Lemma base_end_headers_built (self self1 : handler) code message fields :
  is_http09 self = false ->
  head_built self self1 code message fields ->
  BaseHTTPRequestHandler.end_headers self1 =
    Some (set_headers_buffer (Some [])
            (set_wfile
               (wfile self1 ++ Str.join (buffered self1 ++ [Str.CRLF])%list)
               self1)).
Proof.
  intros H09 (Hd & Hc & Hp & Hv & Hh & Ht & Hw & Hb).
  assert (is_http09 self1 = false) as H1.
  { unfold is_http09 in *. by rewrite Hv. }
  unfold BaseHTTPRequestHandler.end_headers. rewrite H1. cbn [negb].
  destruct self1 as [d1 c1 p1 v1 hs1 [buf1|] w1 cc1 t1]; [reflexivity|].
  unfold buffered in Hb. cbn in Hb.
  destruct (default [] (headers_buffer self)); discriminate Hb.
Qed.

Lemma base_responded_body (self self2 : handler) code message fields body more :
  base_responded self self2 code message fields body ->
  base_responded self (set_wfile (wfile self2 ++ more) self2) code message fields
    (body ++ more).
Proof.
  unfold base_responded, response_bytes. cbn. intros ->.
  by rewrite !append_assoc.
Qed.

(** The two [end_headers] on the same built head. *)
Lemma end_headers_pair (self self1 : handler) code message fields :
  is_http09 self = false ->
  head_built self self1 code message fields ->
  exists b s,
    BaseHTTPRequestHandler.end_headers self1 = Some b /\
    MyHTTPRequestHandler.end_headers self1 = Some s /\
    command b = command s /\
    set_wfile "" b = set_wfile "" s /\
    base_responded self b code message fields "" /\
    responded self s code message fields "".
Proof.
  intros H09 Hb.
  destruct (end_headers_built _ _ _ _ _ H09 Hb) as (s & Hs & _ & Hr).
  pose proof Hs as Hs'.
  rewrite end_headers_not_http09 in Hs'.
  2:{ destruct Hb as (_ & _ & _ & Hv & _). unfold is_http09 in *. by rewrite Hv. }
  injection Hs' as <-.
  rewrite (base_end_headers_built _ _ _ _ _ H09 Hb).
  eexists _, _. split; [reflexivity|]. split; [exact Hs|].
  split; [reflexivity|]. split; [reflexivity|]. split; [|exact Hr].
  destruct Hb as (_ & _ & _ & _ & _ & _ & Hw & Hbuf).
  unfold base_responded, response_bytes.
  change (wfile (set_headers_buffer ?b (set_wfile ?w ?h))) with w.
  rewrite Hw, Hbuf, append_nil_r. f_equal. rewrite <- join_app. f_equal.
  by rewrite <- !app_assoc.
Qed.

Lemma set_wfile_set_wfile (w1 w2 : string) (h : handler) :
  set_wfile w1 (set_wfile w2 h) = set_wfile w1 h.
Proof. reflexivity. Qed.

Lemma end_headers_then_paired (self self1 : handler) code message fields
    (body : string) (g : string -> bool) :
  is_http09 self = false ->
  head_built self self1 code message fields ->
  paired self
    (x ← BaseHTTPRequestHandler.end_headers self1;
     Some (if g (command x) then set_wfile (wfile x ++ body) x else x))
    (x ← MyHTTPRequestHandler.end_headers self1;
     Some (if g (command x) then set_wfile (wfile x ++ body) x else x)).
Proof.
  intros H09 Hb.
  destruct (end_headers_pair _ _ _ _ _ H09 Hb)
    as (b & s & -> & -> & Hc & Hsame & Hrb & Hrs).
  cbn [mbind option_bind]. rewrite Hc. unfold paired. destruct (g (command s)).
  - exists (set_wfile (wfile s ++ body) s), code, message, fields, ("" ++ body).
    split; [reflexivity|].
    split; [by rewrite !set_wfile_set_wfile|].
    split; [by apply base_responded_body|by apply responded_body].
  - by exists s, code, message, fields, "".
Qed.

Lemma end_headers_head_paired (self self1 : handler) code message fields
    (f : option string) :
  is_http09 self = false ->
  head_built self self1 code message fields ->
  paired_head self
    (x ← BaseHTTPRequestHandler.end_headers self1; Some (x, f))
    (x ← MyHTTPRequestHandler.end_headers self1; Some (x, f)).
Proof.
  intros H09 Hb.
  destruct (end_headers_pair _ _ _ _ _ H09 Hb)
    as (b & s & -> & -> & Hc & Hsame & Hrb & Hrs).
  cbn [mbind option_bind]. unfold paired_head.
  by exists s, code, message, fields, "".
Qed.

Lemma send_error_paired (self : handler) code message explain :
  is_http09 self = false ->
  paired self
    (send_error BaseHTTPRequestHandler.end_headers self code message explain)
    (send_error MyHTTPRequestHandler.end_headers self code message explain).
Proof.
  intros H09. unfold send_error.
  destruct (default ("???", "???") (responses code)) as [shortmsg longmsg].
  cbv zeta.
  pose proof (send_response_built self code (Some (default shortmsg message)) H09)
    as Hb.
  apply (send_header_built _ _ _ _ _ "Connection" "close" H09) in Hb.
  destruct (Z.leb 200 code
            && negb (Z.eqb code 204 || Z.eqb code 205 || Z.eqb code 304))%bool.
  - apply (send_header_built _ _ _ _ _ "Content-Type" "text/html;charset=utf-8"
             H09) in Hb.
    eapply (send_header_built _ _ _ _ _ "Content-Length" _ H09) in Hb.
    exact (end_headers_then_paired _ _ _ _ _ _
             (fun c => negb (String.eqb c "HEAD") && negb (String.eqb _ ""))
             H09 Hb).
  - exact (end_headers_then_paired _ _ _ _ _ _
             (fun c => negb (String.eqb c "HEAD") && negb (String.eqb "" ""))
             H09 Hb).
Qed.

Lemma paired_as_head (self : handler) (rb rs : option handler) :
  paired self rb rs ->
  paired_head self (x ← rb; Some (x, None)) (x ← rs; Some (x, None)).
Proof.
  destruct rb as [b|]; [|by intros ->].
  intros (s & code & message & base & body & -> & Hsame & Hrb & Hrs).
  cbn [mbind option_bind]. unfold paired_head.
  by exists s, code, message, base, body.
Qed.

Lemma send_file_paired (fs : filesystem) (self : handler) (p : string) :
  is_http09 self = false ->
  paired_head self
    (send_file BaseHTTPRequestHandler.end_headers fs self p)
    (send_file MyHTTPRequestHandler.end_headers fs self p).
Proof.
  intros H09. unfold send_file. cbv zeta.
  pose proof (send_error_paired self 404 (Some "File not found") None H09) as He.
  apply paired_as_head in He.
  destruct (Str.endswith "/" p); [exact He|].
  destruct (open_rb fs p) as [f| |]; [|exact He|done].
  destruct (not_modified self f) as [[|]|]; cbn [mbind option_bind]; [| |done].
  - pose proof (send_response_built self 304 None H09) as Hb.
    exact (end_headers_head_paired _ _ _ _ _ None H09 Hb).
  - destruct (date_time_string (st_mtime f)) as [lm|]; cbn [mbind option_bind];
      [|done].
    pose proof (send_response_built self 200 None H09) as Hb.
    eapply (send_header_built _ _ _ _ _ "Content-type" _ H09) in Hb.
    eapply (send_header_built _ _ _ _ _ "Content-Length" _ H09) in Hb.
    eapply (send_header_built _ _ _ _ _ "Last-Modified" _ H09) in Hb.
    exact (end_headers_head_paired _ _ _ _ _ (Some (content f)) H09 Hb).
Qed.

Lemma list_directory_paired (fs : filesystem) (self : handler) (p : string) :
  is_http09 self = false ->
  paired_head self
    (list_directory BaseHTTPRequestHandler.end_headers fs self p)
    (list_directory MyHTTPRequestHandler.end_headers fs self p).
Proof.
  intros H09. unfold list_directory.
  destruct (listdir fs p) as [names|].
  - cbv zeta.
    destruct (listing_page _ _) as [encoded|]; cbn [mbind option_bind]; [|done].
    pose proof (send_response_built self 200 None H09) as Hb.
    eapply (send_header_built _ _ _ _ _ "Content-type" _ H09) in Hb.
    eapply (send_header_built _ _ _ _ _ "Content-Length" _ H09) in Hb.
    exact (end_headers_head_paired _ _ _ _ _ (Some _) H09 Hb).
  - apply paired_as_head, send_error_paired, H09.
Qed.

Lemma send_head_paired (fs : filesystem) (self : handler) :
  is_http09 self = false ->
  paired_head self
    (send_head BaseHTTPRequestHandler.end_headers fs self)
    (send_head MyHTTPRequestHandler.end_headers fs self).
Proof.
  intros H09. unfold send_head. cbv zeta.
  destruct (isdir fs _); [|by apply send_file_paired].
  destruct (urlsplit_path _) as [parts_path|]; cbn [mbind option_bind]; [|done].
  destruct (negb _).
  - pose proof (send_response_built self 301 None H09) as Hb.
    eapply (send_header_built _ _ _ _ _ "Location" _ H09) in Hb.
    eapply (send_header_built _ _ _ _ _ "Content-Length" "0" H09) in Hb.
    exact (end_headers_head_paired _ _ _ _ _ None H09 Hb).
  - destruct (isfile fs _); [by apply send_file_paired|].
    destruct (isfile fs _); [by apply send_file_paired|].
    by apply list_directory_paired.
Qed.

Lemma dispatch_paired (fs : filesystem) (self : handler) :
  is_http09 self = false ->
  paired self
    (dispatch BaseHTTPRequestHandler.end_headers fs self)
    (dispatch MyHTTPRequestHandler.end_headers fs self).
Proof.
  intros H09. unfold dispatch.
  pose proof (send_head_paired fs self H09) as Hp.
  destruct (String.eqb (command self) "GET").
  - unfold do_GET.
    destruct (send_head BaseHTTPRequestHandler.end_headers fs self)
      as [[b f]|]; [|by rewrite Hp].
    destruct Hp as (s & code & message & base & body & -> & Hsame & Hrb & Hrs).
    cbn [mbind option_bind]. unfold paired. destruct f as [bytes|].
    + exists (set_wfile (wfile s ++ bytes) s), code, message, base, (body ++ bytes).
      split; [reflexivity|].
      split; [by rewrite !set_wfile_set_wfile|].
      split; [by apply base_responded_body|by apply responded_body].
    + by exists s, code, message, base, body.
  - destruct (String.eqb (command self) "HEAD").
    + unfold do_HEAD.
      destruct (send_head BaseHTTPRequestHandler.end_headers fs self)
        as [[b f]|]; [|by rewrite Hp].
      destruct Hp as (s & code & message & base & body & -> & Hsame & Hrb & Hrs).
      cbn [mbind option_bind]. unfold paired.
      by exists s, code, message, base, body.
    + apply send_error_paired, H09.
Qed.

End Pairing.

Section Http09.
Context `{Runtime}.
Import BaseHTTPRequestHandler SimpleHTTPRequestHandler.

Lemma is_http09_send_header (self : handler) (k v : string) :
  is_http09 (send_header self k v) = is_http09 self.
Proof. unfold send_header. by repeat case_match. Qed.

Lemma is_http09_send_response (self : handler) code message :
  is_http09 (send_response self code message) = is_http09 self.
Proof.
  unfold send_response. cbv zeta. rewrite !is_http09_send_header.
  unfold send_response_only. by repeat case_match.
Qed.

(** For an HTTP/0.9 request the override is the base method. *)
Lemma end_headers_agree_http09 (self : handler) :
  is_http09 self = true ->
  BaseHTTPRequestHandler.end_headers self = MyHTTPRequestHandler.end_headers self.
Proof.
  intros H09. rewrite end_headers_http09 by exact H09.
  unfold BaseHTTPRequestHandler.end_headers. by rewrite H09.
Qed.

Ltac agree_http09 H09 :=
  rewrite end_headers_agree_http09
    by (rewrite ?is_http09_send_header, ?is_http09_send_response; exact H09).

Lemma send_error_agree_http09 (self : handler) code message explain :
  is_http09 self = true ->
  send_error BaseHTTPRequestHandler.end_headers self code message explain
  = send_error MyHTTPRequestHandler.end_headers self code message explain.
Proof.
  intros H09. unfold send_error.
  destruct (default ("???", "???") (responses code)) as [shortmsg longmsg].
  cbv zeta.
  destruct (Z.leb 200 code
            && negb (Z.eqb code 204 || Z.eqb code 205 || Z.eqb code 304))%bool;
    by agree_http09 H09.
Qed.

Lemma send_file_agree_http09 (fs : filesystem) (self : handler) (p : string) :
  is_http09 self = true ->
  send_file BaseHTTPRequestHandler.end_headers fs self p
  = send_file MyHTTPRequestHandler.end_headers fs self p.
Proof.
  intros H09. unfold send_file. cbv zeta.
  rewrite (send_error_agree_http09 self) by exact H09.
  destruct (Str.endswith "/" p); [reflexivity|].
  destruct (open_rb fs p) as [f| |]; [|reflexivity..].
  destruct (not_modified self f) as [[|]|]; cbn [mbind option_bind];
    [by agree_http09 H09| |done].
  destruct (date_time_string _); cbn [mbind option_bind]; [|done].
  by agree_http09 H09.
Qed.

Lemma list_directory_agree_http09 (fs : filesystem) (self : handler) (p : string) :
  is_http09 self = true ->
  list_directory BaseHTTPRequestHandler.end_headers fs self p
  = list_directory MyHTTPRequestHandler.end_headers fs self p.
Proof.
  intros H09. unfold list_directory.
  destruct (listdir fs p) as [names|].
  - cbv zeta. destruct (listing_page _ _); cbn [mbind option_bind]; [|done].
    by agree_http09 H09.
  - by rewrite (send_error_agree_http09 self) by exact H09.
Qed.

Lemma send_head_agree_http09 (fs : filesystem) (self : handler) :
  is_http09 self = true ->
  send_head BaseHTTPRequestHandler.end_headers fs self
  = send_head MyHTTPRequestHandler.end_headers fs self.
Proof.
  intros H09. unfold send_head. cbv zeta.
  destruct (isdir fs _); [|by apply send_file_agree_http09].
  destruct (urlsplit_path _); cbn [mbind option_bind]; [|done].
  destruct (negb _); [by agree_http09 H09|].
  destruct (isfile fs _); [by apply send_file_agree_http09|].
  destruct (isfile fs _); [by apply send_file_agree_http09|].
  by apply list_directory_agree_http09.
Qed.

Lemma dispatch_agree_http09 (fs : filesystem) (self : handler) :
  is_http09 self = true ->
  dispatch BaseHTTPRequestHandler.end_headers fs self
  = dispatch MyHTTPRequestHandler.end_headers fs self.
Proof.
  intros H09. unfold dispatch, do_GET, do_HEAD.
  by rewrite send_head_agree_http09, (send_error_agree_http09 self) by exact H09.
Qed.

End Http09.

(** ** The override on whole connections *)

Section Akin.
Context `{Runtime}.
Import BaseHTTPRequestHandler SimpleHTTPRequestHandler.

Lemma paired_transport (s1 s2 : handler) (rb rs : option handler) :
  wfile s1 = wfile s2 ->
  headers_buffer s1 = headers_buffer s2 ->
  paired s1 rb rs -> paired s2 rb rs.
Proof.
  intros Hw Hb. unfold paired, base_responded, responded, buffered.
  destruct rb as [b|]; [|done].
  intros (s & code & message & base & body & Hs & Hsame & Hrb & Hrs).
  exists s, code, message, base, body. by rewrite <- Hw, <- Hb.
Qed.

Lemma akin_transport (s1 s2 : handler) (rb rs : option handler) :
  wfile s1 = wfile s2 ->
  headers_buffer s1 = headers_buffer s2 ->
  request_version s1 = request_version s2 ->
  akin (negb (is_http09 s1)) s1 rb rs ->
  akin (negb (is_http09 s2)) s2 rb rs.
Proof.
  intros Hw Hb Hv. unfold is_http09. rewrite Hv.
  destruct (negb _); [|done]. by apply paired_transport.
Qed.

Lemma send_error_akin (self : handler) code message explain :
  akin (negb (is_http09 self)) self
    (send_error BaseHTTPRequestHandler.end_headers self code message explain)
    (send_error MyHTTPRequestHandler.end_headers self code message explain).
Proof.
  destruct (is_http09 self) eqn:H09; cbn [negb akin].
  - by apply send_error_agree_http09.
  - by apply send_error_paired.
Qed.

Lemma dispatch_akin (fs : filesystem) (self : handler) :
  akin (negb (is_http09 self)) self
    (dispatch BaseHTTPRequestHandler.end_headers fs self)
    (dispatch MyHTTPRequestHandler.end_headers fs self).
Proof.
  destruct (is_http09 self) eqn:H09; cbn [negb akin].
  - by apply dispatch_agree_http09.
  - by apply dispatch_paired.
Qed.

Lemma then_dispatch_with_reject eh (fs : filesystem) (self : handler)
    code message explain :
  then_dispatch_with eh fs (reject eh self code message explain)
  = send_error eh self code message explain.
Proof.
  unfold then_dispatch_with, reject.
  by destruct (send_error eh self code message explain).
Qed.

Lemma bind_reject_with eh (fs : filesystem) (self : handler) code message explain
    (k : handler -> option (handler * bool)) :
  then_dispatch_with eh fs
    ('(s, ok) ← reject eh self code message explain;
     if negb ok then Some (s, false) else k s)
  = send_error eh self code message explain.
Proof.
  unfold then_dispatch_with, reject.
  by destruct (send_error eh self code message explain).
Qed.

Lemma parse_headers_akin (fs : filesystem) (r : request) (self : handler) :
  akin (negb (is_http09 self)) self
    (then_dispatch_with BaseHTTPRequestHandler.end_headers fs
       (parse_headers BaseHTTPRequestHandler.end_headers r self))
    (then_dispatch_with MyHTTPRequestHandler.end_headers fs
       (parse_headers MyHTTPRequestHandler.end_headers r self)).
Proof.
  unfold parse_headers.
  destruct (req_headers r) as [fields|err|err];
    [|rewrite !then_dispatch_with_reject; apply send_error_akin..].
  cbv zeta. rewrite protocol_version_old, !andb_false_r, ?andb_false_l.
  set (self1 := set_headers fields self).
  unfold then_dispatch_with. cbn [mbind option_bind].
  destruct (String.eqb (Str.lower _) "close").
  - apply (akin_transport (set_close_connection true self1) self);
      [reflexivity..|]. apply dispatch_akin.
  - apply (akin_transport self1 self); [reflexivity..|].
    apply dispatch_akin.
Qed.

Lemma parse_words_akin (fs : filesystem) (line : string) (words : list string)
    (r : request) (self : handler) :
  akin (negb (is_http09 self)) self
    (then_dispatch_with BaseHTTPRequestHandler.end_headers fs
       (parse_words BaseHTTPRequestHandler.end_headers line words r self))
    (then_dispatch_with MyHTTPRequestHandler.end_headers fs
       (parse_words MyHTTPRequestHandler.end_headers line words r self)).
Proof.
  unfold parse_words.
  destruct (negb (Nat.leb 2 _ && _)) eqn:Hlen;
    [rewrite !then_dispatch_with_reject; apply send_error_akin|].
  destruct words as [|command [|path rest]];
    [by destruct (negb (is_http09 self))..|].
  destruct (Nat.eqb _ 2).
  - cbv zeta. destruct (negb (String.eqb command "GET")).
    + rewrite !bind_reject_with.
      apply (akin_transport (set_close_connection true self) self);
        [reflexivity..|]. apply send_error_akin.
    + cbn [mbind option_bind negb].
      match goal with
      | |- akin _ _ (then_dispatch_with _ _ (parse_headers _ _ ?s)) _ =>
          apply (akin_transport s self);
            [by destruct (Str.startswith _ _)..|]
      end.
      apply parse_headers_akin.
  - cbn [mbind option_bind negb].
    match goal with
    | |- akin _ _ (then_dispatch_with _ _ (parse_headers _ _ ?s)) _ =>
        apply (akin_transport s self);
          [by destruct (Str.startswith _ _)..|]
    end.
    apply parse_headers_akin.
Qed.

Lemma akin_on_bare (line : string) (self : handler) (rb rs : option handler) :
  ~ gets_head line -> rb = rs -> akin_on line self rb rs.
Proof. intros Hno ->. by split. Qed.

Lemma akin_on_head (line : string) (self s : handler) (rb rs : option handler) :
  gets_head line ->
  wfile s = wfile self ->
  headers_buffer s = headers_buffer self ->
  paired s rb rs ->
  akin_on line self rb rs.
Proof.
  intros Hyes Hw Hb Hp. split; [|done]. intros _.
  by apply (paired_transport s self).
Qed.

(** [parse_request] followed by the call of the method, in the two
    classes. *)
Lemma serve_akin (fs : filesystem) (r : request) (self : handler) :
  Z.ltb 65536 (Z.of_nat (String.length (req_line r))) = false ->
  akin_on (req_line r) self
    (then_dispatch_with BaseHTTPRequestHandler.end_headers fs
       (parse_request BaseHTTPRequestHandler.end_headers r self))
    (then_dispatch_with MyHTTPRequestHandler.end_headers fs
       (parse_request MyHTTPRequestHandler.end_headers r self)).
Proof.
  intros Hlen. unfold parse_request. cbv zeta.
  rewrite words_rstrip_crlf.
  set (s0 := set_close_connection true
               (set_request_version default_request_version
                  (set_command "" self))).
  set (ws := Str.words (req_line r)).
  assert (is_http09 s0 = true) as H0 by reflexivity.
  destruct (Nat.eqb (length ws) 0) eqn:Hnil.
  { apply akin_on_bare; [|reflexivity].
    apply not_gets_head; [exact Hlen|]. fold ws.
    apply Nat.eqb_eq in Hnil. lia. }
  rewrite !parse_version_cases.
  destruct (Nat.leb 3 (length ws)) eqn:H3.
  - destruct (version_number (default "" (last ws))) as [[base number]|] eqn:Hv.
    + destruct (pair_ge number (2, 0)) eqn:Hge.
      * rewrite !bind_reject_with.
        apply akin_on_bare; [|by apply send_error_agree_http09].
        apply not_gets_head; [exact Hlen|]. fold ws. intros [_ Hw].
        apply version_word_iff in Hw as (_ & base' & number' & Hv' & Hge').
        congruence.
      * cbn [mbind option_bind negb].
        set (version := default "" (last ws)) in *.
        set (s1 := set_request_version version s0).
        pose proof (parse_words_akin fs
                      (Str.rstrip_chars Str.CRLF (req_line r)) ws r s1) as Hr.
        destruct (is_http09 s1) eqn:H1; cbn [negb akin] in Hr.
        -- apply akin_on_bare; [|exact Hr].
           apply not_gets_head; [exact Hlen|]. fold ws. intros [_ [Hne _]].
           apply String.eqb_eq in H1. done.
        -- apply (akin_on_head _ self s1); [|reflexivity..|exact Hr].
           right. apply versioned_iff. fold ws. split; [by apply Nat.leb_le|].
           apply version_word_iff. split; [by apply String.eqb_neq in H1|].
           by exists base, number.
    + rewrite !bind_reject_with.
      apply akin_on_bare; [|by apply send_error_agree_http09].
      apply not_gets_head; [exact Hlen|]. fold ws. intros [_ Hw].
      apply version_word_iff in Hw as (_ & base' & number' & Hv' & Hge').
      fold ws in Hv'. congruence.
  - cbn [mbind option_bind negb].
    pose proof (parse_words_akin fs
                  (Str.rstrip_chars Str.CRLF (req_line r)) ws r s0) as Hr.
    rewrite H0 in Hr. cbn [negb akin] in Hr.
    apply akin_on_bare; [|exact Hr].
    apply not_gets_head; [exact Hlen|]. fold ws.
    apply Nat.leb_gt in H3. lia.
Qed.

Lemma handle_one_request_akin (fs : filesystem) (r : request) (self : handler) :
  akin_on (req_line r) self
    (handle_one_request BaseHTTPRequestHandler.end_headers fs r self)
    (handle_one_request MyHTTPRequestHandler.end_headers fs r self).
Proof.
  unfold handle_one_request.
  destruct (Z.ltb 65536 (Z.of_nat (String.length (req_line r)))) eqn:Hlen.
  - cbv zeta.
    apply (akin_on_head _ self (set_command "" (set_request_version "" self)));
      [|reflexivity..|].
    + left. by apply Z.ltb_lt.
    + by apply send_error_paired.
  - destruct (String.eqb (req_line r) "") eqn:Hempty.
    + apply String.eqb_eq in Hempty.
      apply akin_on_bare; [|reflexivity].
      apply not_gets_head; [exact Hlen|]. rewrite Hempty. cbn. lia.
    + exact (serve_akin fs r self Hlen).
Qed.

(** In the base class too the loop of [handle] stops after one
    request. *)
Lemma handle_akin (fs : filesystem) (r : request) (self : handler) :
  akin_on (req_line r) self
    (handle BaseHTTPRequestHandler.end_headers fs r self)
    (MyHTTPRequestHandler.handle fs r self).
Proof.
  rewrite handle_once. unfold handle. cbv zeta.
  pose proof (handle_one_request_akin fs r (set_close_connection true self))
    as [Hyes Hno].
  pose proof (handle_one_request_closes fs r (set_close_connection true self))
    as Hclose.
  unfold MyHTTPRequestHandler.handle_one_request in *.
  split; intros Hg.
  - specialize (Hyes Hg).
    apply (paired_transport (set_close_connection true self) self);
      [reflexivity..|].
    destruct (handle_one_request BaseHTTPRequestHandler.end_headers fs r _)
      as [b|]; [|exact Hyes].
    cbn [mbind option_bind].
    destruct Hyes as (s & code & message & base & body & Hs & Hsame & Hrb & Hrs).
    assert (close_connection b = true) as ->.
    { apply (f_equal close_connection) in Hsame. cbn in Hsame.
      rewrite Hsame. by apply Hclose. }
    cbn [negb]. by exists s, code, message, base, body.
  - rewrite (Hno Hg).
    destruct (handle_one_request MyHTTPRequestHandler.end_headers fs r _)
      as [s|] eqn:Hs; [|done].
    cbn [mbind option_bind]. by rewrite (Hclose s eq_refl).
Qed.

End Akin.

(** The subclass against its base class, on whole responses.  After
    [parse_request], whatever the state of the handler: for a request
    that is not HTTP/0.9 both raise, or the two answer with the same
    status line, the same fields of the base behaviour and the same body,
    and leave the handler in the same state, the only difference being
    the three fixed fields, which the subclass puts after the fields of
    the base class and before the blank line; for an HTTP/0.9 request the
    two do the same.  On a whole connection, starting with the request
    line: the same holds, for a request line that gets a head and for one
    that does not. *)
Theorem override_only_adds_fixed_headers
    `{Runtime} (fs : filesystem) (root : string) (r : request) (self : handler) :
  (if BaseHTTPRequestHandler.is_http09 self then
     MyHTTPRequestHandler.dispatch fs self
     = SimpleHTTPRequestHandler.dispatch BaseHTTPRequestHandler.end_headers fs self
   else
     match SimpleHTTPRequestHandler.dispatch
             BaseHTTPRequestHandler.end_headers fs self with
     | None => MyHTTPRequestHandler.dispatch fs self = None
     | Some b =>
         exists s code message base body,
           MyHTTPRequestHandler.dispatch fs self = Some s /\
           set_wfile "" b = set_wfile "" s /\
           wfile b =
             wfile self ++ Str.join (buffered self)
             ++ response_bytes code message base body /\
           wfile s =
             wfile self ++ Str.join (buffered self)
             ++ response_bytes code message (base ++ fixed_headers)%list body
     end) /\
  (gets_head (req_line r) ->
   match SimpleHTTPRequestHandler.handle BaseHTTPRequestHandler.end_headers
           fs r (TCPServer.new_handler root r) with
   | None =>
       MyHTTPRequestHandler.handle fs r (TCPServer.new_handler root r) = None
   | Some b =>
       exists s code message base body,
         MyHTTPRequestHandler.handle fs r (TCPServer.new_handler root r) = Some s /\
         set_wfile "" b = set_wfile "" s /\
         wfile b = response_bytes code message base body /\
         wfile s = response_bytes code message (base ++ fixed_headers)%list body
   end) /\
  (~ gets_head (req_line r) ->
   MyHTTPRequestHandler.handle fs r (TCPServer.new_handler root r)
   = SimpleHTTPRequestHandler.handle BaseHTTPRequestHandler.end_headers
       fs r (TCPServer.new_handler root r)).
Proof.
  split; [|split].
  - destruct (BaseHTTPRequestHandler.is_http09 self) eqn:H09.
    + symmetry. by apply dispatch_agree_http09.
    + exact (dispatch_paired fs self H09).
  - intros Hg.
    destruct (handle_akin fs r (TCPServer.new_handler root r)) as [Hyes _].
    exact (Hyes Hg).
  - intros Hg.
    destruct (handle_akin fs r (TCPServer.new_handler root r)) as [_ Hno].
    symmetry. exact (Hno Hg).
Qed.

(** ** Error replies, redirects and listings, byte by byte *)

Section Replies.
Context `{Runtime}.
Import BaseHTTPRequestHandler SimpleHTTPRequestHandler.

(** An error reply with a body, for a request that is not HTTP/0.9: the
    page follows the head unless the request is a HEAD. *)
Lemma send_error_exact (self : handler) (code : Z) (message : string) :
  is_http09 self = false ->
  has_body code = true ->
  exists self',
    MyHTTPRequestHandler.send_error self code (Some message) None = Some self' /\
    responded self self' code message
      (error_fields (clock self) (error_page code message (explanation code)))
      (if String.eqb (command self) "HEAD" then ""
       else error_page code message (explanation code)).
Proof.
  intros H09 Hbody.
  unfold MyHTTPRequestHandler.send_error, send_error, explanation.
  destruct (default ("???", "???") (responses code)) as [shortmsg longmsg].
  cbv zeta. unfold has_body in Hbody. rewrite Hbody.
  cbn [default snd from_option].
  set (page := error_page code message longmsg).
  pose proof (send_response_built self code (Some message) H09) as Hb.
  apply (send_header_built _ _ _ _ _ "Connection" "close" H09) in Hb.
  apply (send_header_built _ _ _ _ _ "Content-Type" "text/html;charset=utf-8"
           H09) in Hb.
  apply (send_header_built _ _ _ _ _ "Content-Length"
           (Str.of_Z (Z.of_nat (String.length page))) H09) in Hb.
  destruct (end_headers_then_exact _ _ _ _ _ page
              (fun c => negb (String.eqb c "HEAD") && negb (String.eqb page ""))
              H09 Hb) as (self' & Hs & Hr).
  exists self'. split; [exact Hs|].
  destruct (String.eqb (command self) "HEAD"); [exact Hr|].
  cbn [negb andb] in Hr. destruct (String.eqb page "") eqn:Hp; [|exact Hr].
  apply String.eqb_eq in Hp. cbn [negb] in Hr. by rewrite Hp in *.
Qed.

(** [send_file] for a path with a slash at its end, or that the
    operating system does not open. *)
Lemma send_file_missing (fs : filesystem) (self : handler) (p : string) :
  is_http09 self = false ->
  Str.endswith "/" p = true \/ open_rb fs p = OpenOSError ->
  exists self',
    send_file MyHTTPRequestHandler.end_headers fs self p = Some (self', None) /\
    responded self self' 404 "File not found"
      (error_fields (clock self)
         (error_page 404 "File not found" (explanation 404)))
      (if String.eqb (command self) "HEAD" then ""
       else error_page 404 "File not found" (explanation 404)).
Proof.
  intros H09 Hmissing.
  destruct (send_error_exact self 404 "File not found" H09 eq_refl)
    as (self' & Hs & Hr).
  unfold MyHTTPRequestHandler.send_error in Hs.
  exists self'. split; [|exact Hr].
  unfold send_file. cbv zeta.
  destruct (Str.endswith "/" p) eqn:Hslash.
  - by rewrite Hs.
  - destruct Hmissing as [Hm|Hm]; [discriminate Hm|]. by rewrite Hm, Hs.
Qed.

(** [send_head] for a directory asked without the slash. *)
Lemma send_head_redirect (fs : filesystem) (self : handler) (parts : string) :
  is_http09 self = false ->
  isdir fs (translate_path self (path self)) = true ->
  urlsplit_path (path self) = Some parts ->
  Str.endswith "/" parts = false ->
  exists self',
    MyHTTPRequestHandler.send_head fs self = Some (self', None) /\
    responded self self' 301 (default "" (fst <$> responses 301))
      (redirect_fields (clock self) (redirect_url (path self))) "".
Proof.
  intros H09 Hdir Hsplit Hslash.
  pose proof (send_response_built self 301 None H09) as Hb.
  apply (send_header_built _ _ _ _ _ "Location" (redirect_url (path self)) H09)
    in Hb.
  apply (send_header_built _ _ _ _ _ "Content-Length" "0" H09) in Hb.
  destruct (end_headers_built _ _ _ _ _ H09 Hb) as (self' & Hs & _ & Hr).
  exists self'. split; [|exact Hr].
  unfold MyHTTPRequestHandler.send_head, send_head, self_path.
  rewrite Hdir, Hsplit. cbn [mbind option_bind]. rewrite Hslash.
  cbv zeta. cbn [negb].
  destruct (send_response_built self 301 None H09) as (_ & _ & -> & _).
  by rewrite Hs.
Qed.

(** [send_head] for a directory without index page. *)
Lemma send_head_listing (fs : filesystem) (self : handler) (parts : string)
    (entries : list string) (page : string) :
  is_http09 self = false ->
  isdir fs (translate_path self (path self)) = true ->
  urlsplit_path (path self) = Some parts ->
  Str.endswith "/" parts = true ->
  isfile fs (posixpath.join (translate_path self (path self)) "index.html")
    = false ->
  isfile fs (posixpath.join (translate_path self (path self)) "index.htm")
    = false ->
  listdir fs (translate_path self (path self)) = Some entries ->
  listing_page (path self)
    (map (listing_entry fs (translate_path self (path self)))
       (Str.sort_by lower entries)) = Some page ->
  exists self',
    MyHTTPRequestHandler.send_head fs self = Some (self', Some page) /\
    responded self self' 200 (default "" (fst <$> responses 200))
      (listing_fields (clock self) page) "".
Proof.
  intros H09 Hdir Hsplit Hslash Hi1 Hi2 Hlist Hpage.
  pose proof (send_response_built self 200 None H09) as Hb.
  apply (send_header_built _ _ _ _ _ "Content-type"
           ("text/html; charset=" ++ filesystem_encoding) H09) in Hb.
  apply (send_header_built _ _ _ _ _ "Content-Length"
           (Str.of_Z (Z.of_nat (String.length page))) H09) in Hb.
  destruct (end_headers_built _ _ _ _ _ H09 Hb) as (self' & Hs & _ & Hr).
  exists self'. split; [|exact Hr].
  unfold MyHTTPRequestHandler.send_head, send_head, self_path.
  rewrite Hdir, Hsplit. cbn [mbind option_bind]. rewrite Hslash, Hi1, Hi2.
  cbn [negb]. unfold list_directory, self_path. rewrite Hlist. cbv zeta.
  rewrite Hpage. cbn [mbind option_bind]. by rewrite Hs.
Qed.

Lemma listing_entry_shown (fs : filesystem) (p name : string) :
  listing_entry fs p name = shown_entry fs (posixpath.join p name) name.
Proof.
  unfold listing_entry, shown_entry.
  by destruct (isdir fs _), (islink fs _).
Qed.

(** The response to a request that [parse_request] accepts is what the
    method of its command writes. *)
Lemma answered_dispatch (fs : filesystem) (root : string) (r : request)
    (command target : string) (version : option string)
    (fields : list (string * string)) (response : string) :
  asks r command target version fields ->
  (exists self',
     MyHTTPRequestHandler.dispatch fs
       (parsed_handler root r command target (default "HTTP/0.9" version) fields)
     = Some self' /\ wfile self' = response) ->
  answered fs root r response.
Proof.
  intros Ha Hd. unfold answered. by rewrite (handle_asks fs root r _ _ _ _ Ha).
Qed.

End Replies.

(** The order of [sort], as the listing needs it. *)
Lemma insert_by_Permutation (key : string -> string) (x : string)
    (l : list string) :
  Permutation (x :: l) (Str.insert_by key x l).
Proof.
  induction l as [|y l IH]; [done|]. cbn [Str.insert_by].
  destruct (String.leb (key x) (key y)); [done|].
  rewrite <- IH. apply perm_swap.
Qed.

Lemma sort_by_Permutation (key : string -> string) (l : list string) :
  Permutation l (Str.sort_by key l).
Proof.
  induction l as [|x l IH]; [done|].
  unfold Str.sort_by in *. cbn [foldr].
  rewrite <- insert_by_Permutation. by constructor.
Qed.

Lemma insert_by_Sorted (key : string -> string) (x : string) (l : list string) :
  Sorted (fun a b => String.leb (key a) (key b) = true) l ->
  Sorted (fun a b => String.leb (key a) (key b) = true) (Str.insert_by key x l).
Proof.
  induction 1 as [|y l Hl IH Hy]; cbn [Str.insert_by].
  - by repeat constructor.
  - destruct (String.leb (key x) (key y)) eqn:Hxy.
    + constructor; [by constructor|by constructor].
    + constructor; [exact IH|].
      destruct (String.leb_total (key x) (key y)) as [Hle|Hle]; [congruence|].
      destruct Hy as [|z l Hyz]; cbn [Str.insert_by].
      * by constructor.
      * destruct (String.leb (key x) (key z)); by constructor.
Qed.

Lemma sort_by_Sorted (key : string -> string) (l : list string) :
  Sorted (fun a b => String.leb (key a) (key b) = true) (Str.sort_by key l).
Proof.
  induction l as [|x l IH]; [constructor|].
  unfold Str.sort_by in *. cbn [foldr]. by apply insert_by_Sorted.
Qed.

Lemma version_word_1_1 : version_word "HTTP/1.1".
Proof.
  split; [discriminate|]. exists 1, 1. split; [|left; lia].
  exists "1", "1". by repeat split.
Qed.

Lemma directory_path_site : directory_path "/srv/site".
Proof. split; [discriminate|reflexivity]. Qed.

(** A GET, with a version word, for a path that is not a directory and
    that the operating system does not open, or that is asked with a
    slash at its end, is answered 404 "File not found": the error page of
    the base class after a head that ends with the three fixed fields. *)
Theorem missing_file_is_not_found
    `{Runtime} (fs : filesystem) (root : string) (r : request)
    (target v : string) (fields : list (string * string))
    (names : list string) (slash : bool) :
  asks r "GET" target (Some v) fields ->
  Str.startswith "//" target = false ->
  directory_path root -> Forall plain names ->
  names_path (urllib.unquote (target_path target)) names ->
  Str.endswith "/" (Str.rstrip (target_path target)) = slash ->
  isdir fs (below root names ++ (if slash then "/" else "")) = false ->
  slash = true \/ open_rb fs (below root names) = OpenOSError ->
  answered fs root r
    (response_bytes 404 "File not found"
       (error_fields (req_time r)
          (error_page 404 "File not found" (explanation 404))
        ++ fixed_headers)%list
       (error_page 404 "File not found" (explanation 404))).
Proof.
  intros Ha Hs Hd Hn Hu Hslash Hdir Hmissing.
  apply (answered_dispatch fs root r _ _ _ _ _ Ha).
  set (self := parsed_handler root r "GET" target
                 (default "HTTP/0.9" (Some v)) fields).
  assert (SimpleHTTPRequestHandler.translate_path self (path self)
          = below root names ++ (if slash then "/" else "")) as Hp.
  { unfold self. rewrite (translate_path_parsed root r _ _ _ _ names Hs Hd Hn Hu).
    by rewrite Hslash. }
  pose proof (is_http09_asks root r _ _ _ _ Ha) as H09. fold self in H09.
  rewrite dispatch_GET by reflexivity.
  rewrite send_head_file by (by rewrite Hp). rewrite Hp.
  destruct (send_file_missing fs self
              (below root names ++ (if slash then "/" else "")) H09)
    as (self' & -> & Hr).
  { destruct slash.
    - left. by rewrite endswith_app.
    - right. rewrite append_nil_r. by destruct Hmissing. }
  cbn [mbind option_bind]. exists self'. split; [reflexivity|exact Hr].
Qed.

Lemma missing_file_is_not_found_witness :
  let r := Examples.get "/docs/missing.html" "HTTP/1.1" [] in
  answered Site.site_fs "/srv/site" r
    (response_bytes 404 "File not found"
       (error_fields (req_time r)
          (error_page 404 "File not found" (explanation 404))
        ++ fixed_headers)%list
       (error_page 404 "File not found" (explanation 404))).
Proof.
  apply (missing_file_is_not_found Site.site_fs "/srv/site"
           (Examples.get "/docs/missing.html" "HTTP/1.1" [])
           "/docs/missing.html" "HTTP/1.1" [] ["docs"; "missing.html"] false).
  - split; [by vm_compute|]. split; [reflexivity|].
    split; [vm_compute; reflexivity|exact version_word_1_1].
  - reflexivity.
  - exact directory_path_site.
  - repeat constructor; discriminate.
  - left. vm_compute. reflexivity.
  - vm_compute. reflexivity.
  - vm_compute. reflexivity.
  - right. vm_compute. reflexivity.
Defined.

(** A request with a version word whose method is neither GET nor HEAD
    is answered 501 "Unsupported method" with the three fixed fields, and
    the filesystem is not looked at: on any two filesystems the reply is
    the same. *)
Theorem unsupported_method_is_not_implemented
    `{Runtime} (fs1 fs2 : filesystem) (root : string) (r : request)
    (method target v : string) (fields : list (string * string)) :
  asks r method target (Some v) fields ->
  method <> "GET" ->
  method <> "HEAD" ->
  answered fs1 root r
    (response_bytes 501 ("Unsupported method (" ++ repr method ++ ")")
       (error_fields (req_time r)
          (error_page 501 ("Unsupported method (" ++ repr method ++ ")")
             (explanation 501))
        ++ fixed_headers)%list
       (error_page 501 ("Unsupported method (" ++ repr method ++ ")")
          (explanation 501))) /\
  MyHTTPRequestHandler.handle fs1 r (TCPServer.new_handler root r)
  = MyHTTPRequestHandler.handle fs2 r (TCPServer.new_handler root r).
Proof.
  intros Ha Hget Hhead.
  set (self := parsed_handler root r method target
                 (default "HTTP/0.9" (Some v)) fields).
  pose proof (is_http09_asks root r _ _ _ _ Ha) as H09. fold self in H09.
  apply String.eqb_neq in Hget, Hhead.
  assert (forall fs,
            MyHTTPRequestHandler.dispatch fs self
            = MyHTTPRequestHandler.send_error self 501
                (Some ("Unsupported method (" ++ repr method ++ ")")) None)
    as Hd.
  { intros fs.
    unfold MyHTTPRequestHandler.dispatch, SimpleHTTPRequestHandler.dispatch.
    change (command self) with method. by rewrite Hget, Hhead. }
  split.
  - apply (answered_dispatch fs1 root r _ _ _ _ _ Ha). fold self.
    destruct (send_error_exact self 501
                ("Unsupported method (" ++ repr method ++ ")") H09 eq_refl)
      as (self' & Hs & Hr).
    change (command self) with method in Hr.
    rewrite Hhead in Hr.
    exists self'. split; [|exact Hr]. by rewrite Hd.
  - rewrite !(handle_asks _ root r _ _ _ _ Ha). fold self. by rewrite !Hd.
Qed.

Lemma unsupported_method_is_not_implemented_witness :
  let r := Request ("POST /docs/guide.html HTTP/1.1" ++ Str.CRLF) (Headers [])
             1767225600 in
  answered Site.site_fs "/srv/site" r
    (response_bytes 501 ("Unsupported method (" ++ repr "POST" ++ ")")
       (error_fields (req_time r)
          (error_page 501 ("Unsupported method (" ++ repr "POST" ++ ")")
             (explanation 501))
        ++ fixed_headers)%list
       (error_page 501 ("Unsupported method (" ++ repr "POST" ++ ")")
          (explanation 501))) /\
  MyHTTPRequestHandler.handle Site.site_fs r (TCPServer.new_handler "/srv/site" r)
  = MyHTTPRequestHandler.handle Examples.demo_fs r
      (TCPServer.new_handler "/srv/site" r).
Proof.
  apply (unsupported_method_is_not_implemented Site.site_fs Examples.demo_fs
           "/srv/site"
           (Request ("POST /docs/guide.html HTTP/1.1" ++ Str.CRLF) (Headers [])
              1767225600)
           "POST" "/docs/guide.html" "HTTP/1.1" []).
  - split; [by vm_compute|]. split; [reflexivity|].
    split; [vm_compute; reflexivity|exact version_word_1_1].
  - discriminate.
  - discriminate.
Defined.

(** A GET or HEAD, with a version word, for a directory whose URL path
    does not end with a slash is answered 301 with a [Location] field and
    a content length of 0, followed by the three fixed fields, and no
    body; the directory is not listed. *)
Theorem directory_without_slash_is_redirected
    `{Runtime} (fs : filesystem) (root : string) (r : request)
    (method target v : string) (fields : list (string * string))
    (names : list string) (slash : bool) (parts : string) :
  asks r method target (Some v) fields ->
  method = "GET" \/ method = "HEAD" ->
  Str.startswith "//" target = false ->
  directory_path root -> Forall plain names ->
  names_path (urllib.unquote (target_path target)) names ->
  Str.endswith "/" (Str.rstrip (target_path target)) = slash ->
  isdir fs (below root names ++ (if slash then "/" else "")) = true ->
  urlsplit_path target = Some parts ->
  Str.endswith "/" parts = false ->
  answered fs root r
    (response_bytes 301 (default "" (fst <$> responses 301))
       (redirect_fields (req_time r) (redirect_url target) ++ fixed_headers)%list
       "").
Proof.
  intros Ha Hcmd Hs Hd Hn Hu Hslash Hdir Hsplit Hparts.
  apply (answered_dispatch fs root r _ _ _ _ _ Ha).
  set (self := parsed_handler root r method target
                 (default "HTTP/0.9" (Some v)) fields).
  assert (SimpleHTTPRequestHandler.translate_path self (path self)
          = below root names ++ (if slash then "/" else "")) as Hp.
  { unfold self. rewrite (translate_path_parsed root r _ _ _ _ names Hs Hd Hn Hu).
    by rewrite Hslash. }
  assert (path self = target) as Hpath.
  { unfold self, parsed_handler. cbn [path]. by rewrite Hs. }
  pose proof (is_http09_asks root r _ _ _ _ Ha) as H09. fold self in H09.
  destruct (send_head_redirect fs self parts H09) as (self' & Hh & Hr);
    [by rewrite Hp|by rewrite Hpath|done|].
  rewrite Hpath in Hr.
  exists self'. split; [|exact Hr].
  destruct Hcmd as [Hc|Hc].
  - rewrite dispatch_GET, Hh by (by rewrite <- Hc). reflexivity.
  - rewrite dispatch_HEAD, Hh by (by rewrite <- Hc). reflexivity.
Qed.

Lemma directory_without_slash_is_redirected_witness :
  let r := Examples.get "/docs" "HTTP/1.1" [] in
  answered Site.site_fs "/srv/site" r
    (response_bytes 301 (default "" (fst <$> responses 301))
       (redirect_fields (req_time r) (redirect_url "/docs") ++ fixed_headers)%list
       "").
Proof.
  apply (directory_without_slash_is_redirected Site.site_fs "/srv/site"
           (Examples.get "/docs" "HTTP/1.1" [])
           "GET" "/docs" "HTTP/1.1" [] ["docs"] false "/docs").
  - split; [by vm_compute|]. split; [reflexivity|].
    split; [vm_compute; reflexivity|exact version_word_1_1].
  - by left.
  - reflexivity.
  - exact directory_path_site.
  - repeat constructor; discriminate.
  - left. vm_compute. reflexivity.
  - vm_compute. reflexivity.
  - vm_compute. reflexivity.
  - vm_compute. reflexivity.
  - vm_compute. reflexivity.
Defined.

(** ** Conditional requests, HEAD requests and listings *)

(** A GET or HEAD, with a version word, for a file for which the
    condition of an [If-Modified-Since] field holds is answered 304 with
    the two fields of [send_response] and the three fixed fields, and no
    body: the file is opened but not sent. *)
Theorem conditional_request_is_not_modified
    `{Runtime} (fs : filesystem) (root : string) (r : request)
    (method target v : string) (fields : list (string * string))
    (names : list string) (f : file) :
  asks r method target (Some v) fields ->
  method = "GET" \/ method = "HEAD" ->
  Str.startswith "//" target = false ->
  directory_path root -> names <> [] -> Forall plain names ->
  urllib.unquote (target_path target) = absolute names ->
  Str.endswith "/" (Str.rstrip (target_path target)) = false ->
  isdir fs (below root names) = false ->
  open_rb fs (below root names) = Opened f ->
  datetime.fromtimestamp (st_mtime f) <> None ->
  unchanged_since fields f ->
  answered fs root r
    (response_bytes 304 (default "" (fst <$> responses 304))
       ([("Server", version_string); ("Date", formatdate (req_time r))]
        ++ fixed_headers)%list
       "").
Proof.
  intros Ha Hcmd Hs Hd Hne Hn Hu Hslash Hdir Hopen Hrep Hcond.
  apply (answered_dispatch fs root r _ _ _ _ _ Ha).
  set (self := parsed_handler root r method target
                 (default "HTTP/0.9" (Some v)) fields).
  assert (SimpleHTTPRequestHandler.translate_path self (path self)
          = below root names) as Hp.
  { unfold self. rewrite (translate_path_parsed root r _ _ _ _ names Hs Hd Hn)
      by by left.
    by rewrite Hslash, append_nil_r. }
  assert (Str.endswith "/" (below root names) = false) as Hend
    by (apply below_no_slash; auto).
  pose proof (is_http09_asks root r _ _ _ _ Ha) as H09. fold self in H09.
  destruct (not_modified_unchanged self f Hrep) as [Hyes _].
  destruct (send_file_unchanged fs self _ f Hend Hopen (Hyes Hcond))
    as (self' & Hf & Hr).
  rewrite H09 in Hr. exists self'. split; [|exact Hr].
  destruct Hcmd as [Hc|Hc].
  - rewrite dispatch_GET by (by rewrite <- Hc).
    rewrite send_head_file by (by rewrite Hp). by rewrite Hp, Hf.
  - rewrite dispatch_HEAD by (by rewrite <- Hc).
    rewrite send_head_file by (by rewrite Hp). by rewrite Hp, Hf.
Qed.

Lemma conditional_request_is_not_modified_witness :
  let r := Request ("HEAD /docs/guide.html HTTP/1.1" ++ Str.CRLF)
             (Headers [("If-Modified-Since", "Thu, 01 Jan 2026 00:00:00 GMT")])
             1767225600 in
  answered Site.site_fs "/srv/site" r
    (response_bytes 304 (default "" (fst <$> responses 304))
       ([("Server", version_string); ("Date", formatdate (req_time r))]
        ++ fixed_headers)%list
       "").
Proof.
  apply (conditional_request_is_not_modified Site.site_fs "/srv/site"
           (Request ("HEAD /docs/guide.html HTTP/1.1" ++ Str.CRLF)
              (Headers [("If-Modified-Since", "Thu, 01 Jan 2026 00:00:00 GMT")])
              1767225600)
           "HEAD" "/docs/guide.html" "HTTP/1.1"
           [("If-Modified-Since", "Thu, 01 Jan 2026 00:00:00 GMT")]
           ["docs"; "guide.html"] Site.page).
  - split; [by vm_compute|]. split; [reflexivity|].
    split; [vm_compute; reflexivity|exact version_word_1_1].
  - by right.
  - reflexivity.
  - exact directory_path_site.
  - discriminate.
  - repeat constructor; discriminate.
  - vm_compute. reflexivity.
  - vm_compute. reflexivity.
  - vm_compute. reflexivity.
  - vm_compute. reflexivity.
  - discriminate.
  - exists "Thu, 01 Jan 2026 00:00:00 GMT", TzUTC, 1767225600.
    split; [reflexivity|]. split; [reflexivity|].
    split; [vm_compute; reflexivity|]. split; [discriminate|].
    vm_compute. discriminate.
Defined.

(** A HEAD, with a version word, for a file that is served gets the
    head a GET gets, with the type, the length and the date of the file
    and the three fixed fields, and none of the bytes of the file. *)
Theorem head_request_sends_no_body
    `{Runtime} (fs : filesystem) (root : string) (r_head r_get : request)
    (target v : string) (fields : list (string * string))
    (names : list string) (f : file) :
  asks r_head "HEAD" target (Some v) fields ->
  asks r_get "GET" target (Some v) fields ->
  req_time r_get = req_time r_head ->
  Str.startswith "//" target = false ->
  directory_path root -> names <> [] -> Forall plain names ->
  urllib.unquote (target_path target) = absolute names ->
  Str.endswith "/" (Str.rstrip (target_path target)) = false ->
  isdir fs (below root names) = false ->
  open_rb fs (below root names) = Opened f ->
  datetime.fromtimestamp (st_mtime f) <> None ->
  ~ unchanged_since fields f ->
  answered fs root r_head
    (response_bytes 200 (default "" (fst <$> responses 200))
       (file_fields (below root names) f (req_time r_head) ++ fixed_headers)%list
       "") /\
  answered fs root r_get
    (response_bytes 200 (default "" (fst <$> responses 200))
       (file_fields (below root names) f (req_time r_head) ++ fixed_headers)%list
       (content f)).
Proof.
  intros Hh Hg Htime Hs Hd Hne Hn Hu Hslash Hdir Hopen Hrep Hcond.
  assert (Str.endswith "/" (below root names) = false) as Hend
    by (apply below_no_slash; auto).
  split.
  - apply (answered_dispatch fs root r_head _ _ _ _ _ Hh).
    set (self := parsed_handler root r_head "HEAD" target
                   (default "HTTP/0.9" (Some v)) fields).
    assert (SimpleHTTPRequestHandler.translate_path self (path self)
            = below root names) as Hp.
    { unfold self.
      rewrite (translate_path_parsed root r_head _ _ _ _ names Hs Hd Hn)
        by by left.
      by rewrite Hslash, append_nil_r. }
    pose proof (is_http09_asks root r_head _ _ _ _ Hh) as H09. fold self in H09.
    destruct (not_modified_unchanged self f Hrep) as [_ Hno].
    destruct (send_file_found fs self _ f Hend Hopen Hrep (Hno Hcond))
      as (self' & Hf & Hr).
    rewrite H09 in Hr. exists self'. split; [|exact Hr].
    rewrite dispatch_HEAD by reflexivity.
    rewrite send_head_file by (by rewrite Hp). by rewrite Hp, Hf.
  - rewrite <- Htime.
    apply (answered_dispatch fs root r_get _ _ _ _ _ Hg).
    set (self := parsed_handler root r_get "GET" target
                   (default "HTTP/0.9" (Some v)) fields).
    assert (SimpleHTTPRequestHandler.translate_path self (path self)
            = below root names) as Hp.
    { unfold self.
      rewrite (translate_path_parsed root r_get _ _ _ _ names Hs Hd Hn)
        by by left.
      by rewrite Hslash, append_nil_r. }
    pose proof (is_http09_asks root r_get _ _ _ _ Hg) as H09. fold self in H09.
    destruct (not_modified_unchanged self f Hrep) as [_ Hno].
    destruct (send_file_found fs self _ f Hend Hopen Hrep (Hno Hcond))
      as (self' & Hf & Hr).
    rewrite H09 in Hr.
    apply (responded_body _ _ _ _ _ _ (content f)) in Hr.
    eexists. split; [|exact Hr].
    rewrite dispatch_GET by reflexivity.
    rewrite send_head_file by (by rewrite Hp). by rewrite Hp, Hf.
Qed.

Lemma head_request_sends_no_body_witness :
  let r_head := Request ("HEAD /docs/guide.html HTTP/1.1" ++ Str.CRLF)
                  (Headers []) 1767225600 in
  let r_get := Examples.get "/docs/guide.html" "HTTP/1.1" [] in
  answered Site.site_fs "/srv/site" r_head
    (response_bytes 200 (default "" (fst <$> responses 200))
       (file_fields (below "/srv/site" ["docs"; "guide.html"]) Site.page
          (req_time r_head) ++ fixed_headers)%list
       "") /\
  answered Site.site_fs "/srv/site" r_get
    (response_bytes 200 (default "" (fst <$> responses 200))
       (file_fields (below "/srv/site" ["docs"; "guide.html"]) Site.page
          (req_time r_head) ++ fixed_headers)%list
       (content Site.page)).
Proof.
  apply (head_request_sends_no_body Site.site_fs "/srv/site"
           (Request ("HEAD /docs/guide.html HTTP/1.1" ++ Str.CRLF)
              (Headers []) 1767225600)
           (Examples.get "/docs/guide.html" "HTTP/1.1" [])
           "/docs/guide.html" "HTTP/1.1" [] ["docs"; "guide.html"] Site.page).
  - split; [by vm_compute|]. split; [reflexivity|].
    split; [vm_compute; reflexivity|exact version_word_1_1].
  - split; [by vm_compute|]. split; [reflexivity|].
    split; [vm_compute; reflexivity|exact version_word_1_1].
  - reflexivity.
  - reflexivity.
  - exact directory_path_site.
  - discriminate.
  - repeat constructor; discriminate.
  - vm_compute. reflexivity.
  - vm_compute. reflexivity.
  - vm_compute. reflexivity.
  - vm_compute. reflexivity.
  - discriminate.
  - intros (value & tz & t & Hget & _). discriminate Hget.
Defined.

(** A GET, with a version word, for a directory asked with the slash at
    its end, which holds neither [index.html] nor [index.htm] and which
    can be listed, is answered 200 with the page of the listing after a
    head that ends with the three fixed fields.  The entries of the page
    are the names of the directory, each once, in the order of their
    lower-case forms; a sub-directory is shown with a slash and a
    symbolic link with an at sign. *)
Theorem directory_without_index_is_listed
    `{Runtime} (fs : filesystem) (root : string) (r : request)
    (target v : string) (fields : list (string * string))
    (names : list string) (parts : string) (entries : list string)
    (page : string) :
  asks r "GET" target (Some v) fields ->
  Str.startswith "//" target = false ->
  directory_path root -> Forall plain names ->
  names_path (urllib.unquote (target_path target)) names ->
  Str.endswith "/" (Str.rstrip (target_path target)) = true ->
  isdir fs (below root names ++ "/") = true ->
  urlsplit_path target = Some parts ->
  Str.endswith "/" parts = true ->
  isfile fs (below root (names ++ ["index.html"])) = false ->
  isfile fs (below root (names ++ ["index.htm"])) = false ->
  listdir fs (below root names ++ "/") = Some entries ->
  Forall plain entries ->
  listing_page target
    (map (fun name => shown_entry fs (below root (names ++ [name])) name)
       (Str.sort_by lower entries)) = Some page ->
  answered fs root r
    (response_bytes 200 (default "" (fst <$> responses 200))
       (listing_fields (req_time r) page ++ fixed_headers)%list
       page) /\
  Permutation entries (Str.sort_by lower entries) /\
  Sorted listing_order (Str.sort_by lower entries).
Proof.
  intros Ha Hs Hd Hn Hu Hslash Hdir Hsplit Hparts Hi1 Hi2 Hlist Hplain Hpage.
  split; [|split; [apply sort_by_Permutation|apply sort_by_Sorted]].
  apply (answered_dispatch fs root r _ _ _ _ _ Ha).
  set (self := parsed_handler root r "GET" target
                 (default "HTTP/0.9" (Some v)) fields).
  assert (SimpleHTTPRequestHandler.translate_path self (path self)
          = below root names ++ "/") as Hp.
  { unfold self. rewrite (translate_path_parsed root r _ _ _ _ names Hs Hd Hn Hu).
    by rewrite Hslash. }
  assert (path self = target) as Hpath.
  { unfold self, parsed_handler. cbn [path]. by rewrite Hs. }
  pose proof (is_http09_asks root r _ _ _ _ Ha) as H09. fold self in H09.
  destruct (send_head_listing fs self parts entries page H09)
    as (self' & Hh & Hr).
  - by rewrite Hp.
  - by rewrite Hpath.
  - done.
  - by rewrite Hp, join_below_slash by apply plain_index_html.
  - by rewrite Hp, join_below_slash by apply plain_index_htm.
  - by rewrite Hp.
  - rewrite Hp, Hpath, <- Hpage. f_equal.
    apply (sort_by_Forall lower) in Hplain. clear Hpage.
    induction Hplain as [|name l Hname _ IH]; [done|].
    cbn [map]. by rewrite IH, listing_entry_shown, join_below_slash.
  - apply (responded_body _ _ _ _ _ _ page) in Hr.
    eexists. split; [|exact Hr].
    rewrite dispatch_GET by reflexivity. by rewrite Hh.
Qed.

Lemma directory_without_index_is_listed_witness :
  let r := Examples.get "/docs/" "HTTP/1.1" [] in
  answered Site.site_fs "/srv/site" r
    (response_bytes 200 (default "" (fst <$> responses 200))
       (listing_fields (req_time r)
          (default "" (listing_page "/docs/" [("guide.html", "guide.html")]))
        ++ fixed_headers)%list
       (default "" (listing_page "/docs/" [("guide.html", "guide.html")]))) /\
  Permutation ["guide.html"] (Str.sort_by lower ["guide.html"]) /\
  Sorted listing_order (Str.sort_by lower ["guide.html"]).
Proof.
  apply (directory_without_index_is_listed Site.site_fs "/srv/site"
           (Examples.get "/docs/" "HTTP/1.1" [])
           "/docs/" "HTTP/1.1" [] ["docs"] "/docs/" ["guide.html"]
           (default "" (listing_page "/docs/" [("guide.html", "guide.html")]))).
  - split; [by vm_compute|]. split; [reflexivity|].
    split; [vm_compute; reflexivity|exact version_word_1_1].
  - reflexivity.
  - exact directory_path_site.
  - repeat constructor; discriminate.
  - right. split; [discriminate|]. vm_compute. reflexivity.
  - vm_compute. reflexivity.
  - vm_compute. reflexivity.
  - vm_compute. reflexivity.
  - vm_compute. reflexivity.
  - vm_compute. reflexivity.
  - vm_compute. reflexivity.
  - vm_compute. reflexivity.
  - repeat constructor; discriminate.
  - vm_compute. reflexivity.
Defined.

(** ** Query strings, closing connections, repeated calls *)

Lemma before_app (c : ascii) (p s : string) :
  Str.mem c p = false -> Str.before c (p ++ s) = p ++ Str.before c s.
Proof.
  induction p as [|d p IH]; [done|]. cbn [Str.mem].
  rewrite append_cons. cbn [Str.before].
  destruct (Ascii.eqb c d); [done|]. intros Hm.
  by rewrite IH, append_cons.
Qed.

Lemma before_sep (c : ascii) (rest : string) :
  Str.before c (String c rest) = "".
Proof. cbn. by rewrite Ascii.eqb_refl. Qed.

Lemma before_none (c : ascii) (p : string) :
  Str.mem c p = false -> Str.before c p = p.
Proof.
  intros Hm. rewrite <- (append_nil_r p) at 1.
  by rewrite before_app, append_nil_r.
Qed.

(** A query string or a fragment after the path never changes the file
    a request addresses: [translate_path] cuts the request path at the
    first [?] and at the first [#] before anything else. *)
Theorem translate_path_ignores_query_and_fragment
    `{Runtime} (self : handler) (p query fragment : string) :
  Str.mem "?" p = false ->
  Str.mem "#" p = false ->
  SimpleHTTPRequestHandler.translate_path self (p ++ String "?" query)
  = SimpleHTTPRequestHandler.translate_path self p /\
  SimpleHTTPRequestHandler.translate_path self (p ++ String "#" fragment)
  = SimpleHTTPRequestHandler.translate_path self p.
Proof.
  intros Hq Hf. unfold SimpleHTTPRequestHandler.translate_path.
  rewrite (before_none "?" p Hq), (before_none "#" p Hf).
  rewrite (before_app "?" p _ Hq), before_sep, append_nil_r.
  rewrite (before_none "#" p Hf).
  rewrite (before_app "?" p (String "#" fragment) Hq).
  rewrite (before_app "#" p _ Hf).
  assert (Str.before "#" (Str.before "?" (String "#" fragment)) = "") as ->.
  { cbn. reflexivity. }
  by rewrite append_nil_r.
Qed.

Lemma translate_path_ignores_query_and_fragment_witness :
  SimpleHTTPRequestHandler.translate_path
    (Site.handler_for "GET" "/docs/guide.html?v=2" "HTTP/1.1")
    ("/docs/guide.html" ++ String "?" "v=2")
  = SimpleHTTPRequestHandler.translate_path
      (Site.handler_for "GET" "/docs/guide.html?v=2" "HTTP/1.1")
      "/docs/guide.html" /\
  SimpleHTTPRequestHandler.translate_path
    (Site.handler_for "GET" "/docs/guide.html?v=2" "HTTP/1.1")
    ("/docs/guide.html" ++ String "#" "top")
  = SimpleHTTPRequestHandler.translate_path
      (Site.handler_for "GET" "/docs/guide.html?v=2" "HTTP/1.1")
      "/docs/guide.html".
Proof.
  apply (translate_path_ignores_query_and_fragment
           (Site.handler_for "GET" "/docs/guide.html?v=2" "HTTP/1.1")
           "/docs/guide.html" "v=2" "top"); reflexivity.
Defined.

(** An error reply always ends the connection: [send_error] marks the
    connection to be closed, for HTTP/0.9 requests as for the others, and
    the override of [end_headers] keeps the mark. *)
Theorem error_reply_closes_connection
    `{Runtime} (self : handler) code message explain :
  exists self',
    MyHTTPRequestHandler.send_error self code message explain = Some self' /\
    close_connection self' = true.
Proof.
  destruct (send_error_total self code message explain) as [self' Hs].
  exists self'. split; [exact Hs|]. by eapply send_error_closes.
Qed.

(** Calling the override twice sends the base headers once and the
    three fixed lines twice: the first call empties the buffer, so the
    second writes only the fixed lines and a blank line.  For an HTTP/0.9
    request neither call writes anything. *)
Theorem end_headers_twice (self : handler) :
  exists self1 self2,
    MyHTTPRequestHandler.end_headers self = Some self1 /\
    MyHTTPRequestHandler.end_headers self1 = Some self2 /\
    wfile self2 =
      if BaseHTTPRequestHandler.is_http09 self then wfile self
      else
        wfile self ++ Str.join (buffered self)
        ++ Str.join fixed_header_lines ++ Str.CRLF
        ++ Str.join fixed_header_lines ++ Str.CRLF.
Proof.
  destruct (BaseHTTPRequestHandler.is_http09 self) eqn:H09.
  - exists self, self. by rewrite end_headers_http09.
  - eexists _, _.
    split; [by apply end_headers_not_http09|].
    split; [by apply end_headers_not_http09|].
    repeat change (wfile (set_headers_buffer ?b (set_wfile ?w ?h))) with w.
    change (buffered (set_headers_buffer (Some []) ?h)) with (@nil string).
    rewrite !join_app.
    change (Str.join [Str.CRLF]) with (Str.CRLF ++ "").
    change (Str.join []) with "".
    by rewrite ?append_nil_l, ?append_nil_r, ?append_assoc.
Qed.

(** ** The place of the script *)


